(** * turtle_transformer: CSV time series to SAREF triples

    A shallow embedding of [transformer.py] and the properties of its
    column-to-ontology mapping and row-to-observation materialisation.

    Conventions of the embedding.
    - A Python [str] is a [string]; a character is a code point below 256
      (the Latin-1 range), which covers every character class, separator and
      literal the program inspects.
    - A Python [float] is an IEEE-754 binary64 value, [spec_float].
    - The pandas reader and the rdflib serialiser are collaborators outside
      the program: the table comes in as the header and the row objects that
      [pd.read_csv] hands over, and the graph is the sequence of [g.add]
      calls (the rdflib graph is the set of the elements of that sequence).
      The prefixes bound with [g.bind] only shape the serialised text and
      are left out. *)

From Stdlib Require Import ZArith String Ascii List Bool Lia DecimalString.
From Stdlib Require Import Floats.SpecFloat.
From stdpp Require Import gmap strings list.

Open Scope string_scope.
Open Scope list_scope.

(** ** Python string operations used by the program *)

Module Py.

Definition in_range (lo hi c : ascii) : bool :=
  Ascii.leb lo c && Ascii.leb c hi.

(** The class [[a-zA-Z]]. *)
Definition is_letter (c : ascii) : bool :=
  in_range "a" "z" c || in_range "A" "Z" c.

(** The class [[0-9]]. *)
Definition is_digit (c : ascii) : bool := in_range "0" "9" c.

(** The class [[a-zA-Z0-9_]]. *)
Definition is_word (c : ascii) : bool :=
  is_letter c || is_digit c || Ascii.eqb c "_".

(** What [.] matches without DOTALL: anything but a line feed. *)
Definition is_dot (c : ascii) : bool := negb (Ascii.eqb c "010").

(** [str.isspace] on one character. *)
Definition is_space (c : ascii) : bool :=
  in_range "009" "013" c || in_range "028" "032" c
  || Ascii.eqb c "133" || Ascii.eqb c "160".

(** [str.lower] on one character. *)
Definition is_upper (c : ascii) : bool :=
  in_range "A" "Z" c
  || (in_range "192" "222" c && negb (Ascii.eqb c "215")).

Definition lower_char (c : ascii) : ascii :=
  if is_upper c then ascii_of_N (N_of_ascii c + 32) else c.

Fixpoint map_chars (f : ascii → ascii) (s : string) : string :=
  match s with
  | "" => ""
  | String c r => String (f c) (map_chars f r)
  end.

Definition lower (s : string) : string :=
  map_chars lower_char s.

(** [s[len(p):]] when [s.startswith(p)], nothing otherwise. *)
Fixpoint after_prefix (p s : string) : option string :=
  match p, s with
  | "", _ => Some s
  | String a p', String b s' =>
      if Ascii.eqb a b then after_prefix p' s' else None
  | String _ _, "" => None
  end.

(** [s.startswith(p)]. *)
Definition startswith (p s : string) : bool :=
  match after_prefix p s with
  | Some _ => true
  | None => false
  end.

(** The longest prefix of characters in a class, and what follows it:
    how a greedy [[class]*] consumes its input. *)
Fixpoint span (p : ascii → bool) (s : string) : string * string :=
  match s with
  | "" => ("", "")
  | String c r =>
      if p c then let '(a, b) := span p r in (String c a, b)
      else ("", s)
  end.

(** [s[:n]]. *)
Fixpoint take (n : nat) (s : string) : string :=
  match n, s with
  | S n', String c r => String c (take n' r)
  | _, _ => ""
  end.

(** [c in s]. *)
Fixpoint contains_char (c : ascii) (s : string) : bool :=
  match s with
  | "" => false
  | String d r => Ascii.eqb c d || contains_char c r
  end.

(** [s.split(sep)] for a one-character separator: never empty. *)
Fixpoint split (sep : ascii) (s : string) : list string :=
  match s with
  | "" => [""]
  | String c r =>
      if Ascii.eqb c sep then "" :: split sep r
      else match split sep r with
           | h :: t => String c h :: t
           | [] => [String c ""]
           end
  end.

Fixpoint lstrip (s : string) : string :=
  match s with
  | "" => ""
  | String c r => if is_space c then lstrip r else s
  end.

Fixpoint rstrip (s : string) : string :=
  match s with
  | "" => ""
  | String c r =>
      match rstrip r with
      | "" => if is_space c then "" else String c ""
      | r' => String c r'
      end
  end.

(** [s.strip()]. *)
Definition strip (s : string) : string := rstrip (lstrip s).

(** [s.replace(old, new)] for a non-empty [old]: occurrences are replaced
    left to right and do not overlap.  [skip] counts the characters of an
    occurrence that are still to be dropped. *)
Fixpoint replace_from (old new : string) (skip : nat) (s : string) : string :=
  match s with
  | "" => ""
  | String c r =>
      match skip with
      | S k => replace_from old new k r
      | O =>
          match after_prefix old s with
          | Some _ => new +:+ replace_from old new (String.length old - 1) r
          | None => String c (replace_from old new 0 r)
          end
      end
  end.

Definition replace (old new s : string) : string :=
  replace_from old new 0 s.

(** [s.split(sep)[-1]]. *)
Definition last_field (sep : ascii) (s : string) : string :=
  List.last (split sep s) "".

End Py.

(** ** The regular expressions of the program

    The fragment of Python's [re] that the patterns are written in, with its
    backtracking semantics: alternatives are tried from left to right, a
    [+] first takes one more repetition and gives it back when the rest
    cannot be matched.  The matcher threads the rest of the text and the
    groups closed so far through a continuation; the groups of the two
    patterns do not nest, so they close in the order of their numbers. *)

Module Re.

Inductive regex :=
| Chars (s : string)         (* the text [s] *)
| Class (p : ascii → bool)   (* one character of a class *)
| Seq (r1 r2 : regex)        (* [r1r2] *)
| Alt (r1 r2 : regex)        (* [r1|r2] *)
| Plus (r : regex)           (* [r+] *)
| Group (r : regex)          (* [(r)] *)
| Dollar.                    (* [$] *)

(** [$] without MULTILINE: the end of the text, or just before a line feed
    that ends the text. *)
Definition at_end (s : string) : bool :=
  match s with
  | "" => true
  | String c "" => Ascii.eqb c "010"
  | _ => false
  end.

(** The text between the point where [s] is left to read and the later
    point where [s'] is. *)
Definition consumed (s s' : string) : string :=
  Py.take (String.length s - String.length s') s.

Definition cont : Type := string → list string → option (list string).

Fixpoint exec (r : regex) (s : string) (gs : list string) (k : cont)
  : option (list string) :=
  match r with
  | Chars t =>
      match Py.after_prefix t s with
      | Some s' => k s' gs
      | None => None
      end
  | Class p =>
      match s with
      | String c s' => if p c then k s' gs else None
      | "" => None
      end
  | Seq r1 r2 => exec r1 s gs (λ s' gs', exec r2 s' gs' k)
  | Alt r1 r2 =>
      match exec r1 s gs k with
      | Some m => Some m
      | None => exec r2 s gs k
      end
  | Plus r1 =>
      (fix again (n : nat) (s : string) (gs : list string) : option (list string) :=
         match n with
         | O => None
         | S n' =>
             exec r1 s gs (λ s' gs',
               match again n' s' gs' with
               | Some m => Some m
               | None => k s' gs'
               end)
         end) (S (String.length s)) s gs
  | Group r1 => exec r1 s gs (λ s' gs', k s' (gs' ++ [consumed s s']))
  | Dollar => if at_end s then k s gs else None
  end.

(** [re.match(r, s)]: the groups of the first way to match [r] at the start
    of [s]. *)
Definition match_ (r : regex) (s : string) : option (list string) :=
  exec r s [] (λ _ gs, Some gs).

End Re.

(** ** Namespaces *)

Definition SAREF : string := "https://saref.etsi.org/core/".
Definition EX : string := "http://example.com/".
Definition EXDATA : string := "http://example.com/data/".
Definition RDF : string := "http://www.w3.org/1999/02/22-rdf-syntax-ns#".
Definition RDFS : string := "http://www.w3.org/2000/01/rdf-schema#".
Definition XSD : string := "http://www.w3.org/2001/XMLSchema#".

(** ** Identifier deriver *)

(** [re.sub(r'^DE_KN_', '', text)]: the anchor admits one match, at the
    start of the text. *)
Definition strip_marker (text : string) : string :=
  match Py.after_prefix "DE_KN_" text with
  | Some r => r
  | None => text
  end.

Definition sanitize_for_uri (text : string) : string :=
  let text := strip_marker text in
  Py.map_chars (λ c, if Py.is_word c then c else "_"%char) text.

(** [r"DE_KN_([a-zA-Z]+[0-9]+)(_|$)"]. *)
Definition location_pattern : Re.regex :=
  Re.Seq (Re.Chars "DE_KN_")
    (Re.Seq (Re.Group (Re.Seq (Re.Plus (Re.Class Py.is_letter))
                              (Re.Plus (Re.Class Py.is_digit))))
            (Re.Group (Re.Alt (Re.Chars "_") Re.Dollar))).

(** [re.match(r"DE_KN_([a-zA-Z]+[0-9]+)(_|$)", column_name)] and its
    [group(1)]. *)
Definition location_token (column_name : string) : option string :=
  match Re.match_ location_pattern column_name with
  | Some (tok :: _) => Some tok
  | _ => None
  end.

Definition get_feature_of_interest_uri (column_name : string) : option string :=
  match location_token column_name with
  | Some tok => Some (EXDATA +:+ "Location_" +:+ tok)
  | None => None
  end.

Definition get_sensor_uri (column_name : string) : string :=
  let sanitized_name := sanitize_for_uri column_name in
  EXDATA +:+ "Sensor_" +:+ sanitized_name.

(** [r"DE_KN_[a-zA-Z]+[0-9]+_(.+)"]. *)
Definition property_pattern : Re.regex :=
  Re.Seq (Re.Chars "DE_KN_")
    (Re.Seq (Re.Plus (Re.Class Py.is_letter))
       (Re.Seq (Re.Plus (Re.Class Py.is_digit))
          (Re.Seq (Re.Chars "_") (Re.Group (Re.Plus (Re.Class Py.is_dot)))))).

(** [re.match(r"DE_KN_[a-zA-Z]+[0-9]+_(.+)", column_name)] and its
    [group(1)]. *)
Definition property_suffix (column_name : string) : option string :=
  match Re.match_ property_pattern column_name with
  | Some (suffix :: _) => Some suffix
  | _ => None
  end.

Definition get_property_uri (column_name : string) : string :=
  let prop_name :=
    match property_suffix column_name with
    | Some rest => sanitize_for_uri rest
    | None => sanitize_for_uri column_name
    end in
  EX +:+ "Property_" +:+ prop_name.

(** ** Values, statements and effects *)

(** A cell of a row as pandas hands it over: text, a float (NaN for a
    missing cell), an integer or a boolean. *)
Inductive pyval :=
| PyStr (s : string)
| PyFloat (f : spec_float)
| PyInt (n : Z)
| PyBool (b : bool).

Inductive exn :=
| KeyError (key : string)
| AttributeError (v : pyval) (name : string)
| ValueError (v : pyval)
| OverflowError
| IndexError
| OtherError (msg : string)
| SystemExit (code : Z).

(** [except Exception] does not catch [SystemExit]. *)
Definition is_Exception (e : exn) : bool :=
  match e with SystemExit _ => false | _ => true end.

(** An rdflib term: [URIRef(iri)] or [Literal(value, datatype=...)]. *)
Inductive node :=
| URIRef (iri : string)
| Literal (value : pyval) (datatype : option string).

Definition triple : Type := node * node * node.

Definition subject (t : triple) : node := t.1.1.
Definition predicate (t : triple) : node := t.1.2.
Definition object (t : triple) : node := t.2.

#[global] Instance spec_float_eq_dec : EqDecision spec_float.
Proof. solve_decision. Defined.
#[global] Instance pyval_eq_dec : EqDecision pyval.
Proof. solve_decision. Defined.
#[global] Instance exn_eq_dec : EqDecision exn.
Proof. solve_decision. Defined.
#[global] Instance node_eq_dec : EqDecision node.
Proof. solve_decision. Defined.

(** [ns[name]] and [ns.name] of an rdflib namespace. *)
Definition term (ns name : string) : node := URIRef (ns +:+ name).

(** What the program prints. *)
Inductive message :=
| Msg_sensors_etc
| Msg_defined (sensors properties fois : nat)
| Msg_row_error (index : nat) (e : exn)
| Msg_finish
| Msg_serialize_error (e : exn).

(** What the serialiser leaves at its destination: the Turtle document of
    a graph when it returns, and the beginning of a document, possibly an
    empty one, when it raises after it has opened the destination, which
    truncates the file that was there. *)
Inductive document :=
| Turtle (g : list triple)
| Truncated.

(** The state the run acts on: the statements added to the graph so far, in
    the order of the [g.add] calls, the lines printed, and the destinations
    that the serialiser opened with what it left there. *)
Record world := World {
  graph : list triple;
  stdout : list message;
  written : list (string * document)
}.

Definition Run (A : Type) : Type := world → world * (exn + A).

#[global] Instance run_ret : MRet Run := λ A x w, (w, inr x).
#[global] Instance run_bind : MBind Run := λ A B f m w,
  match m w with
  | (w', inr x) => f x w'
  | (w', inl e) => (w', inl e)
  end.

Definition raise {A} (e : exn) : Run A := λ w, (w, inl e).

Definition lift {A} (r : exn + A) : Run A := λ w, (w, r).

(** [try: body / except Exception as e: handler e]: what the body did before
    it raised stays done. *)
Definition try_except {A} (body : Run A) (handler : exn → Run A) : Run A :=
  λ w, match body w with
       | (w', inl e) => if is_Exception e then handler e w' else (w', inl e)
       | r => r
       end.

Fixpoint for_each {A} (l : list A) (body : A → Run unit) : Run unit :=
  match l with
  | [] => mret tt
  | x :: r => body x ;; for_each r body
  end.

(** A loop that carries local variables from one round to the next. *)
Fixpoint for_fold {A S} (l : list A) (body : S → A → Run S) (s : S) : Run S :=
  match l with
  | [] => mret s
  | x :: r => s' ← body s x; for_fold r body s'
  end.

(** [g.add(t)]. *)
Definition add (t : triple) : Run unit := λ w,
  (World (graph w ++ [t]) (stdout w) (written w), inr tt).

Definition print (m : message) : Run unit := λ w,
  (World (graph w) (stdout w ++ [m]) (written w), inr tt).

(** ** The Python runtime the program relies on *)

(** [float(text)] and [str(x)] for a float [x] are the interpreter's: any
    pair of functions will do.  [float_of_str] yields nothing where
    [float] raises [ValueError]. *)
Class FloatText := {
  float_of_str : string → option spec_float;
  str_of_float : spec_float → string
}.

(** A Python [set] of strings: the program adds to it, tests membership and
    takes its length, and never iterates over it. *)
Class PySet := {
  pyset : Type;
  set_empty : pyset;
  set_add : string → pyset → pyset;
  set_mem : string → pyset → bool;
  set_len : pyset → nat;
  set_mem_empty : ∀ x, set_mem x set_empty = false;
  set_mem_add : ∀ x y s, set_mem x (set_add y s) = bool_decide (x = y) || set_mem x s;
  set_len_empty : set_len set_empty = 0;
  set_len_add : ∀ y s,
    set_len (set_add y s) = if set_mem y s then set_len s else S (set_len s)
}.

(** [pd.notna(v)] on a scalar. *)
Definition pd_notna (v : pyval) : bool :=
  match v with
  | PyFloat S754_nan => false
  | _ => true
  end.

(** [str(v)], as an f-string formats a value. *)
Definition py_str {FT : FloatText} (v : pyval) : string :=
  match v with
  | PyStr s => s
  | PyFloat f => str_of_float f
  | PyInt n => NilZero.string_of_int (Z.to_int n)
  | PyBool b => if b then "True" else "False"
  end.

(** [float(n)] for an integer [n]: the nearest binary64 value, ties to
    even, and [OverflowError] when that value is out of range, which is
    when rounding yields an infinity. *)
Definition float_of_int (n : Z) : exn + spec_float :=
  match binary_normalize 53 1024 n 0 false with
  | S754_infinity _ => inl OverflowError
  | f => inr f
  end.

(** [float(v)]: [ValueError] for text that is not a number,
    [OverflowError] for an integer that is too large. *)
Definition py_float {FT : FloatText} (v : pyval) : exn + spec_float :=
  match v with
  | PyStr s =>
      match float_of_str s with
      | Some f => inr f
      | None => inl (ValueError v)
      end
  | PyFloat f => inr f
  | PyInt n => float_of_int n
  | PyBool b => float_of_int (if b then 1 else 0)
  end.

(** A row of the data frame: the cell under each column name. *)
Abbreviation row := (gmap string pyval).

(** [row[key]]. *)
Definition getitem (r : row) (key : string) : exn + pyval :=
  match r !! key with
  | Some v => inr v
  | None => inl (KeyError key)
  end.

(** ** The program *)

Section Transformer.
Context {FT : FloatText} {PS : PySet}.

(** The columns that are read as sensor channels. *)
Definition is_measurement_column (col : string) : Prop :=
  Py.contains_char "_" col = true
  ∧ col ∉ ["utc_timestamp"; "cet_cest_timestamp"; "interpolated"].

#[global] Instance is_measurement_column_dec col :
  Decision (is_measurement_column col).
Proof. unfold is_measurement_column. apply _. Defined.

Definition measurement_columns (all_columns : list string) : list string :=
  filter is_measurement_column all_columns.

(** The three sets of identities already declared. *)
Record seen := Seen {
  defined_sensors : pyset;
  defined_properties : pyset;
  defined_fois : pyset
}.

Definition sensor_statements (col : string) : list triple :=
  let sensor_uri := URIRef (get_sensor_uri col) in
  let prop_uri := URIRef (get_property_uri col) in
  [ (sensor_uri, term RDF "type", term SAREF "Sensor");
    (sensor_uri, term RDFS "label", Literal (PyStr ("Sensor for " +:+ col)) None);
    (sensor_uri, term SAREF "measuresProperty", prop_uri) ].

Definition property_statements (col : string) : list triple :=
  let prop_uri := URIRef (get_property_uri col) in
  [ (prop_uri, term RDF "type", term SAREF "Property");
    (prop_uri, term RDFS "label",
      Literal (PyStr ("Property measured by " +:+ col)) None) ].

Definition foi_statements (foi_uri : string) : list triple :=
  let foi_label :=
    Py.replace "_" " " (Py.replace "Location_" "" (Py.last_field "/" foi_uri)) in
  [ (URIRef foi_uri, term RDF "type", term SAREF "FeatureOfInterest");
    (URIRef foi_uri, term RDFS "label",
      Literal (PyStr ("Location " +:+ foi_label)) None) ].

(** The body of the loop over the measurement columns that declares the
    entities. *)
Definition declare (sn : seen) (col : string) : Run seen :=
  let sensor_uri := get_sensor_uri col in
  let prop_uri := get_property_uri col in
  let foi_uri := get_feature_of_interest_uri col in
  sensors ←
    (if set_mem sensor_uri (defined_sensors sn) then mret (defined_sensors sn)
     else for_each (sensor_statements col) add ;;
          mret (set_add sensor_uri (defined_sensors sn)));
  properties ←
    (if set_mem prop_uri (defined_properties sn) then mret (defined_properties sn)
     else for_each (property_statements col) add ;;
          mret (set_add prop_uri (defined_properties sn)));
  fois ←
    (match foi_uri with
     | Some foi_uri =>
         if set_mem foi_uri (defined_fois sn) then mret (defined_fois sn)
         else for_each (foi_statements foi_uri) add ;;
              mret (set_add foi_uri (defined_fois sn))
     | None => mret (defined_fois sn)
     end);
  mret (Seen sensors properties fois).

Definition declare_entities (measurement_columns : list string) : Run seen :=
  print Msg_sensors_etc ;;
  sn ← for_fold measurement_columns declare (Seen set_empty set_empty set_empty);
  print (Msg_defined (set_len (defined_sensors sn))
                     (set_len (defined_properties sn))
                     (set_len (defined_fois sn))) ;;
  mret sn.

(** The sensors named by the interpolation marker of a row. *)
Definition interpolated_sensors (r : row) : exn + pyset :=
  match getitem r "interpolated" with
  | inl e => inl e
  | inr cell =>
      if pd_notna cell then
        match cell with
        | PyStr s =>
            if negb (String.eqb (Py.lower s) "nan") then
              let interpolated_cols := Py.strip <$> Py.split "|" s in
              inr (foldl (λ acc icol, set_add (get_sensor_uri icol) acc)
                         set_empty interpolated_cols)
            else inr set_empty
        | _ => inl (AttributeError cell "lower")
        end
      else inr set_empty
  end.

Definition observation_uri (col : string) (timestamp_str : pyval) : string :=
  EXDATA +:+ "Observation_" +:+ sanitize_for_uri col +:+ "_" +:+ py_str timestamp_str.

Definition observation_statements
    (col : string) (timestamp_str : pyval) (numeric_value : spec_float)
  : list triple :=
  let timestamp_literal := Literal timestamp_str (Some (XSD +:+ "dateTime")) in
  let value_literal := Literal (PyFloat numeric_value) (Some (XSD +:+ "float")) in
  let sensor_uri := URIRef (get_sensor_uri col) in
  let prop_uri := URIRef (get_property_uri col) in
  let obs_uri := URIRef (observation_uri col timestamp_str) in
  [ (obs_uri, term RDF "type", term SAREF "Observation");
    (obs_uri, term SAREF "hasTimestamp", timestamp_literal);
    (obs_uri, term SAREF "hasValue", value_literal);
    (obs_uri, term SAREF "madeBySensor", sensor_uri);
    (obs_uri, term SAREF "relatesToProperty", prop_uri) ]
  ++ match get_feature_of_interest_uri col with
     | Some foi_uri => [ (obs_uri, term SAREF "isAbout", URIRef foi_uri) ]
     | None => []
     end.

(** Reads the cell of a column and, when it holds a number, adds its
    observation. *)
Definition record_value (r : row) (timestamp_str : pyval) (col : string) : Run unit :=
  value ← lift (getitem r col);
  if pd_notna value then
    match py_float value with
    | inr numeric_value =>
        for_each (observation_statements col timestamp_str numeric_value) add
    | inl (ValueError _) => mret tt
    | inl e => raise e
    end
  else mret tt.

(** The body of the loop over the measurement columns of one row. *)
Definition observe
    (r : row) (timestamp_str : pyval) (interpolated_sensors_in_row : pyset)
    (col : string) : Run unit :=
  let sensor_uri := get_sensor_uri col in
  if set_mem sensor_uri interpolated_sensors_in_row then mret tt
  else record_value r timestamp_str col.

Definition row_body (measurement_columns : list string) (r : row) : Run unit :=
  timestamp_str ← lift (getitem r "utc_timestamp");
  interpolated_sensors_in_row ← lift (interpolated_sensors r);
  for_each measurement_columns (observe r timestamp_str interpolated_sensors_in_row).

Definition process_row
    (measurement_columns : list string) (index : nat) (r : row) : Run unit :=
  try_except (row_body measurement_columns r)
             (λ e, print (Msg_row_error index e)).

(** The collaborators of a run: the two calls of the table reader,
    [pd.read_csv(path, nrows=0).columns.tolist()] and the rows of
    [pd.read_csv(path)] in the order of [iterrows], and the serialiser
    [g.serialize(destination, format="turtle")].  The serialiser returns,
    or it raises an exception; with the exception comes whether the
    destination had been opened by then: it has not when the destination
    cannot be opened, it has when writing the document fails. *)
Record io := IO {
  read_header : string → exn + list string;
  read_rows : string → exn + list row;
  serialize : list triple → string → option (exn * bool);
  read_header_raises : ∀ path e, read_header path = inl e → is_Exception e = true;
  read_rows_raises : ∀ path e, read_rows path = inl e → is_Exception e = true;
  serialize_raises :
    ∀ g path e opened, serialize g path = Some (e, opened) → is_Exception e = true
}.

(** What a failed call of the serialiser leaves behind. *)
Definition left_behind (destination : string) (opened : bool)
  : list (string * document) :=
  if opened then [(destination, Truncated)] else [].

Definition serialize_graph (env : io) (destination : string) : Run unit := λ w,
  match serialize env (graph w) destination with
  | None =>
      (World (graph w) (stdout w) (written w ++ [(destination, Turtle (graph w))]),
       inr tt)
  | Some (e, opened) =>
      (World (graph w) (stdout w) (written w ++ left_behind destination opened),
       inl e)
  end.

Definition transform_csv_to_rdf
    (env : io) (csv_filepath : string) (output_filepath : string) : Run unit :=
  all_columns ← lift (read_header env csv_filepath);
  let measurement_columns := measurement_columns all_columns in
  declare_entities measurement_columns ;;
  df ← lift (read_rows env csv_filepath);
  for_each (imap pair df) (λ ir, process_row measurement_columns ir.1 ir.2) ;;
  try_except (serialize_graph env output_filepath ;; print Msg_finish)
             (λ e, print (Msg_serialize_error e) ;; raise (SystemExit 1)).

(** The script: [sys.argv[1]] is the table, the destination is left to its
    default. *)
Definition main (env : io) (argv : list string) : Run unit :=
  csv_file ← lift (match argv !! 1%nat with
                   | Some a => inr a
                   | None => inl IndexError
                   end);
  transform_csv_to_rdf env csv_file "graph.ttl".

Definition start : world := World [] [] [].

(** The exit status of the interpreter. *)
Definition exit_code (r : exn + unit) : Z :=
  match r with
  | inr _ => 0
  | inl (SystemExit code) => code
  | inl _ => 1
  end.

End Transformer.

(** ** Instances of the runtime *)

(** Python sets as finite sets of strings. *)
#[global] Instance gset_pyset : PySet.
Proof.
  refine {| pyset := gset string;
            set_empty := ∅;
            set_add x s := {[x]} ∪ s;
            set_mem x s := bool_decide (x ∈ s);
            set_len s := size s |}.
  - done.
  - intros x y s. rewrite <- bool_decide_or. apply bool_decide_ext.
    rewrite elem_of_union, elem_of_singleton. tauto.
  - done.
  - intros y s. destruct (decide (y ∈ s)) as [Hin|Hout].
    + rewrite bool_decide_true by done. f_equal.
      apply subseteq_union_1_L. by apply singleton_subseteq_l.
    + rewrite bool_decide_false by done.
      rewrite size_union, size_singleton; [done|].
      intros z Hz%elem_of_singleton. by subst z.
Defined.

(** The binary64 value 3.5. *)
Definition float_3_5 : spec_float := S754_finite false 7881299347898368 (-51).

(** A runtime for the worked examples: it reads the one numeral they
    contain and is never asked to print a float. *)
Definition example_floats : FloatText := {|
  float_of_str s := if String.eqb s "3.5" then Some float_3_5 else None;
  str_of_float _ := ""
|}.

(** A reader that finds the given table under every path, and a serialiser
    that succeeds. *)
Program Definition table_io (header : list string) (df : list row) : io := {|
  read_header _ := inr header;
  read_rows _ := inr df;
  serialize _ _ := None
|}.
Solve All Obligations with done.

(** The row of a table with the given cells under the given header. *)
Definition make_row (header : list string) (cells : list pyval) : row :=
  list_to_map (zip header cells).

(** ** The patterns, read directly *)

(** A greedy run of one class, as a recursion on the text: take one more
    character when the class allows it and, if the rest cannot be matched
    from there, go on from here. *)
Fixpoint greedy (p : ascii → bool) (s : string) (gs : list string) (k : Re.cont)
  : option (list string) :=
  match s with
  | String c s' =>
      if p c then
        match greedy p s' gs k with
        | Some m => Some m
        | None => k s' gs
        end
      else None
  | "" => None
  end.

(** The head [DE_KN_<letters><digits>] of a name: the letters and digits,
    and what follows them. *)
Definition location_head (column_name : string) : option (string * string) :=
  match Py.after_prefix "DE_KN_" column_name with
  | None => None
  | Some r =>
      let '(letters, r1) := Py.span Py.is_letter r in
      let '(digits, r2) := Py.span Py.is_digit r1 in
      match letters, digits with
      | String _ _, String _ _ => Some (letters +:+ digits, r2)
      | _, _ => None
      end
  end.

(** ** What the loops do, as values *)

Section Denotations.
Context {FT : FloatText} {PS : PySet}.

(** What one round of the declaration loop adds to the graph, and the
    identities it leaves marked. *)
Definition declared (sn : seen) (col : string) : list triple :=
  (if set_mem (get_sensor_uri col) (defined_sensors sn) then []
   else sensor_statements col)
  ++ (if set_mem (get_property_uri col) (defined_properties sn) then []
      else property_statements col)
  ++ match get_feature_of_interest_uri col with
     | Some foi_uri =>
         if set_mem foi_uri (defined_fois sn) then [] else foi_statements foi_uri
     | None => []
     end.

Definition marked (sn : seen) (col : string) : seen :=
  Seen
    (if set_mem (get_sensor_uri col) (defined_sensors sn) then defined_sensors sn
     else set_add (get_sensor_uri col) (defined_sensors sn))
    (if set_mem (get_property_uri col) (defined_properties sn)
     then defined_properties sn
     else set_add (get_property_uri col) (defined_properties sn))
    (match get_feature_of_interest_uri col with
     | Some foi_uri =>
         if set_mem foi_uri (defined_fois sn) then defined_fois sn
         else set_add foi_uri (defined_fois sn)
     | None => defined_fois sn
     end).

Fixpoint declarations (sn : seen) (cols : list string) : list triple :=
  match cols with
  | [] => []
  | col :: rest => declared sn col ++ declarations (marked sn col) rest
  end.

Definition marked_all (sn : seen) (cols : list string) : seen :=
  foldl marked sn cols.

Definition is_observation (t : triple) : Prop :=
  ∃ col ts, subject t = URIRef (observation_uri col ts).

(** The last step: the graph is written and the run ends, or the failure
    is printed and the run exits with status 1. *)
Definition finished (env : io) (output_filepath : string) (w : world)
  : world * (exn + unit) :=
  match serialize env (graph w) output_filepath with
  | None =>
      (World (graph w) (stdout w ++ [Msg_finish])
             (written w ++ [(output_filepath, Turtle (graph w))]),
       inr tt)
  | Some (e, opened) =>
      (World (graph w) (stdout w ++ [Msg_serialize_error e])
             (written w ++ left_behind output_filepath opened),
       inl (SystemExit 1))
  end.

(** The graph when the run is over. *)
Definition final_graph (env : io) (csv_filepath output_filepath : string)
  : list triple :=
  graph (transform_csv_to_rdf env csv_filepath output_filepath start).1.

End Denotations.

(** The statements of a graph whose subject is the identity [s]. *)
Definition about (s : string) (g : list triple) : list triple :=
  filter (λ t, subject t = URIRef s) g.

(** The statements about [s] under the predicate [p]. *)
Definition about_with (s : string) (p : node) (g : list triple) : list triple :=
  filter (λ t, predicate t = p) (about s g).

(** Whatever the world it starts from, the run adds statements that satisfy
    [P] to the graph, prints, and writes no document. *)
Definition adds_only (P : triple → Prop) {A} (m : Run A) : Prop :=
  ∀ w, ∃ l out,
    (m w).1 = World (graph w ++ l) (stdout w ++ out) (written w) ∧ Forall P l.

(** The statements of a graph with the given predicate and object. *)
Definition with_object (p o : node) (g : list triple) : list triple :=
  filter (λ t, predicate t = p ∧ object t = o) g.

(** The statements of a graph with the given predicate. *)
Definition with_predicate (p : node) (g : list triple) : list triple :=
  filter (λ t, predicate t = p) g.

Section Similarity.
Context {PS1 PS2 : PySet}.

(** Two sets, each in its own implementation, with the same elements. *)
Definition same_set (s1 : @pyset PS1) (s2 : @pyset PS2) : Prop :=
  (∀ x, set_mem x s1 = set_mem x s2) ∧ set_len s1 = set_len s2.

Definition same_seen (sn1 : @seen PS1) (sn2 : @seen PS2) : Prop :=
  same_set (defined_sensors sn1) (defined_sensors sn2)
  ∧ same_set (defined_properties sn1) (defined_properties sn2)
  ∧ same_set (defined_fois sn1) (defined_fois sn2).

End Similarity.

(** ** Tables for the examples *)

(** A table with two channels that derive one sensor identity, two that
    derive one property identity and one location. *)
Definition twin_header : list string :=
  [ "utc_timestamp"; "interpolated";
    "DE_KN_Building1_Grid import"; "DE_KN_Building1_Grid-import";
    "DE_KN_Building2_Grid import" ].

Definition twin_rows : list row :=
  [ make_row twin_header
      [ PyStr "2015-01-01T00:00:00Z"; PyFloat S754_nan;
        PyFloat float_3_5; PyFloat float_3_5; PyFloat float_3_5 ];
    make_row twin_header
      [ PyStr "2015-01-01T00:15:00Z"; PyFloat S754_nan;
        PyFloat float_3_5; PyFloat S754_nan; PyFloat float_3_5 ] ].

Definition example_header : list string :=
  ["utc_timestamp"; "interpolated"; "DE_KN_Building1_Grid_import"].

(** The row as pandas reads it: the marker [nan] is a missing cell, the
    reading is a float. *)
Definition example_row : row :=
  make_row example_header
    [ PyStr "2015-01-01T00:00:00Z"; PyFloat S754_nan; PyFloat float_3_5 ].

(** The same row with its cells left as text. *)
Definition example_row_text : row :=
  make_row example_header
    [ PyStr "2015-01-01T00:00:00Z"; PyStr "nan"; PyStr "3.5" ].

(** ** Notions for the further properties *)

(** Every character of the text is in the class. *)
Fixpoint all_chars (p : ascii → bool) (s : string) : bool :=
  match s with
  | "" => true
  | String c r => p c && all_chars p r
  end.

(** The text does not go on with a character of the class. *)
Definition stops (p : ascii → bool) (s : string) : bool :=
  match s with
  | "" => true
  | String c _ => negb (p c)
  end.

(** The names that the pattern of the location matches:
    [DE_KN_<letters><digits>] followed by an underscore, by the end of the
    name, or by a line feed that ends the name, which [$] accepts as well. *)
Definition location_shape (col : string) : Prop :=
  ∃ letters digits rest,
    col = "DE_KN_" +:+ letters +:+ digits +:+ rest
    ∧ letters ≠ "" ∧ all_chars Py.is_letter letters = true
    ∧ digits ≠ "" ∧ all_chars Py.is_digit digits = true
    ∧ (Py.startswith "_" rest = true ∨ rest = "" ∨ rest = String "010" "").

(** The names that the pattern of the property matches:
    [DE_KN_<letters><digits>_<rest>] where [<rest>] starts with a character
    other than a line feed. *)
Definition suffix_shape (col : string) : Prop :=
  ∃ letters digits c rest,
    col = "DE_KN_" +:+ letters +:+ digits +:+ "_" +:+ String c rest
    ∧ letters ≠ "" ∧ all_chars Py.is_letter letters = true
    ∧ digits ≠ "" ∧ all_chars Py.is_digit digits = true
    ∧ Py.is_dot c = true.

(** The run does the same whatever the world it starts from: it adds [l] to
    the graph, prints [out], writes no document and ends in [r]. *)
Definition emits {A} (m : Run A) (l : list triple) (out : list message)
    (r : exn + A) : Prop :=
  ∀ w, m w = (World (graph w ++ l) (stdout w ++ out) (written w), r).

Definition uniform {A} (m : Run A) : Prop := ∃ l out r, emits m l out r.

Section RowDenotations.
Context {FT : FloatText} {PS : PySet}.

(** What a row adds to the graph, given the measurement columns. *)
Definition row_statements (cols : list string) (r : row) : list triple :=
  graph (row_body cols r start).1.

(** What a row prints: nothing, or the exception that ended it. *)
Definition row_messages (cols : list string) (index : nat) (r : row) : list message :=
  stdout (process_row cols index r start).1.

(** What the round of one column of a row adds to the graph. *)
Definition column_statements
    (r : row) (ts : pyval) (interp : pyset) (col : string) : list triple :=
  graph (observe r ts interp col start).1.

(** The exception that the round of one column of a row raises, if it
    raises one: [KeyError] when the row has no cell for the column, and what
    [float] raises on the cell when that is not [ValueError]. *)
Definition column_outcome (r : row) (interp : pyset) (col : string) : option exn :=
  if set_mem (get_sensor_uri col) interp then None
  else match r !! col with
       | Some v =>
           if pd_notna v then
             match py_float v with
             | inr _ => None
             | inl (ValueError _) => None
             | inl e => Some e
             end
           else None
       | None => Some (KeyError col)
       end.

(** The columns whose round a row completes, in header order, and the
    exception that ends the row at the column after them, if one does. *)
Fixpoint columns_done (r : row) (interp : pyset) (cols : list string)
  : list string * option exn :=
  match cols with
  | [] => ([], None)
  | col :: rest =>
      match column_outcome r interp col with
      | Some e => ([], Some e)
      | None => let (before, e) := columns_done r interp rest in (col :: before, e)
      end
  end.

End RowDenotations.

(** The number of distinct texts in a list. *)
Definition distinct (l : list string) : nat := size (list_to_set l : gset string).

(** A reader that finds the header of the table but fails on its body, as
    for a file with a line that does not parse. *)
Definition broken_body_io (header : list string) (msg : string) : io.
Proof.
  refine {| read_header _ := inr header;
            read_rows _ := inl (OtherError msg);
            serialize _ _ := None |};
    intros; simplify_eq; done.
Defined.

(** The set of the program holds the texts of [X] and counts them. *)
Definition tracks {PS : PySet} (s : pyset) (X : gset string) : Prop :=
  (∀ x, set_mem x s = bool_decide (x ∈ X)) ∧ set_len s = size X.

(** A statement of the observation of one of the columns, at some timestamp
    and for some value. *)
Definition observed_in {FT : FloatText} (cols : list string) (t : triple) : Prop :=
  ∃ col ts f, col ∈ cols ∧ t ∈ observation_statements col ts f.

(** A statement of the declaration of one of the columns. *)
Definition declared_for (cols : list string) (t : triple) : Prop :=
  ∃ col, col ∈ cols
         ∧ (t ∈ sensor_statements col
            ∨ t ∈ property_statements col
            ∨ ∃ f, get_feature_of_interest_uri col = Some f ∧ t ∈ foi_statements f).

(** * Properties *)

(** ** Facts about strings and identities *)

Lemma append_nil_l (s : string) : "" +:+ s = s.
Proof. reflexivity. Qed.

Lemma append_cons (c : ascii) (a b : string) :
  String c a +:+ b = String c (a +:+ b).
Proof. reflexivity. Qed.

(** Exposes the leading characters of an identity. *)
Ltac uri_head :=
  unfold EXDATA, EX; repeat rewrite append_cons; rewrite ?append_nil_l.

Section Identities.

Lemma append_length (a b : string) :
  String.length (a +:+ b) = (String.length a + String.length b)%nat.
Proof.
  induction a as [|c a IH]; [done|].
  rewrite append_cons. simpl. by rewrite IH.
Qed.

(** Appending the same text on the right is injective. *)
Lemma append_inj_l (a b c : string) : a +:+ c = b +:+ c → a = b.
Proof.
  revert b. induction a as [|x a IH]; intros [|y b] H;
    rewrite ?append_cons, ?append_nil_l in H.
  - done.
  - apply (f_equal String.length) in H. simpl in H.
    rewrite (append_length b c) in H. lia.
  - apply (f_equal String.length) in H. simpl in H.
    rewrite (append_length a c) in H. lia.
  - injection H as -> H. f_equal. by apply IH.
Qed.

Lemma get_sensor_uri_inj_sanitize (a b : string) :
  get_sensor_uri a = get_sensor_uri b ↔ sanitize_for_uri a = sanitize_for_uri b.
Proof.
  unfold get_sensor_uri. split; [| by intros ->].
  intros H. by do 2 apply (inj (String.append _)) in H.
Qed.

Lemma sensor_not_property (a b : string) : get_sensor_uri a ≠ get_property_uri b.
Proof. unfold get_sensor_uri, get_property_uri. uri_head. discriminate. Qed.

Lemma foi_shape (col f : string) :
  get_feature_of_interest_uri col = Some f →
  ∃ tok, location_token col = Some tok ∧ f = EXDATA +:+ "Location_" +:+ tok.
Proof.
  unfold get_feature_of_interest_uri.
  destruct (location_token col) as [tok|]; [|done].
  intros [= <-]. eauto.
Qed.

Lemma sensor_not_foi (a col f : string) :
  get_feature_of_interest_uri col = Some f → get_sensor_uri a ≠ f.
Proof.
  intros (tok & _ & ->)%foi_shape. unfold get_sensor_uri. uri_head. discriminate.
Qed.

Lemma property_not_foi (a col f : string) :
  get_feature_of_interest_uri col = Some f → get_property_uri a ≠ f.
Proof.
  intros (tok & _ & ->)%foi_shape. unfold get_property_uri. uri_head. discriminate.
Qed.

End Identities.

(** ** The patterns and their direct reading *)

Import Re.

Lemma plus_class_rounds (p : ascii → bool) (n : nat) (s : string)
    (gs : list string) (k : cont) :
  (String.length s < n)%nat →
  (fix again (n : nat) (s : string) (gs : list string) : option (list string) :=
     match n with
     | O => None
     | S n' =>
         exec (Class p) s gs (λ s' gs',
           match again n' s' gs' with
           | Some m => Some m
           | None => k s' gs'
           end)
     end) n s gs
  = greedy p s gs k.
Proof.
  revert s. induction n as [|n IH]; intros s Hn; [lia|].
  destruct s as [|c s]; [done|].
  simpl. destruct (p c); [|done].
  rewrite IH; [done | simpl in Hn; lia].
Qed.

Lemma exec_plus_class (p : ascii → bool) (s : string)
    (gs : list string) (k : cont) :
  exec (Plus (Class p)) s gs k = greedy p s gs k.
Proof. apply (plus_class_rounds p (S (String.length s))). lia. Qed.

Lemma span_append (p : ascii → bool) (s a b : string) :
  Py.span p s = (a, b) → s = a +:+ b.
Proof.
  revert a b. induction s as [|c s IH]; intros a b; simpl.
  - by intros [= <- <-].
  - destruct (p c).
    + destruct (Py.span p s) as [a' b'] eqn:E. intros [= <- <-].
      rewrite append_cons. f_equal. by apply IH.
    + by intros [= <- <-].
Qed.

Lemma span_nil (p : ascii → bool) (s b : string) :
  Py.span p s = ("", b) → b = s.
Proof. intros H. by rewrite (span_append p s "" b H). Qed.

Lemma span_cons (p : ascii → bool) (s : string) (c : ascii) (a b : string) :
  Py.span p s = (String c a, b) → ∃ s', s = String c s' ∧ p c = true.
Proof.
  destruct s as [|d s]; simpl; [done|].
  destruct (p d) eqn:Hd; [|done].
  destruct (Py.span p s) as [a' b']. intros [= -> _ _]. eauto.
Qed.

(** When what follows the run cannot start at a character of the class, the
    run takes all the characters it can: giving some back never helps. *)
Lemma greedy_longest (p : ascii → bool) (s : string) (gs : list string) (k : cont) :
  (∀ c s', p c = true → k (String c s') gs = None) →
  greedy p s gs k
  = match Py.span p s with
    | (String _ _, b) => k b gs
    | _ => None
    end.
Proof.
  intros Hk. induction s as [|c s IH]; [done|].
  simpl. destruct (p c) eqn:Hc; [|done].
  rewrite IH. destruct (Py.span p s) as [[|d a] b] eqn:E.
  - by rewrite (span_nil _ _ _ E).
  - destruct (k b gs) eqn:Ek; [done|].
    destruct (span_cons _ _ _ _ _ E) as (s' & -> & Hd). by apply Hk.
Qed.

(** When what follows the run always matches, the run takes all the
    characters it can. *)
Lemma greedy_first (p : ascii → bool) (s : string) (gs : list string) (k : cont) :
  (∀ s', is_Some (k s' gs)) →
  greedy p s gs k
  = match Py.span p s with
    | (String _ _, b) => k b gs
    | _ => None
    end.
Proof.
  intros Hk. induction s as [|c s IH]; [done|].
  simpl. destruct (p c) eqn:Hc; [|done].
  rewrite IH. destruct (Py.span p s) as [[|d a] b] eqn:E.
  - rewrite (span_nil _ _ _ E). by destruct (k s gs).
  - by destruct (Hk b) as [m ->].
Qed.

Lemma take_append (a b : string) :
  Py.take (String.length (a +:+ b) - String.length b) (a +:+ b) = a.
Proof.
  rewrite append_length.
  replace (String.length a + String.length b - String.length b)%nat
    with (String.length a) by lia.
  induction a as [|c a IH]; simpl.
  - by destruct b.
  - by rewrite IH.
Qed.

Lemma consumed_append (a b : string) : consumed (a +:+ b) b = a.
Proof. apply take_append. Qed.


Lemma exec_chars (t s : string) (gs : list string) (k : cont) :
  exec (Chars t) s gs k
  = match Py.after_prefix t s with Some s' => k s' gs | None => None end.
Proof. reflexivity. Qed.

Lemma exec_seq (r1 r2 : regex) (s : string) (gs : list string) (k : cont) :
  exec (Seq r1 r2) s gs k = exec r1 s gs (λ s' gs', exec r2 s' gs' k).
Proof. reflexivity. Qed.

Lemma exec_alt (r1 r2 : regex) (s : string) (gs : list string) (k : cont) :
  exec (Alt r1 r2) s gs k
  = match exec r1 s gs k with Some m => Some m | None => exec r2 s gs k end.
Proof. reflexivity. Qed.

Lemma exec_group (r : regex) (s : string) (gs : list string) (k : cont) :
  exec (Group r) s gs k = exec r s gs (λ s' gs', k s' (gs' ++ [consumed s s'])).
Proof. reflexivity. Qed.

Lemma exec_dollar (s : string) (gs : list string) (k : cont) :
  exec Dollar s gs k = if at_end s then k s gs else None.
Proof. reflexivity. Qed.

Lemma after_prefix_char (a c : ascii) (s : string) :
  Py.after_prefix (String a "") (String c s) = if Ascii.eqb a c then Some s else None.
Proof. reflexivity. Qed.

Lemma letter_not_digit (c : ascii) : Py.is_letter c = true → Py.is_digit c = false.
Proof. destruct c as [[] [] [] [] [] [] [] []]; by vm_compute. Qed.

Lemma digit_not_underscore (c : ascii) :
  Py.is_digit c = true → Ascii.eqb "_" c = false ∧ Ascii.eqb c "010" = false.
Proof. destruct c as [[] [] [] [] [] [] [] []]; by vm_compute. Qed.

Lemma append_assoc (a b c : string) : (a +:+ b) +:+ c = a +:+ (b +:+ c).
Proof. induction a as [|x a IH]; [done|]. rewrite !append_cons. by rewrite IH. Qed.

Lemma location_token_eq (col : string) :
  location_token col
  = match location_head col with
    | Some (tok, rest) =>
        if Py.startswith "_" rest || at_end rest then Some tok else None
    | None => None
    end.
Proof.
  unfold location_token, location_head, match_, location_pattern.
  rewrite exec_seq, exec_chars.
  destruct (Py.after_prefix "DE_KN_" col) as [r|]; [|done].
  rewrite exec_seq, exec_group, exec_seq, exec_plus_class.
  rewrite greedy_longest.
  2:{ intros c s' Hc. rewrite exec_plus_class. simpl.
      by rewrite (letter_not_digit c Hc). }
  destruct (Py.span Py.is_letter r) as [letters r1] eqn:E1.
  destruct letters as [|l letters].
  { by destruct (Py.span Py.is_digit r1) as [digits r2]. }
  rewrite exec_plus_class, greedy_longest.
  2:{ intros c s' Hc. destruct (digit_not_underscore c Hc) as [H1 H2].
      rewrite exec_group, exec_alt, exec_chars, exec_dollar.
      rewrite after_prefix_char, H1. unfold at_end.
      destruct s'; [by rewrite H2 | done]. }
  destruct (Py.span Py.is_digit r1) as [digits r2] eqn:E2.
  destruct digits as [|d digits]; [done|].
  assert (consumed r r2 = String l letters +:+ String d digits) as Htok.
  { rewrite (span_append _ _ _ _ E1), (span_append _ _ _ _ E2).
    rewrite <- append_assoc. apply consumed_append. }
  rewrite exec_group, exec_alt, exec_chars, exec_dollar.
  unfold Py.startswith. simpl app. rewrite Htok.
  destruct (Py.after_prefix "_" r2); [done|]. simpl orb.
  by destruct (at_end r2).
Qed.

Lemma property_suffix_eq (col : string) :
  property_suffix col
  = match location_head col with
    | Some (_, rest) =>
        match Py.after_prefix "_" rest with
        | Some r =>
            match fst (Py.span Py.is_dot r) with
            | "" => None
            | suffix => Some suffix
            end
        | None => None
        end
    | None => None
    end.
Proof.
  unfold property_suffix, location_head, match_, property_pattern.
  rewrite exec_seq, exec_chars.
  destruct (Py.after_prefix "DE_KN_" col) as [r|]; [|done].
  rewrite exec_seq, exec_plus_class.
  rewrite greedy_longest.
  2:{ intros c s' Hc. rewrite exec_seq, exec_plus_class. simpl.
      by rewrite (letter_not_digit c Hc). }
  destruct (Py.span Py.is_letter r) as [letters r1] eqn:E1.
  destruct letters as [|l letters].
  { by destruct (Py.span Py.is_digit r1) as [digits r2]. }
  rewrite exec_seq, exec_plus_class, greedy_longest.
  2:{ intros c s' Hc. destruct (digit_not_underscore c Hc) as [H1 H2].
      by rewrite exec_seq, exec_chars, after_prefix_char, H1. }
  destruct (Py.span Py.is_digit r1) as [digits r2] eqn:E2.
  destruct digits as [|d digits]; [done|].
  rewrite exec_seq, exec_chars.
  destruct (Py.after_prefix "_" r2) as [r3|]; [|done].
  rewrite exec_group, exec_plus_class, greedy_first by (intros; by eexists).
  destruct (Py.span Py.is_dot r3) as [suffix rest] eqn:E3.
  destruct suffix as [|x suffix]; [done|].
  simpl. by rewrite (span_append _ _ _ _ E3), consumed_append.
Qed.

Example location_line_feed :
  location_token ("DE_KN_Building1" +:+ String "010" "") = Some "Building1".
Proof. reflexivity. Qed.
Example property_line_feed :
  property_suffix ("DE_KN_Building1_Grid" +:+ String "010" "import") = Some "Grid".
Proof. reflexivity. Qed.

(** ** Worked values of the identifier deriver *)

Example sanitize_replaces_space :
  sanitize_for_uri "DE_KN_Building1_Grid import" = "Building1_Grid_import".
Proof. reflexivity. Qed.

Example location_of_channel :
  get_feature_of_interest_uri "DE_KN_Building1_Grid_import"
  = Some "http://example.com/data/Location_Building1".
Proof. reflexivity. Qed.

Example location_at_end_of_name :
  get_feature_of_interest_uri "DE_KN_Building1"
  = Some "http://example.com/data/Location_Building1".
Proof. reflexivity. Qed.

Example no_location_before_letter :
  get_feature_of_interest_uri "DE_KN_Building1x" = None.
Proof. reflexivity. Qed.

Example no_location_without_digits :
  get_feature_of_interest_uri "DE_KN_Building_1" = None.
Proof. reflexivity. Qed.

Example property_of_channel :
  get_property_uri "DE_KN_Building1_Grid_import"
  = "http://example.com/Property_Grid_import".
Proof. reflexivity. Qed.

Example property_fallback :
  get_property_uri "temperature_outside"
  = "http://example.com/Property_temperature_outside".
Proof. reflexivity. Qed.

Example property_fallback_without_suffix :
  get_property_uri "DE_KN_Building1" = "http://example.com/Property_Building1"
  ∧ get_property_uri "DE_KN_Building1_" = "http://example.com/Property_Building1_".
Proof. split; reflexivity. Qed.

(** The suffix is sanitized like a name: a marker at its start goes too. *)
Example property_suffix_with_marker :
  get_property_uri "DE_KN_B1_DE_KN_x" = "http://example.com/Property_x".
Proof. reflexivity. Qed.

Example split_keeps_empty_fields :
  Py.split "|" "a| b ||c" = ["a"; " b "; ""; "c"].
Proof. reflexivity. Qed.

Example strip_both_ends : Py.strip "  a b  " = "a b".
Proof. reflexivity. Qed.

Example replace_all_occurrences :
  Py.replace "Location_" "" "Location_B1" = "B1"
  ∧ Py.replace "aa" "b" "aaaxaa" = "baxb".
Proof. split; reflexivity. Qed.

Example lower_sentinel : Py.lower "NaN" = "nan".
Proof. reflexivity. Qed.

(** ** The runs of the loops *)

Section Runs.
Context {FT : FloatText} {PS : PySet}.

Lemma world_eta (w : world) : World (graph w) (stdout w) (written w) = w.
Proof. by destruct w. Qed.

Lemma for_each_add (l : list triple) (w : world) :
  for_each l add w = (World (graph w ++ l) (stdout w) (written w), inr tt).
Proof.
  revert w. induction l as [|t l IH]; intros w; simpl.
  - by rewrite app_nil_r, world_eta.
  - unfold mbind, run_bind, add at 1. rewrite IH. simpl.
    by rewrite <- app_assoc.
Qed.

Lemma declare_run (sn : seen) (col : string) (w : world) :
  declare sn col w
  = (World (graph w ++ declared sn col) (stdout w) (written w),
     inr (marked sn col)).
Proof.
  unfold declare, declared, marked.
  destruct (set_mem (get_sensor_uri col) (defined_sensors sn));
    destruct (set_mem (get_property_uri col) (defined_properties sn));
    destruct (get_feature_of_interest_uri col) as [f|];
    try destruct (set_mem f (defined_fois sn));
    unfold mbind, run_bind, mret, run_ret;
    rewrite ?for_each_add; simpl; rewrite ?for_each_add; simpl;
    rewrite ?for_each_add; simpl;
    rewrite ?app_nil_r, <- ?app_assoc, ?world_eta; reflexivity.
Qed.

Lemma for_fold_declare_run (cols : list string) (sn : seen) (w : world) :
  for_fold cols declare sn w
  = (World (graph w ++ declarations sn cols) (stdout w) (written w),
     inr (marked_all sn cols)).
Proof.
  revert sn w. induction cols as [|col cols IH]; intros sn w; simpl.
  - by rewrite app_nil_r, world_eta.
  - unfold mbind, run_bind. rewrite declare_run, IH. simpl.
    by rewrite <- app_assoc.
Qed.

End Runs.

(** ** The statements about one identity *)

Section About.
Context {FT : FloatText} {PS : PySet}.

Lemma about_app (s : string) (g1 g2 : list triple) :
  about s (g1 ++ g2) = about s g1 ++ about s g2.
Proof. apply filter_app. Qed.

Lemma about_all (s : string) (g : list triple) :
  Forall (λ t, subject t = URIRef s) g → about s g = g.
Proof.
  unfold about. induction 1 as [|t g Ht _ IH]; [done|].
  rewrite filter_cons_True by done. by rewrite IH.
Qed.

Lemma about_none (s : string) (g : list triple) :
  Forall (λ t, subject t ≠ URIRef s) g → about s g = [].
Proof.
  unfold about. induction 1 as [|t g Ht _ IH]; [done|].
  by rewrite filter_cons_False.
Qed.

Lemma sensor_statements_subject (col : string) :
  Forall (λ t, subject t = URIRef (get_sensor_uri col)) (sensor_statements col).
Proof. repeat constructor. Qed.

Lemma property_statements_subject (col : string) :
  Forall (λ t, subject t = URIRef (get_property_uri col)) (property_statements col).
Proof. repeat constructor. Qed.

Lemma foi_statements_subject (f : string) :
  Forall (λ t, subject t = URIRef f) (foi_statements f).
Proof. repeat constructor. Qed.

Lemma subject_other (s s' : string) (g : list triple) :
  s' ≠ s →
  Forall (λ t, subject t = URIRef s') g → Forall (λ t, subject t ≠ URIRef s) g.
Proof.
  intros Hne Hg. eapply Forall_impl; [exact Hg|].
  intros t Ht. simpl in Ht. rewrite Ht. by intros [= ->].
Qed.

End About.

(** ** The declarations, identity by identity *)

Section Registry.
Context {FT : FloatText} {PS : PySet}.

Lemma marked_sensors (sn : seen) (col x : string) :
  set_mem x (defined_sensors (marked sn col))
  = bool_decide (x = get_sensor_uri col) || set_mem x (defined_sensors sn).
Proof.
  unfold marked; simpl.
  destruct (set_mem (get_sensor_uri col) (defined_sensors sn)) eqn:E.
  - case_bool_decide as Hx; [by subst x | done].
  - apply set_mem_add.
Qed.

Lemma marked_properties (sn : seen) (col x : string) :
  set_mem x (defined_properties (marked sn col))
  = bool_decide (x = get_property_uri col) || set_mem x (defined_properties sn).
Proof.
  unfold marked; simpl.
  destruct (set_mem (get_property_uri col) (defined_properties sn)) eqn:E.
  - case_bool_decide as Hx; [by subst x | done].
  - apply set_mem_add.
Qed.

Lemma marked_fois (sn : seen) (col x : string) :
  set_mem x (defined_fois (marked sn col))
  = bool_decide (get_feature_of_interest_uri col = Some x)
    || set_mem x (defined_fois sn).
Proof.
  unfold marked; simpl.
  destruct (get_feature_of_interest_uri col) as [f|]; [|done].
  destruct (set_mem f (defined_fois sn)) eqn:E.
  - case_bool_decide as Hx; [by simplify_eq | done].
  - rewrite set_mem_add. f_equal. apply bool_decide_ext.
    split; [by intros -> | by intros [=]].
Qed.

(** One round of the loop, seen from a sensor identity. *)
Lemma about_declared_sensor (sn : seen) (col c0 : string) :
  about (get_sensor_uri c0) (declared sn col)
  = if set_mem (get_sensor_uri col) (defined_sensors sn) then []
    else if decide (get_sensor_uri col = get_sensor_uri c0)
         then sensor_statements col else [].
Proof.
  unfold declared. rewrite !about_app.
  assert (about (get_sensor_uri c0)
            (if set_mem (get_property_uri col) (defined_properties sn)
             then [] else property_statements col) = []) as ->.
  { destruct (set_mem _ _); [done|]. apply about_none.
    eapply subject_other, property_statements_subject.
    intros H. by eapply sensor_not_property. }
  assert (about (get_sensor_uri c0)
            match get_feature_of_interest_uri col with
            | Some foi_uri =>
                if set_mem foi_uri (defined_fois sn) then []
                else foi_statements foi_uri
            | None => []
            end = []) as ->.
  { destruct (get_feature_of_interest_uri col) as [f|] eqn:Hf; [|done].
    destruct (set_mem _ _); [done|]. apply about_none.
    eapply subject_other, foi_statements_subject.
    intros H. by eapply sensor_not_foi. }
  rewrite !app_nil_r.
  destruct (set_mem _ _); [done|]. case_decide as Hc.
  - rewrite <- Hc. apply about_all, sensor_statements_subject.
  - apply about_none. eapply subject_other, sensor_statements_subject. done.
Qed.

Lemma about_declared_property (sn : seen) (col c0 : string) :
  about (get_property_uri c0) (declared sn col)
  = if set_mem (get_property_uri col) (defined_properties sn) then []
    else if decide (get_property_uri col = get_property_uri c0)
         then property_statements col else [].
Proof.
  unfold declared. rewrite !about_app.
  assert (about (get_property_uri c0)
            (if set_mem (get_sensor_uri col) (defined_sensors sn)
             then [] else sensor_statements col) = []) as ->.
  { destruct (set_mem _ _); [done|]. apply about_none.
    eapply subject_other, sensor_statements_subject.
    by apply sensor_not_property. }
  assert (about (get_property_uri c0)
            match get_feature_of_interest_uri col with
            | Some foi_uri =>
                if set_mem foi_uri (defined_fois sn) then []
                else foi_statements foi_uri
            | None => []
            end = []) as ->.
  { destruct (get_feature_of_interest_uri col) as [f|] eqn:Hf; [|done].
    destruct (set_mem _ _); [done|]. apply about_none.
    eapply subject_other, foi_statements_subject.
    intros H. by eapply property_not_foi. }
  rewrite app_nil_r, app_nil_l.
  destruct (set_mem _ _); [done|]. case_decide as Hc.
  - rewrite <- Hc. apply about_all, property_statements_subject.
  - apply about_none. eapply subject_other, property_statements_subject. done.
Qed.

Lemma about_declared_foi (sn : seen) (col c0 f : string) :
  get_feature_of_interest_uri c0 = Some f →
  about f (declared sn col)
  = match get_feature_of_interest_uri col with
    | Some f' =>
        if set_mem f' (defined_fois sn) then []
        else if decide (f' = f) then foi_statements f' else []
    | None => []
    end.
Proof.
  intros Hf0. unfold declared. rewrite !about_app.
  assert (about f
            (if set_mem (get_sensor_uri col) (defined_sensors sn)
             then [] else sensor_statements col) = []) as ->.
  { destruct (set_mem _ _); [done|]. apply about_none.
    eapply subject_other, sensor_statements_subject.
    by eapply sensor_not_foi. }
  assert (about f
            (if set_mem (get_property_uri col) (defined_properties sn)
             then [] else property_statements col) = []) as ->.
  { destruct (set_mem _ _); [done|]. apply about_none.
    eapply subject_other, property_statements_subject.
    by eapply property_not_foi. }
  rewrite !app_nil_l.
  destruct (get_feature_of_interest_uri col) as [f'|]; [|done].
  destruct (set_mem _ _); [done|]. case_decide as Hc.
  - rewrite <- Hc. apply about_all, foi_statements_subject.
  - apply about_none. eapply subject_other, foi_statements_subject. done.
Qed.

(** An identity that is marked when the loop starts is not declared by it. *)
Lemma declarations_sensor_marked (cols : list string) (sn : seen) (c0 : string) :
  set_mem (get_sensor_uri c0) (defined_sensors sn) = true →
  about (get_sensor_uri c0) (declarations sn cols) = [].
Proof.
  revert sn. induction cols as [|col cols IH]; intros sn Hm; [done|].
  simpl. rewrite about_app, about_declared_sensor, IH.
  - destruct (set_mem (get_sensor_uri col) _) eqn:E; [done|].
    case_decide as Hc; [|done]. congruence.
  - rewrite marked_sensors, Hm. apply orb_true_r.
Qed.

Lemma declarations_property_marked (cols : list string) (sn : seen) (c0 : string) :
  set_mem (get_property_uri c0) (defined_properties sn) = true →
  about (get_property_uri c0) (declarations sn cols) = [].
Proof.
  revert sn. induction cols as [|col cols IH]; intros sn Hm; [done|].
  simpl. rewrite about_app, about_declared_property, IH.
  - destruct (set_mem (get_property_uri col) _) eqn:E; [done|].
    case_decide as Hc; [|done]. congruence.
  - rewrite marked_properties, Hm. apply orb_true_r.
Qed.

Lemma declarations_foi_marked (cols : list string) (sn : seen) (c0 f : string) :
  get_feature_of_interest_uri c0 = Some f →
  set_mem f (defined_fois sn) = true →
  about f (declarations sn cols) = [].
Proof.
  intros Hf. revert sn. induction cols as [|col cols IH]; intros sn Hm; [done|].
  simpl. rewrite about_app, (about_declared_foi _ _ c0) by done. rewrite IH.
  - destruct (get_feature_of_interest_uri col) as [f'|]; [|done].
    destruct (set_mem f' _) eqn:E; [done|].
    case_decide as Hc; [|done]. congruence.
  - rewrite marked_fois, Hm. apply orb_true_r.
Qed.

(** The statements about a sensor identity are those of the first column
    that derives it. *)
Lemma declarations_sensor_first
    (cols : list string) (sn : seen) (i : nat) (c0 : string) :
  cols !! i = Some c0 →
  (∀ j c, cols !! j = Some c → (j < i)%nat → get_sensor_uri c ≠ get_sensor_uri c0) →
  set_mem (get_sensor_uri c0) (defined_sensors sn) = false →
  about (get_sensor_uri c0) (declarations sn cols) = sensor_statements c0.
Proof.
  revert sn i. induction cols as [|col cols IH]; intros sn i Hi Hfirst Hm; [done|].
  simpl. rewrite about_app, about_declared_sensor.
  destruct i as [|i]; simpl in Hi.
  - injection Hi as ->. rewrite Hm, decide_True by done.
    rewrite declarations_sensor_marked; [by rewrite app_nil_r|].
    rewrite marked_sensors, bool_decide_true by done. done.
  - assert (get_sensor_uri col ≠ get_sensor_uri c0) as Hne.
    { apply (Hfirst 0%nat); [done | lia]. }
    rewrite decide_False by done.
    assert (about (get_sensor_uri c0) (declarations (marked sn col) cols)
            = sensor_statements c0) as ->.
    { apply (IH _ i); [done | |].
      - intros j c Hj Hlt. apply (Hfirst (S j)); [done | lia].
      - rewrite marked_sensors, Hm, bool_decide_false by done. done. }
    by destruct (set_mem (get_sensor_uri col) _).
Qed.

Lemma declarations_property_first
    (cols : list string) (sn : seen) (i : nat) (c0 : string) :
  cols !! i = Some c0 →
  (∀ j c, cols !! j = Some c → (j < i)%nat →
          get_property_uri c ≠ get_property_uri c0) →
  set_mem (get_property_uri c0) (defined_properties sn) = false →
  about (get_property_uri c0) (declarations sn cols) = property_statements c0.
Proof.
  revert sn i. induction cols as [|col cols IH]; intros sn i Hi Hfirst Hm; [done|].
  simpl. rewrite about_app, about_declared_property.
  destruct i as [|i]; simpl in Hi.
  - injection Hi as ->. rewrite Hm, decide_True by done.
    rewrite declarations_property_marked; [by rewrite app_nil_r|].
    rewrite marked_properties, bool_decide_true by done. done.
  - assert (get_property_uri col ≠ get_property_uri c0) as Hne.
    { apply (Hfirst 0%nat); [done | lia]. }
    rewrite decide_False by done.
    assert (about (get_property_uri c0) (declarations (marked sn col) cols)
            = property_statements c0) as ->.
    { apply (IH _ i); [done | |].
      - intros j c Hj Hlt. apply (Hfirst (S j)); [done | lia].
      - rewrite marked_properties, Hm, bool_decide_false by done. done. }
    by destruct (set_mem (get_property_uri col) _).
Qed.

Lemma declarations_foi_first
    (cols : list string) (sn : seen) (i : nat) (c0 f : string) :
  cols !! i = Some c0 →
  get_feature_of_interest_uri c0 = Some f →
  (∀ j c, cols !! j = Some c → (j < i)%nat →
          get_feature_of_interest_uri c ≠ Some f) →
  set_mem f (defined_fois sn) = false →
  about f (declarations sn cols) = foi_statements f.
Proof.
  revert sn i. induction cols as [|col cols IH];
    intros sn i Hi Hf Hfirst Hm; [done|].
  simpl. rewrite about_app, (about_declared_foi _ _ c0) by done.
  destruct i as [|i]; simpl in Hi.
  - injection Hi as ->. rewrite Hf, Hm, decide_True by done.
    rewrite (declarations_foi_marked _ _ c0); [by rewrite app_nil_r | done |].
    rewrite marked_fois, bool_decide_true by done. done.
  - assert (get_feature_of_interest_uri col ≠ Some f) as Hne.
    { apply (Hfirst 0%nat); [done | lia]. }
    assert (about f (declarations (marked sn col) cols) = foi_statements f) as ->.
    { apply (IH _ i); [done | done | |].
      - intros j c Hj Hlt. apply (Hfirst (S j)); [done | lia].
      - rewrite marked_fois, Hm, bool_decide_false by done. done. }
    destruct (get_feature_of_interest_uri col) as [f'|]; [|done].
    destruct (set_mem f' _); [done|].
    rewrite decide_False; [done | congruence].
Qed.

(** Every column has a first column with the same identity. *)
Lemma first_with {A} `{EqDecision A} (f : string → A) (cols : list string) (col : string) :
  col ∈ cols →
  ∃ i c0, cols !! i = Some c0 ∧ f c0 = f col
          ∧ ∀ j c, cols !! j = Some c → (j < i)%nat → f c ≠ f col.
Proof.
  intros Hin.
  destruct (list_find_elem_of (λ c, f c = f col) cols col Hin eq_refl)
    as [[i c0] Hfind].
  apply list_find_Some in Hfind as (Hi & Hc0 & Hbefore).
  exists i, c0. split_and!; [done | done |].
  intros j c Hj Hlt. by apply (Hbefore j).
Qed.

End Registry.

(** ** What a run adds to the graph *)

Section AddsOnly.
Context (P : triple → Prop).

Lemma adds_nothing (w : world) :
  w = World (graph w ++ []) (stdout w ++ []) (written w).
Proof. by rewrite !app_nil_r, world_eta. Qed.

Lemma adds_only_ret {A} (x : A) : adds_only P (mret x).
Proof. intros w. exists [], []. split; [apply adds_nothing | done]. Qed.

Lemma adds_only_lift {A} (r : exn + A) : adds_only P (lift r).
Proof. intros w. exists [], []. split; [apply adds_nothing | done]. Qed.

Lemma adds_only_raise {A} (e : exn) : adds_only P (raise (A:=A) e).
Proof. intros w. exists [], []. split; [apply adds_nothing | done]. Qed.

Lemma adds_only_print (m : message) : adds_only P (print m).
Proof.
  intros w. exists [], [m]. split; [|done].
  unfold print. simpl. by rewrite app_nil_r.
Qed.

Lemma adds_only_add_all (l : list triple) :
  Forall P l → adds_only P (for_each l add).
Proof.
  intros Hl w. exists l, []. rewrite for_each_add. simpl.
  by rewrite app_nil_r.
Qed.

Lemma adds_only_bind {A B} (m : Run A) (f : A → Run B) :
  adds_only P m →
  (∀ x w, (m w).2 = inr x → adds_only P (f x)) →
  adds_only P (m ≫= f).
Proof.
  intros Hm Hf w. unfold mbind, run_bind.
  destruct (Hm w) as (l & out & Hw & Hl).
  destruct (m w) as [w' [e|x]] eqn:E; simpl in *.
  - by exists l, out.
  - destruct (Hf x w (f_equal snd E) w') as (l' & out' & Hw' & Hl').
    exists (l ++ l'), (out ++ out'). rewrite Hw', Hw. simpl.
    rewrite <- !app_assoc. split; [done|]. by apply Forall_app.
Qed.

Lemma adds_only_for_each {A} (l : list A) (body : A → Run unit) :
  (∀ x, x ∈ l → adds_only P (body x)) → adds_only P (for_each l body).
Proof.
  induction l as [|x l IH]; intros Hbody; simpl.
  - apply adds_only_ret.
  - apply adds_only_bind.
    + apply Hbody. by left.
    + intros _ _ _. apply IH. intros y Hy. apply Hbody. by right.
Qed.

Lemma adds_only_try {A} (body : Run A) (handler : exn → Run A) :
  adds_only P body → (∀ e, adds_only P (handler e)) →
  adds_only P (try_except body handler).
Proof.
  intros Hb Hh w. unfold try_except.
  destruct (Hb w) as (l & out & Hw & Hl).
  destruct (body w) as [w' [e|x]] eqn:E; simpl in *.
  - destruct (is_Exception e).
    + destruct (Hh e w') as (l' & out' & Hw' & Hl').
      exists (l ++ l'), (out ++ out'). rewrite Hw', Hw. simpl.
      rewrite <- !app_assoc. split; [done|]. by apply Forall_app.
    + by exists l, out.
  - by exists l, out.
Qed.

Lemma adds_only_weaken (Q : triple → Prop) {A} (m : Run A) :
  (∀ t, Q t → P t) → adds_only Q m → adds_only P m.
Proof.
  intros HQP Hm w. destruct (Hm w) as (l & out & Hw & Hl).
  exists l, out. split; [done|]. eapply Forall_impl; eauto.
Qed.

End AddsOnly.

(** ** The rows *)

Section Rows.
Context {FT : FloatText} {PS : PySet}.

Lemma observation_statements_subject (col : string) (ts : pyval) (f : spec_float) :
  Forall (λ t, subject t = URIRef (observation_uri col ts))
         (observation_statements col ts f).
Proof.
  unfold observation_statements.
  destruct (get_feature_of_interest_uri col); repeat constructor.
Qed.

(** Two columns that give one observation identity give one sensor
    identity. *)
Lemma observation_uri_sensor (col col' : string) (ts : pyval) :
  observation_uri col ts = observation_uri col' ts →
  get_sensor_uri col = get_sensor_uri col'.
Proof.
  unfold observation_uri. intros H.
  do 2 apply (inj (String.append _)) in H.
  apply append_inj_l in H. by apply get_sensor_uri_inj_sanitize.
Qed.

Lemma observation_not_sensor (col c : string) (ts : pyval) :
  observation_uri col ts ≠ get_sensor_uri c.
Proof. unfold observation_uri, get_sensor_uri. uri_head. discriminate. Qed.

Lemma observation_not_property (col c : string) (ts : pyval) :
  observation_uri col ts ≠ get_property_uri c.
Proof. unfold observation_uri, get_property_uri. uri_head. discriminate. Qed.

Lemma observation_not_foi (col c f : string) (ts : pyval) :
  get_feature_of_interest_uri c = Some f → observation_uri col ts ≠ f.
Proof.
  intros (tok & _ & ->)%foi_shape. unfold observation_uri. uri_head. discriminate.
Qed.

(** [float] raises [ValueError] or [OverflowError], and nothing else. *)
Lemma float_of_int_error (n : Z) (e : exn) :
  float_of_int n = inl e → e = OverflowError.
Proof.
  unfold float_of_int.
  destruct (binary_normalize 53 1024 n 0 false); intros [= <-]; done.
Qed.

Lemma py_float_error (v : pyval) (e : exn) :
  py_float v = inl e → e = ValueError v ∨ e = OverflowError.
Proof.
  destruct v as [s|f|n|b]; simpl.
  - destruct (float_of_str s); [discriminate|]. intros [= <-]. by left.
  - discriminate.
  - intros He. right. by eapply float_of_int_error.
  - intros He. right. by eapply float_of_int_error.
Qed.

(** The largest integer that [float] accepts is the one just below the
    middle of the largest binary64 value and [2^1024]. *)
Example float_of_int_threshold :
  float_of_int (2 ^ 1024 - 2 ^ 970) = inl OverflowError
  ∧ float_of_int (- (2 ^ 1024 - 2 ^ 970)) = inl OverflowError
  ∧ float_of_int (2 ^ 1024 - 2 ^ 970 - 1)
    = inr (S754_finite false (2 ^ 53 - 1) 971).
Proof. vm_compute. by split_and!. Qed.

Lemma py_float_exception (v : pyval) (e : exn) :
  py_float v = inl e → is_Exception e = true.
Proof. by intros [->| ->]%py_float_error. Qed.

Lemma record_value_run (r : row) (ts : pyval) (col : string) (v : pyval) (w : world) :
  r !! col = Some v →
  record_value r ts col w
  = if pd_notna v then
      match py_float v with
      | inr f =>
          (World (graph w ++ observation_statements col ts f) (stdout w) (written w),
           inr tt)
      | inl (ValueError _) => (w, inr tt)
      | inl e => (w, inl e)
      end
    else (w, inr tt).
Proof.
  intros Hv. unfold record_value, getitem. rewrite Hv.
  unfold mbind, run_bind, lift. cbv beta iota.
  destruct (pd_notna v); [|done].
  destruct (py_float v) as [e|f] eqn:E.
  - by destruct e.
  - apply for_each_add.
Qed.

Lemma record_value_missing (r : row) (ts : pyval) (col : string) (w : world) :
  r !! col = None → record_value r ts col w = (w, inl (KeyError col)).
Proof. intros Hv. unfold record_value, getitem. by rewrite Hv. Qed.

Lemma record_value_adds (r : row) (ts : pyval) (col : string) :
  adds_only (λ t, subject t = URIRef (observation_uri col ts))
            (record_value r ts col).
Proof.
  intros w. destruct (r !! col) as [v|] eqn:Hv.
  - rewrite (record_value_run _ _ _ v) by done.
    destruct (pd_notna v); [destruct (py_float v) as [e|f]|]; simpl.
    + exists [], []. split; [|done]. destruct e; apply adds_nothing.
    + exists (observation_statements col ts f), [].
      split; [by rewrite app_nil_r | apply observation_statements_subject].
    + exists [], []. split; [apply adds_nothing | done].
  - rewrite record_value_missing by done.
    exists [], []. split; [apply adds_nothing | done].
Qed.

Lemma observe_adds (r : row) (ts : pyval) (interp : pyset) (col : string) :
  adds_only (λ t, subject t = URIRef (observation_uri col ts)
                  ∧ set_mem (get_sensor_uri col) interp = false)
            (observe r ts interp col).
Proof.
  unfold observe. destruct (set_mem _ _) eqn:E.
  - apply adds_only_ret.
  - eapply adds_only_weaken, record_value_adds. by intros t ->.
Qed.

Lemma column_statements_eq (r : row) (ts : pyval) (interp : pyset) (col : string) :
  column_statements r ts interp col
  = if set_mem (get_sensor_uri col) interp then []
    else match r !! col with
         | Some v =>
             if pd_notna v then
               match py_float v with
               | inr f => observation_statements col ts f
               | inl _ => []
               end
             else []
         | None => []
         end.
Proof.
  unfold column_statements, observe. destruct (set_mem _ _); [done|].
  destruct (r !! col) as [v|] eqn:Hv.
  - rewrite (record_value_run r ts col v start Hv).
    destruct (pd_notna v); [destruct (py_float v) as [[]|f]|]; done.
  - by rewrite record_value_missing.
Qed.

(** A round of the loop over the columns: what it adds and how it ends. *)
Lemma observe_run (r : row) (ts : pyval) (interp : pyset) (col : string) (w : world) :
  observe r ts interp col w
  = (World (graph w ++ column_statements r ts interp col) (stdout w) (written w),
     match column_outcome r interp col with
     | Some e => inl e
     | None => inr tt
     end).
Proof.
  rewrite column_statements_eq. unfold observe, column_outcome.
  destruct (set_mem _ _).
  { unfold mret, run_ret. by rewrite app_nil_r, world_eta. }
  destruct (r !! col) as [v|] eqn:Hv.
  - rewrite (record_value_run r ts col v w Hv).
    destruct (pd_notna v); [destruct (py_float v) as [[]|f]|];
      by rewrite ?app_nil_r, ?world_eta.
  - rewrite record_value_missing by done. by rewrite app_nil_r, world_eta.
Qed.

(** A column whose round raises adds nothing. *)
Lemma column_outcome_statements
    (r : row) (ts : pyval) (interp : pyset) (col : string) (e : exn) :
  column_outcome r interp col = Some e → column_statements r ts interp col = [].
Proof.
  rewrite column_statements_eq. unfold column_outcome.
  destruct (set_mem _ _); [done|].
  destruct (r !! col) as [v|]; [|done].
  destruct (pd_notna v); [|done]. by destruct (py_float v) as [[]|f].
Qed.

Lemma column_outcome_exception (r : row) (interp : pyset) (col : string) (e : exn) :
  column_outcome r interp col = Some e → is_Exception e = true.
Proof.
  unfold column_outcome. destruct (set_mem _ _); [done|].
  destruct (r !! col) as [v|]; [|by intros [= <-]].
  destruct (pd_notna v); [|done].
  destruct (py_float v) as [e'|f] eqn:E; [|done].
  apply py_float_exception in E. destruct e'; try done; by intros [= <-].
Qed.

(** The loop over the columns: the rounds before the first one that raises
    are completed, and the row ends there. *)
Lemma for_each_observe_run
    (cols : list string) (r : row) (ts : pyval) (interp : pyset) (w : world) :
  for_each cols (observe r ts interp) w
  = (World (graph w ++ ((columns_done r interp cols).1 ≫= column_statements r ts interp))
           (stdout w) (written w),
     match (columns_done r interp cols).2 with
     | Some e => inl e
     | None => inr tt
     end).
Proof.
  revert w. induction cols as [|col cols IH]; intros w.
  - simpl. unfold mret, run_ret. by rewrite app_nil_r, world_eta.
  - simpl for_each. unfold mbind at 1, run_bind at 1.
    rewrite observe_run. simpl columns_done.
    destruct (column_outcome r interp col) as [e|] eqn:E.
    + rewrite (column_outcome_statements r ts interp col e E). simpl.
      by rewrite app_nil_r.
    + rewrite IH. destruct (columns_done r interp cols) as [before e].
      cbv beta iota. cbn [fst snd graph stdout written].
      by rewrite bind_cons, app_assoc.
Qed.

(** The columns that are completed are the columns before the first one
    that raises. *)
Lemma columns_done_spec (r : row) (interp : pyset) (cols : list string) :
  match (columns_done r interp cols).2 with
  | Some e =>
      ∃ col later,
        cols = (columns_done r interp cols).1 ++ col :: later
        ∧ column_outcome r interp col = Some e
  | None => (columns_done r interp cols).1 = cols
  end
  ∧ Forall (λ col, column_outcome r interp col = None) (columns_done r interp cols).1.
Proof.
  induction cols as [|col cols [IH1 IH2]]; [done|].
  simpl. destruct (column_outcome r interp col) as [e|] eqn:E.
  - split; [|done]. by exists col, cols.
  - destruct (columns_done r interp cols) as [before [e|]]; simpl in *.
    + split; [|by constructor].
      destruct IH1 as (c & later & -> & Hc). by exists c, later.
    + split; [by rewrite IH1 | by constructor].
Qed.

Lemma row_body_run (cols : list string) (r : row) (w : world) :
  row_body cols r w
  = match getitem r "utc_timestamp" with
    | inl e => (w, inl e)
    | inr ts =>
        match interpolated_sensors r with
        | inl e => (w, inl e)
        | inr interp => for_each cols (observe r ts interp) w
        end
    end.
Proof.
  unfold row_body, mbind, run_bind, lift.
  destruct (getitem r "utc_timestamp"); [done|].
  by destruct (interpolated_sensors r).
Qed.

Lemma getitem_error (r : row) (key : string) (e : exn) :
  getitem r key = inl e → is_Exception e = true.
Proof. unfold getitem. destruct (r !! key); [done|]. by intros [= <-]. Qed.

Lemma interpolated_sensors_error (r : row) (e : exn) :
  interpolated_sensors r = inl e → is_Exception e = true.
Proof.
  unfold interpolated_sensors.
  destruct (getitem r "interpolated") as [e'|cell] eqn:E.
  - intros [= <-]. by eapply getitem_error.
  - destruct (pd_notna cell); [|done].
    destruct cell as [s| | |]; try by intros [= <-].
    by destruct (negb _).
Qed.

(** A row whose timestamp and marker are read: the rounds of its columns. *)
Lemma row_body_columns
    (cols : list string) (r : row) (ts : pyval) (interp : pyset) (w : world) :
  r !! "utc_timestamp" = Some ts →
  interpolated_sensors r = inr interp →
  row_body cols r w
  = (World (graph w ++ ((columns_done r interp cols).1 ≫= column_statements r ts interp))
           (stdout w) (written w),
     match (columns_done r interp cols).2 with
     | Some e => inl e
     | None => inr tt
     end).
Proof.
  intros Hts Hint. rewrite row_body_run. unfold getitem. rewrite Hts, Hint.
  apply for_each_observe_run.
Qed.

Lemma row_body_adds (cols : list string) (r : row) :
  adds_only is_observation (row_body cols r).
Proof.
  unfold row_body.
  apply adds_only_bind; [apply adds_only_lift|]. intros ts _ _.
  apply adds_only_bind; [apply adds_only_lift|]. intros interp _ _.
  apply adds_only_for_each. intros col _.
  eapply adds_only_weaken, observe_adds.
  intros t [Ht _]. by exists col, ts.
Qed.

Lemma process_row_adds (cols : list string) (index : nat) (r : row) :
  adds_only is_observation (process_row cols index r).
Proof.
  apply adds_only_try; [apply row_body_adds|].
  intros e. apply adds_only_print.
Qed.

Lemma declare_entities_run (cols : list string) (w : world) :
  let sn := marked_all (Seen set_empty set_empty set_empty) cols in
  declare_entities cols w
  = (World (graph w ++ declarations (Seen set_empty set_empty set_empty) cols)
           (stdout w ++ [Msg_sensors_etc;
                         Msg_defined (set_len (defined_sensors sn))
                                     (set_len (defined_properties sn))
                                     (set_len (defined_fois sn))])
           (written w),
     inr sn).
Proof.
  unfold declare_entities, mbind, run_bind, print at 1.
  rewrite for_fold_declare_run. simpl.
  by rewrite <- app_assoc.
Qed.

Lemma for_each_exception {A} (l : list A) (body : A → Run unit) (w w' : world) (e : exn) :
  (∀ x w w' e, body x w = (w', inl e) → is_Exception e = true) →
  for_each l body w = (w', inl e) → is_Exception e = true.
Proof.
  intros Hbody. revert w. induction l as [|x l IH]; intros w; [done|].
  simpl. unfold mbind, run_bind.
  destruct (body x w) as [w1 [e1|[]]] eqn:E.
  - intros [= <- <-]. by eapply Hbody.
  - apply IH.
Qed.

Lemma observe_exception
    (r : row) (ts : pyval) (interp : pyset) (col : string) (w w' : world) (e : exn) :
  observe r ts interp col w = (w', inl e) → is_Exception e = true.
Proof.
  unfold observe. destruct (set_mem _ _); [done|].
  destruct (r !! col) as [v|] eqn:Hv.
  - rewrite (record_value_run _ _ _ v) by done.
    destruct (pd_notna v); [|done].
    destruct (py_float v) as [e'|f] eqn:E; [|done].
    apply py_float_exception in E. destruct e'; try done; by intros [= <- <-].
  - rewrite record_value_missing by done. by intros [= <- <-].
Qed.

Lemma row_body_exception (cols : list string) (r : row) (w w' : world) (e : exn) :
  row_body cols r w = (w', inl e) → is_Exception e = true.
Proof.
  rewrite row_body_run.
  destruct (getitem r "utc_timestamp") as [e1|ts] eqn:E1.
  { intros [= <- <-]. by eapply getitem_error. }
  destruct (interpolated_sensors r) as [e2|interp] eqn:E2.
  { intros [= <- <-]. by eapply interpolated_sensors_error. }
  apply for_each_exception. intros col. apply observe_exception.
Qed.

(** A row never stops the run. *)
Lemma process_row_returns (cols : list string) (index : nat) (r : row) (w : world) :
  (process_row cols index r w).2 = inr tt.
Proof.
  unfold process_row, try_except.
  destruct (row_body cols r w) as [w' [e|[]]] eqn:E; [|done].
  by rewrite (row_body_exception _ _ _ _ _ E).
Qed.

Lemma rows_return (cols : list string) (rows : list (nat * row)) (w : world) :
  (for_each rows (λ ir, process_row cols ir.1 ir.2) w).2 = inr tt.
Proof.
  revert w. induction rows as [|[i r] rows IH]; intros w; [done|].
  simpl. unfold mbind, run_bind.
  pose proof (process_row_returns cols i r w) as Hr.
  destruct (process_row cols i r w) as [w' [e|[]]]; [done|]. apply IH.
Qed.

Lemma rows_add (cols : list string) (rows : list (nat * row)) :
  adds_only is_observation (for_each rows (λ ir, process_row cols ir.1 ir.2)).
Proof. apply adds_only_for_each. intros [i r] _. apply process_row_adds. Qed.

Lemma finish_run (env : io) (output_filepath : string) (w : world) :
  try_except (serialize_graph env output_filepath ;; print Msg_finish)
             (λ e, print (Msg_serialize_error e) ;; raise (SystemExit 1)) w
  = finished env output_filepath w.
Proof.
  unfold try_except, finished, mbind, run_bind, serialize_graph.
  destruct (serialize env (graph w) output_filepath) as [[e opened]|] eqn:E; [|done].
  by rewrite (serialize_raises env _ _ _ _ E).
Qed.

(** The steps of a run, one after the other. *)
Lemma transform_steps
    (env : io) (csv_filepath output_filepath : string) (w : world) :
  transform_csv_to_rdf env csv_filepath output_filepath w
  = match read_header env csv_filepath with
    | inl e => (w, inl e)
    | inr all_columns =>
        let cols := measurement_columns all_columns in
        let w1 := (declare_entities cols w).1 in
        match read_rows env csv_filepath with
        | inl e => (w1, inl e)
        | inr df =>
            match for_each (imap pair df) (λ ir, process_row cols ir.1 ir.2) w1 with
            | (w2, inr _) => finished env output_filepath w2
            | (w2, inl e) => (w2, inl e)
            end
        end
    end.
Proof.
  unfold transform_csv_to_rdf.
  unfold mbind at 1, run_bind at 1, lift at 1.
  destruct (read_header env csv_filepath) as [e|all_columns]; [done|].
  unfold mbind at 1, run_bind at 1. rewrite declare_entities_run.
  unfold mbind at 1, run_bind at 1, lift at 1. cbv zeta. unfold fst.
  destruct (read_rows env csv_filepath) as [e|df]; [done|].
  unfold mbind at 1, run_bind at 1.
  destruct (for_each _ _ _) as [w2 [e|[]]]; [done|].
  apply finish_run.
Qed.

(** A run, step by step: the declarations, the rows, the last step. *)
Lemma transform_run
    (env : io) (csv_filepath output_filepath : string)
    (all_columns : list string) (df : list row) (w : world) :
  read_header env csv_filepath = inr all_columns →
  read_rows env csv_filepath = inr df →
  ∃ l out,
    Forall is_observation l
    ∧ transform_csv_to_rdf env csv_filepath output_filepath w
      = finished env output_filepath
          (World (graph w
                  ++ declarations (Seen set_empty set_empty set_empty)
                                  (measurement_columns all_columns)
                  ++ l)
                 (stdout w ++ out) (written w)).
Proof.
  intros Hh Hr. unfold transform_csv_to_rdf.
  unfold mbind at 1, run_bind at 1, lift at 1. rewrite Hh.
  unfold mbind at 1, run_bind at 1. rewrite declare_entities_run.
  unfold mbind at 1, run_bind at 1, lift at 1. rewrite Hr.
  unfold mbind at 1, run_bind at 1.
  match goal with
  | |- context [for_each ?rows ?body ?w0] =>
      destruct (rows_add (measurement_columns all_columns) rows w0)
        as (l & out & Hw & Hl);
      pose proof (rows_return (measurement_columns all_columns) rows w0) as Hret;
      destruct (for_each rows body w0) as [w1 [e|[]]]; [done|];
      simpl in Hw; subst w1
  end.
  eexists l, _. split; [done|].
  rewrite finish_run. by rewrite <- !app_assoc.
Qed.

Lemma finished_graph (env : io) (output_filepath : string) (w : world) :
  graph (finished env output_filepath w).1 = graph w.
Proof. unfold finished. by destruct (serialize _ _ _) as [[e opened]|]. Qed.

(** The graph of a run: the declarations of the measurement columns, then
    statements about observations. *)
Lemma transform_graph
    (env : io) (csv_filepath output_filepath : string)
    (all_columns : list string) (df : list row) (w : world) :
  read_header env csv_filepath = inr all_columns →
  read_rows env csv_filepath = inr df →
  ∃ l, graph (transform_csv_to_rdf env csv_filepath output_filepath w).1
       = graph w
         ++ declarations (Seen set_empty set_empty set_empty)
                         (measurement_columns all_columns)
         ++ l
       ∧ Forall is_observation l.
Proof.
  intros Hh Hr.
  destruct (transform_run env csv_filepath output_filepath all_columns df w Hh Hr)
    as (l & out & Hl & ->).
  exists l. by rewrite finished_graph.
Qed.

End Rows.

(** ** The entities of a run *)

Section Entities.
Context {FT : FloatText} {PS : PySet}.
Context (env : io) (csv_filepath output_filepath : string).
Context (all_columns : list string) (df : list row).
Hypothesis header_read : read_header env csv_filepath = inr all_columns.
Hypothesis rows_read : read_rows env csv_filepath = inr df.

Lemma final_graph_about (s : string) :
  (∀ col ts, observation_uri col ts ≠ s) →
  about s (final_graph env csv_filepath output_filepath)
  = about s (declarations (Seen set_empty set_empty set_empty)
                          (measurement_columns all_columns)).
Proof.
  intros Hs. unfold final_graph.
  destruct (transform_graph env csv_filepath output_filepath all_columns df start
              header_read rows_read) as (l & -> & Hl).
  simpl. rewrite about_app.
  rewrite (about_none s l), app_nil_r; [done|].
  eapply Forall_impl; [exact Hl|].
  intros t (col & ts & Ht). rewrite Ht. intros [= H]. by eapply Hs.
Qed.

Lemma final_graph_sensor (i : nat) (c0 : string) :
  measurement_columns all_columns !! i = Some c0 →
  (∀ j c, measurement_columns all_columns !! j = Some c → (j < i)%nat →
          get_sensor_uri c ≠ get_sensor_uri c0) →
  about (get_sensor_uri c0) (final_graph env csv_filepath output_filepath) = sensor_statements c0.
Proof.
  intros Hi Hfirst. rewrite final_graph_about.
  - apply (declarations_sensor_first _ _ i); [done | done | apply set_mem_empty].
  - intros col ts. apply observation_not_sensor.
Qed.

Lemma final_graph_property (i : nat) (c0 : string) :
  measurement_columns all_columns !! i = Some c0 →
  (∀ j c, measurement_columns all_columns !! j = Some c → (j < i)%nat →
          get_property_uri c ≠ get_property_uri c0) →
  about (get_property_uri c0) (final_graph env csv_filepath output_filepath)
  = property_statements c0.
Proof.
  intros Hi Hfirst. rewrite final_graph_about.
  - apply (declarations_property_first _ _ i); [done | done | apply set_mem_empty].
  - intros col ts. apply observation_not_property.
Qed.

Lemma final_graph_foi (i : nat) (c0 f : string) :
  measurement_columns all_columns !! i = Some c0 →
  get_feature_of_interest_uri c0 = Some f →
  (∀ j c, measurement_columns all_columns !! j = Some c → (j < i)%nat →
          get_feature_of_interest_uri c ≠ Some f) →
  about f (final_graph env csv_filepath output_filepath) = foi_statements f.
Proof.
  intros Hi Hf Hfirst. rewrite final_graph_about.
  - apply (declarations_foi_first _ _ i c0); [done | done | done | apply set_mem_empty].
  - intros col ts. by eapply observation_not_foi.
Qed.

End Entities.

Section Predicates.
Context {FT : FloatText} {PS : PySet}.

Lemma sensor_statements_type (col : string) :
  filter (λ t, predicate t = term RDF "type") (sensor_statements col)
  = [ (URIRef (get_sensor_uri col), term RDF "type", term SAREF "Sensor") ].
Proof. reflexivity. Qed.

Lemma sensor_statements_label (col : string) :
  filter (λ t, predicate t = term RDFS "label") (sensor_statements col)
  = [ (URIRef (get_sensor_uri col), term RDFS "label",
       Literal (PyStr ("Sensor for " +:+ col)) None) ].
Proof. reflexivity. Qed.

Lemma sensor_statements_measures (col : string) :
  filter (λ t, predicate t = term SAREF "measuresProperty") (sensor_statements col)
  = [ (URIRef (get_sensor_uri col), term SAREF "measuresProperty",
       URIRef (get_property_uri col)) ].
Proof. reflexivity. Qed.

Lemma property_statements_type (col : string) :
  filter (λ t, predicate t = term RDF "type") (property_statements col)
  = [ (URIRef (get_property_uri col), term RDF "type", term SAREF "Property") ].
Proof. reflexivity. Qed.

Lemma property_statements_label (col : string) :
  filter (λ t, predicate t = term RDFS "label") (property_statements col)
  = [ (URIRef (get_property_uri col), term RDFS "label",
       Literal (PyStr ("Property measured by " +:+ col)) None) ].
Proof. reflexivity. Qed.

Lemma foi_statements_type (f : string) :
  filter (λ t, predicate t = term RDF "type") (foi_statements f)
  = [ (URIRef f, term RDF "type", term SAREF "FeatureOfInterest") ].
Proof. reflexivity. Qed.

Lemma foi_statements_label (f : string) :
  length (filter (λ t, predicate t = term RDFS "label") (foi_statements f)) = 1%nat.
Proof. reflexivity. Qed.

End Predicates.

(** ** Properties of the entity declarations *)

(** C2: over the whole run, every Sensor, Property and FeatureOfInterest
    identity derived from a measurement column receives exactly one type
    statement and exactly one label statement, whatever the number of
    columns and rows that map to the identity. *)
Theorem C2_identity_declared_once
    {FT : FloatText} {PS : PySet}
    (env : io) (csv_filepath output_filepath : string)
    (all_columns : list string) (df : list row) (col : string) :
  read_header env csv_filepath = inr all_columns →
  read_rows env csv_filepath = inr df →
  col ∈ measurement_columns all_columns →
  let g := final_graph env csv_filepath output_filepath in
  about_with (get_sensor_uri col) (term RDF "type") g
    = [ (URIRef (get_sensor_uri col), term RDF "type", term SAREF "Sensor") ]
  ∧ length (about_with (get_sensor_uri col) (term RDFS "label") g) = 1%nat
  ∧ about_with (get_property_uri col) (term RDF "type") g
    = [ (URIRef (get_property_uri col), term RDF "type", term SAREF "Property") ]
  ∧ length (about_with (get_property_uri col) (term RDFS "label") g) = 1%nat
  ∧ ∀ f, get_feature_of_interest_uri col = Some f →
         about_with f (term RDF "type") g
           = [ (URIRef f, term RDF "type", term SAREF "FeatureOfInterest") ]
         ∧ length (about_with f (term RDFS "label") g) = 1%nat.
Proof.
  intros Hh Hr Hcol g. unfold about_with, g.
  destruct (first_with get_sensor_uri _ col Hcol) as (i & c0 & Hi & Hc0 & Hfirst).
  destruct (first_with get_property_uri _ col Hcol) as (k & c1 & Hk & Hc1 & Hfirst1).
  split_and!.
  - rewrite <- Hc0 in *.
    rewrite (final_graph_sensor env _ _ all_columns df Hh Hr i c0 Hi Hfirst).
    apply sensor_statements_type.
  - rewrite <- Hc0 in *.
    rewrite (final_graph_sensor env _ _ all_columns df Hh Hr i c0 Hi Hfirst).
    by rewrite sensor_statements_label.
  - rewrite <- Hc1 in *.
    rewrite (final_graph_property env _ _ all_columns df Hh Hr k c1 Hk Hfirst1).
    apply property_statements_type.
  - rewrite <- Hc1 in *.
    rewrite (final_graph_property env _ _ all_columns df Hh Hr k c1 Hk Hfirst1).
    by rewrite property_statements_label.
  - intros f Hf.
    destruct (first_with get_feature_of_interest_uri _ col Hcol)
      as (m & c2 & Hm & Hc2 & Hfirst2).
    rewrite Hf in Hc2, Hfirst2.
    rewrite (final_graph_foi env _ _ all_columns df Hh Hr m c2 f Hm Hc2 Hfirst2).
    split; [apply foi_statements_type | apply foi_statements_label].
Qed.

Lemma C2_identity_declared_once_witness :
  let g := final_graph (FT:=example_floats) (PS:=gset_pyset)
             (table_io twin_header twin_rows) "in.csv" "graph.ttl" in
  let col := "DE_KN_Building1_Grid-import" in
  about_with (get_sensor_uri col) (term RDF "type") g
    = [ (URIRef (get_sensor_uri col), term RDF "type", term SAREF "Sensor") ]
  ∧ length (about_with (get_sensor_uri col) (term RDFS "label") g) = 1%nat
  ∧ about_with (get_property_uri col) (term RDF "type") g
    = [ (URIRef (get_property_uri col), term RDF "type", term SAREF "Property") ]
  ∧ length (about_with (get_property_uri col) (term RDFS "label") g) = 1%nat
  ∧ ∀ f, get_feature_of_interest_uri col = Some f →
         about_with f (term RDF "type") g
           = [ (URIRef f, term RDF "type", term SAREF "FeatureOfInterest") ]
         ∧ length (about_with f (term RDFS "label") g) = 1%nat.
Proof.
  apply (C2_identity_declared_once (FT:=example_floats) (PS:=gset_pyset)
           (table_io twin_header twin_rows) "in.csv" "graph.ttl"
           twin_header twin_rows "DE_KN_Building1_Grid-import").
  - reflexivity.
  - reflexivity.
  - apply (bool_decide_unpack _). vm_compute. exact I.
Defined.

(** C10: when several measurement columns derive one Sensor identity, its
    label statement and its measuresProperty link are those of the first
    such column in header order, and the same holds for the label of a
    Property identity; the later columns add no label or link about the
    identity. *)
Theorem C10_first_column_names_identity
    {FT : FloatText} {PS : PySet}
    (env : io) (csv_filepath output_filepath : string)
    (all_columns : list string) (df : list row) (i k : nat) (c0 c1 : string) :
  read_header env csv_filepath = inr all_columns →
  read_rows env csv_filepath = inr df →
  measurement_columns all_columns !! i = Some c0 →
  (∀ j c, measurement_columns all_columns !! j = Some c → (j < i)%nat →
          get_sensor_uri c ≠ get_sensor_uri c0) →
  measurement_columns all_columns !! k = Some c1 →
  (∀ j c, measurement_columns all_columns !! j = Some c → (j < k)%nat →
          get_property_uri c ≠ get_property_uri c1) →
  let g := final_graph env csv_filepath output_filepath in
  (∀ c, get_sensor_uri c = get_sensor_uri c0 →
     about_with (get_sensor_uri c) (term RDFS "label") g
       = [ (URIRef (get_sensor_uri c0), term RDFS "label",
            Literal (PyStr ("Sensor for " +:+ c0)) None) ]
     ∧ about_with (get_sensor_uri c) (term SAREF "measuresProperty") g
       = [ (URIRef (get_sensor_uri c0), term SAREF "measuresProperty",
            URIRef (get_property_uri c0)) ])
  ∧ (∀ c, get_property_uri c = get_property_uri c1 →
       about_with (get_property_uri c) (term RDFS "label") g
         = [ (URIRef (get_property_uri c1), term RDFS "label",
              Literal (PyStr ("Property measured by " +:+ c1)) None) ]).
Proof.
  intros Hh Hr Hi Hfirst Hk Hfirst1 g. unfold about_with, g. split.
  - intros c ->.
    rewrite (final_graph_sensor env _ _ all_columns df Hh Hr i c0 Hi Hfirst).
    split; [apply sensor_statements_label | apply sensor_statements_measures].
  - intros c ->.
    rewrite (final_graph_property env _ _ all_columns df Hh Hr k c1 Hk Hfirst1).
    apply property_statements_label.
Qed.

Lemma C10_first_column_names_identity_witness :
  let g := final_graph (FT:=example_floats) (PS:=gset_pyset)
             (table_io twin_header twin_rows) "in.csv" "graph.ttl" in
  let c0 := "DE_KN_Building1_Grid import" in
  (∀ c, get_sensor_uri c = get_sensor_uri c0 →
     about_with (get_sensor_uri c) (term RDFS "label") g
       = [ (URIRef (get_sensor_uri c0), term RDFS "label",
            Literal (PyStr ("Sensor for " +:+ c0)) None) ]
     ∧ about_with (get_sensor_uri c) (term SAREF "measuresProperty") g
       = [ (URIRef (get_sensor_uri c0), term SAREF "measuresProperty",
            URIRef (get_property_uri c0)) ])
  ∧ (∀ c, get_property_uri c = get_property_uri c0 →
       about_with (get_property_uri c) (term RDFS "label") g
         = [ (URIRef (get_property_uri c0), term RDFS "label",
              Literal (PyStr ("Property measured by " +:+ c0)) None) ]).
Proof.
  apply (C10_first_column_names_identity (FT:=example_floats) (PS:=gset_pyset)
           (table_io twin_header twin_rows) "in.csv" "graph.ttl"
           twin_header twin_rows 0 0
           "DE_KN_Building1_Grid import" "DE_KN_Building1_Grid import").
  - reflexivity.
  - reflexivity.
  - reflexivity.
  - intros j c _ Hj. lia.
  - reflexivity.
  - intros j c _ Hj. lia.
Defined.

Example twin_columns_share_identities :
  get_sensor_uri "DE_KN_Building1_Grid-import"
    = get_sensor_uri "DE_KN_Building1_Grid import"
  ∧ get_property_uri "DE_KN_Building2_Grid import"
    = get_property_uri "DE_KN_Building1_Grid import".
Proof. split; reflexivity. Qed.

(** ** Properties of the rows *)

Section Interpolation.
Context {FT : FloatText} {PS : PySet}.

Lemma interpolated_mem (l : list string) (acc : pyset) (x : string) :
  set_mem x (foldl (λ acc icol, set_add (get_sensor_uri icol) acc) acc l)
  = bool_decide (x ∈ get_sensor_uri <$> l) || set_mem x acc.
Proof.
  revert acc. induction l as [|icol l IH]; intros acc.
  - rewrite bool_decide_false; [done|]. by intros ?%elem_of_nil.
  - simpl foldl. rewrite fmap_cons, IH, set_mem_add. rewrite orb_assoc. f_equal.
    rewrite <- bool_decide_or. apply bool_decide_ext.
    rewrite elem_of_cons. tauto.
Qed.

(** The graph after a row is the graph after its body: the handler only
    prints. *)
Lemma process_row_graph (cols : list string) (index : nat) (r : row) (w : world) :
  graph (process_row cols index r w).1 = graph (row_body cols r w).1.
Proof.
  unfold process_row, try_except.
  destruct (row_body cols r w) as [w' [e|x]]; [|done].
  by destruct (is_Exception e).
Qed.

(** What the marker of a row yields when it is text other than the
    sentinel. *)
Lemma interpolated_sensors_text (r : row) (s : string) :
  r !! "interpolated" = Some (PyStr s) →
  Py.lower s ≠ "nan" →
  interpolated_sensors r
  = inr (foldl (λ acc icol, set_add (get_sensor_uri icol) acc) set_empty
               (Py.strip <$> Py.split "|" s)).
Proof.
  intros Hcell Hs. unfold interpolated_sensors, getitem. rewrite Hcell. simpl.
  destruct (String.eqb_spec (Py.lower s) "nan"); done.
Qed.

End Interpolation.

(** C3, as the program has it: when the marker of a row is text other than
    the sentinel and one of its trimmed, pipe-separated tokens derives the
    Sensor identity of a column, the round of that column adds nothing and
    the row adds no statement about the observation of that column. *)
Theorem C3_interpolated_column_not_observed
    {FT : FloatText} {PS : PySet}
    (cols : list string) (index : nat) (r : row) (w : world)
    (s tok col : string) (ts : pyval) :
  r !! "interpolated" = Some (PyStr s) →
  Py.lower s ≠ "nan" →
  tok ∈ Py.strip <$> Py.split "|" s →
  get_sensor_uri tok = get_sensor_uri col →
  r !! "utc_timestamp" = Some ts →
  (∃ interp, interpolated_sensors r = inr interp
             ∧ set_mem (get_sensor_uri col) interp = true
             ∧ observe r ts interp col w = (w, inr tt))
  ∧ about (observation_uri col ts) (graph (process_row cols index r w).1)
    = about (observation_uri col ts) (graph w).
Proof.
  intros Hcell Hs Htok Hsame Hts.
  pose proof (interpolated_sensors_text r s Hcell Hs) as Hint.
  set (interp := foldl _ _ _) in Hint.
  assert (set_mem (get_sensor_uri col) interp = true) as Hmem.
  { unfold interp. rewrite interpolated_mem, bool_decide_true; [done|].
    rewrite <- Hsame. apply list_elem_of_fmap. by exists tok. }
  split.
  - exists interp. split_and!; [done | done |].
    unfold observe. by rewrite Hmem.
  - rewrite process_row_graph, row_body_run.
    unfold getitem at 1. rewrite Hts, Hint.
    assert (adds_only
              (λ t, ∃ c, subject t = URIRef (observation_uri c ts)
                         ∧ set_mem (get_sensor_uri c) interp = false)
              (for_each cols (observe r ts interp))) as Hadds.
    { apply adds_only_for_each. intros c _.
      eapply adds_only_weaken, observe_adds. intros t Ht. by exists c. }
    destruct (Hadds w) as (l & out & -> & Hl). simpl.
    rewrite about_app, (about_none _ l), app_nil_r; [done|].
    eapply Forall_impl; [exact Hl|].
    intros t (c & Ht & Hc). rewrite Ht. intros Heq.
    assert (observation_uri c ts = observation_uri col ts) as Huri by congruence.
    apply observation_uri_sensor in Huri. congruence.
Qed.

Lemma C3_interpolated_column_not_observed_witness :
  let header := ["utc_timestamp"; "interpolated"; "DE_KN_Building1_Grid_import"] in
  let r := make_row header
             [ PyStr "2015-01-01T00:00:00Z";
               PyStr "DE_KN_Building2_x | DE_KN_Building1_Grid_import";
               PyFloat float_3_5 ] in
  let col := "DE_KN_Building1_Grid_import" in
  let ts := PyStr "2015-01-01T00:00:00Z" in
  (∃ interp, interpolated_sensors (PS:=gset_pyset) r = inr interp
             ∧ set_mem (get_sensor_uri col) interp = true
             ∧ observe (FT:=example_floats) r ts interp col start = (start, inr tt))
  ∧ about (observation_uri (FT:=example_floats) col ts)
          (graph (process_row (FT:=example_floats) (PS:=gset_pyset)
                    (measurement_columns header) 0 r start).1)
    = about (observation_uri (FT:=example_floats) col ts) (graph start).
Proof.
  apply (C3_interpolated_column_not_observed (FT:=example_floats) (PS:=gset_pyset)
           _ 0 _ start
           "DE_KN_Building2_x | DE_KN_Building1_Grid_import"
           "DE_KN_Building1_Grid_import" "DE_KN_Building1_Grid_import").
  - reflexivity.
  - vm_compute. discriminate.
  - apply (bool_decide_unpack _). vm_compute. exact I.
  - reflexivity.
  - reflexivity.
Defined.

(** C3 does not hold without the sentinel: the marker [NAN] has the single
    token [NAN], which derives the Sensor identity of the measurement column
    [DE_KN_NAN], and yet the observation of that column is added. *)
Lemma C3_sentinel_counterexample :
  let header := ["utc_timestamp"; "interpolated"; "DE_KN_NAN"] in
  let ts := PyStr "2015-01-01T00:00:00Z" in
  let r := make_row header [ ts; PyStr "NAN"; PyFloat float_3_5 ] in
  "DE_KN_NAN" ∈ measurement_columns header
  ∧ r !! "interpolated" = Some (PyStr "NAN")
  ∧ "NAN" ∈ Py.strip <$> Py.split "|" "NAN"
  ∧ get_sensor_uri "NAN" = get_sensor_uri "DE_KN_NAN"
  ∧ graph (process_row (FT:=example_floats) (PS:=gset_pyset)
             (measurement_columns header) 0 r start).1
    = observation_statements (FT:=example_floats) "DE_KN_NAN" ts float_3_5
  ∧ about (observation_uri (FT:=example_floats) "DE_KN_NAN" ts)
          (graph (process_row (FT:=example_floats) (PS:=gset_pyset)
                    (measurement_columns header) 0 r start).1)
    ≠ about (observation_uri (FT:=example_floats) "DE_KN_NAN" ts) (graph start).
Proof.
  split_and!.
  - apply (bool_decide_unpack _). vm_compute. exact I.
  - reflexivity.
  - apply (bool_decide_unpack _). vm_compute. exact I.
  - reflexivity.
  - vm_compute. reflexivity.
  - vm_compute. discriminate.
Qed.

(** C9: a marker cell that is text and reads [nan] once lowercased is the
    sentinel for no interpolation: the exclusion set of the row is empty and
    every column goes on to have its cell read. *)
Theorem C9_sentinel_case_insensitive
    {FT : FloatText} {PS : PySet} (r : row) (s : string) :
  r !! "interpolated" = Some (PyStr s) →
  Py.lower s = "nan" →
  interpolated_sensors r = inr set_empty
  ∧ ∀ (ts : pyval) (col : string),
      set_mem (get_sensor_uri col) set_empty = false
      ∧ observe r ts set_empty col = record_value r ts col.
Proof.
  intros Hcell Hs. split.
  - unfold interpolated_sensors, getitem. rewrite Hcell. simpl. by rewrite Hs.
  - intros ts col. unfold observe. by rewrite set_mem_empty.
Qed.

Lemma C9_sentinel_case_insensitive_witness :
  let r := make_row ["utc_timestamp"; "interpolated"; "DE_KN_NAN"]
             [ PyStr "2015-01-01T00:00:00Z"; PyStr "NaN"; PyFloat float_3_5 ] in
  interpolated_sensors (PS:=gset_pyset) r = inr set_empty
  ∧ ∀ (ts : pyval) (col : string),
      set_mem (get_sensor_uri col) set_empty = false
      ∧ observe (FT:=example_floats) (PS:=gset_pyset) r ts set_empty col
        = record_value (FT:=example_floats) r ts col.
Proof.
  apply (C9_sentinel_case_insensitive (FT:=example_floats) (PS:=gset_pyset) _ "NaN").
  - reflexivity.
  - reflexivity.
Defined.

(** C4, as the program has it: for a column that the interpolation marker
    does not exclude, a missing cell or a cell on which [float] raises
    [ValueError] adds nothing and raises nothing; a cell on which [float]
    raises [OverflowError], an integer too large for a float, adds nothing
    and the exception leaves the loop over the columns; a cell that [float]
    accepts adds the statements of exactly one observation, whose value is
    the float that was parsed.  There is no other case. *)
Theorem C4_numeric_gating
    {FT : FloatText} {PS : PySet}
    (r : row) (ts : pyval) (interp : pyset) (col : string) (v : pyval) (w : world) :
  set_mem (get_sensor_uri col) interp = false →
  r !! col = Some v →
  (pd_notna v = false ∨ (∃ x, py_float v = inl (ValueError x)) →
   observe r ts interp col w = (w, inr tt))
  ∧ (pd_notna v = true → py_float v = inl OverflowError →
     observe r ts interp col w = (w, inl OverflowError))
  ∧ (∀ f, pd_notna v = true → py_float v = inr f →
       let obs := observation_statements col ts f in
       observe r ts interp col w
       = (World (graph w ++ obs) (stdout w) (written w), inr tt)
       ∧ Forall (λ t, subject t = URIRef (observation_uri col ts)) obs
       ∧ filter (λ t, predicate t = term RDF "type") obs
         = [ (URIRef (observation_uri col ts), term RDF "type",
              term SAREF "Observation") ]
       ∧ filter (λ t, predicate t = term SAREF "hasValue") obs
         = [ (URIRef (observation_uri col ts), term SAREF "hasValue",
              Literal (PyFloat f) (Some (XSD +:+ "float"))) ])
  ∧ (pd_notna v = false
     ∨ py_float v = inl (ValueError v)
     ∨ (pd_notna v = true ∧ py_float v = inl OverflowError)
     ∨ (pd_notna v = true ∧ ∃ f, py_float v = inr f)).
Proof.
  intros Hmem Hv. unfold observe. rewrite Hmem.
  rewrite (record_value_run r ts col v w Hv). split_and!.
  - intros [Hna | [x He]].
    + by rewrite Hna.
    + rewrite He. by destruct (pd_notna v).
  - intros Hna He. by rewrite Hna, He.
  - intros f Hna Hf. rewrite Hna, Hf. split_and!.
    + done.
    + apply observation_statements_subject.
    + unfold observation_statements.
      by destruct (get_feature_of_interest_uri col).
    + unfold observation_statements.
      by destruct (get_feature_of_interest_uri col).
  - destruct (pd_notna v); [|by left]. right.
    destruct (py_float v) as [e|f] eqn:E.
    + destruct (py_float_error v e E) as [->| ->]; [by left | right; by left].
    + right; right. split; [done|]. by exists f.
Qed.

Lemma C4_numeric_gating_witness :
  let header := ["utc_timestamp"; "interpolated"; "DE_KN_Building1_Grid_import"] in
  let ts := PyStr "2015-01-01T00:00:00Z" in
  let r := make_row header [ ts; PyFloat S754_nan; PyStr "3.5" ] in
  let col := "DE_KN_Building1_Grid_import" in
  observe (FT:=example_floats) (PS:=gset_pyset) r ts set_empty col start
  = (World (observation_statements (FT:=example_floats) col ts float_3_5) [] [],
     inr tt).
Proof.
  intros header ts r col.
  destruct (C4_numeric_gating (FT:=example_floats) (PS:=gset_pyset)
              r ts set_empty col (PyStr "3.5") start eq_refl eq_refl)
    as (_ & _ & Hnum & _).
  destruct (Hnum float_3_5 eq_refl eq_refl) as [Hrun _].
  exact Hrun.
Defined.

(** C4 does not hold of a cell that [float] rejects with another exception
    than [ValueError]: the integer [10^400] is a cell of a measurement
    column that the marker does not exclude, [float] raises [OverflowError]
    on it, and the round of the column raises instead of going on. *)
Lemma C4_overflow_counterexample :
  let header := ["utc_timestamp"; "interpolated"; "DE_KN_Building1_Grid_import"] in
  let ts := PyStr "2015-01-01T00:00:00Z" in
  let r := make_row header [ ts; PyFloat S754_nan; PyInt (10 ^ 400) ] in
  let col := "DE_KN_Building1_Grid_import" in
  col ∈ measurement_columns header
  ∧ @set_mem gset_pyset (get_sensor_uri col) set_empty = false
  ∧ r !! col = Some (PyInt (10 ^ 400))
  ∧ py_float (FT:=example_floats) (PyInt (10 ^ 400)) = inl OverflowError
  ∧ observe (FT:=example_floats) (PS:=gset_pyset) r ts set_empty col start
    = (start, inl OverflowError)
  ∧ (observe (FT:=example_floats) (PS:=gset_pyset) r ts set_empty col start).2
    ≠ inr tt.
Proof.
  split_and!.
  - apply (bool_decide_unpack _). vm_compute. exact I.
  - reflexivity.
  - reflexivity.
  - vm_compute. reflexivity.
  - vm_compute. reflexivity.
  - vm_compute. discriminate.
Qed.

(** A cell that does not read as a number adds nothing, and the loop goes
    on to the next column. *)
Example text_cell_skipped :
  let header := ["utc_timestamp"; "interpolated"; "DE_KN_Building1_Grid_import"] in
  let ts := PyStr "2015-01-01T00:00:00Z" in
  let r := make_row header [ ts; PyFloat S754_nan; PyStr "error" ] in
  observe (FT:=example_floats) (PS:=gset_pyset) r ts set_empty
          "DE_KN_Building1_Grid_import" start
  = (start, inr tt).
Proof. reflexivity. Qed.

(** C5, as the program has it: when the body of a row raises, the exception
    is caught and printed with the index of the row, the loop goes on with
    the rows that follow, and it runs to its end whatever they raise.  The
    row is not undone: the graph keeps what the row added before it raised.
    That is nothing when the timestamp or the marker of the row could not be
    read, and otherwise the observations of the columns before the one whose
    round raised; the columns after it are not read. *)
Theorem C5_row_failure_isolated
    {FT : FloatText} {PS : PySet}
    (cols : list string) (index : nat) (r : row) (rest : list (nat * row))
    (w w' : world) (e : exn) :
  row_body cols r w = (w', inl e) →
  let logged := World (graph w') (stdout w ++ [Msg_row_error index e]) (written w) in
  process_row cols index r w = (logged, inr tt)
  ∧ for_each ((index, r) :: rest) (λ ir, process_row cols ir.1 ir.2) w
    = for_each rest (λ ir, process_row cols ir.1 ir.2) logged
  ∧ (for_each ((index, r) :: rest) (λ ir, process_row cols ir.1 ir.2) w).2 = inr tt
  ∧ ((∃ e', getitem r "utc_timestamp" = inl e')
     ∨ (∃ e', interpolated_sensors r = inl e') →
     graph w' = graph w)
  ∧ (∀ ts interp,
       r !! "utc_timestamp" = Some ts →
       interpolated_sensors r = inr interp →
       ∃ before col later,
         cols = before ++ col :: later
         ∧ Forall (λ c, column_outcome r interp c = None) before
         ∧ column_outcome r interp col = Some e
         ∧ graph w'
           = graph w
             ++ (before ≫= λ c,
                   if set_mem (get_sensor_uri c) interp then []
                   else match r !! c with
                        | Some v =>
                            if pd_notna v then
                              match py_float v with
                              | inr f => observation_statements c ts f
                              | inl _ => []
                              end
                            else []
                        | None => []
                        end)).
Proof.
  intros Hraise logged.
  assert (stdout w' = stdout w ∧ written w' = written w) as [Hout Hwr].
  { revert Hraise. rewrite row_body_run.
    destruct (getitem r "utc_timestamp") as [e1|ts]; [by intros [= <- _]|].
    destruct (interpolated_sensors r) as [e2|interp]; [by intros [= <- _]|].
    rewrite for_each_observe_run. by intros [= <- _]. }
  assert (process_row cols index r w = (logged, inr tt)) as Hrow.
  { unfold process_row, try_except.
    rewrite Hraise, (row_body_exception _ _ _ _ _ Hraise).
    unfold print, logged. by rewrite Hout, Hwr. }
  split_and!; [done | | | |].
  - simpl. unfold mbind, run_bind. by rewrite Hrow.
  - apply rows_return.
  - revert Hraise. rewrite row_body_run.
    destruct (getitem r "utc_timestamp") as [e1|ts].
    { intros [= <- _] _. done. }
    destruct (interpolated_sensors r) as [e2|interp].
    { intros [= <- _] _. done. }
    intros _ [[e' [=]]|[e' [=]]].
  - intros ts interp Hts Hint. revert Hraise.
    rewrite (row_body_columns cols r ts interp w Hts Hint).
    destruct (columns_done_spec r interp cols) as [Hspec Hdone].
    destruct (columns_done r interp cols) as [before [e'|]]; simpl in *; [|done].
    intros [= <- <-]. destruct Hspec as (col & later & Hcols & Hcol).
    exists before, col, later. split_and!; try done.
    simpl. f_equal. apply list_bind_ext; [|done].
    intros c. apply column_statements_eq.
Qed.

Lemma C5_row_failure_isolated_witness :
  let header := ["utc_timestamp"; "interpolated"; "DE_KN_Building1_Grid_import";
                 "DE_KN_Building2_Grid_import"; "DE_KN_Building3_Grid_import"] in
  let cols := measurement_columns header in
  let ts := PyStr "2015-01-01T00:00:00Z" in
  let r := make_row header
             [ ts; PyFloat S754_nan; PyFloat float_3_5; PyInt (10 ^ 400);
               PyFloat float_3_5 ] in
  let logged :=
    World (observation_statements (FT:=example_floats)
             "DE_KN_Building1_Grid_import" ts float_3_5)
          [Msg_row_error 0 OverflowError] [] in
  let rows := λ ir : nat * row,
                process_row (FT:=example_floats) (PS:=gset_pyset) cols ir.1 ir.2 in
  process_row (FT:=example_floats) (PS:=gset_pyset) cols 0 r start = (logged, inr tt)
  ∧ for_each [(0%nat, r); (1%nat, r)] rows start = for_each [(1%nat, r)] rows logged
  ∧ (for_each [(0%nat, r); (1%nat, r)] rows start).2 = inr tt.
Proof.
  intros header cols ts r logged rows.
  destruct (C5_row_failure_isolated (FT:=example_floats) (PS:=gset_pyset)
              cols 0 r [(1%nat, r)] start
              (World (observation_statements (FT:=example_floats)
                        "DE_KN_Building1_Grid_import" ts float_3_5) [] [])
              OverflowError)
    as (Hrow & Hloop & Hend & _).
  - vm_compute. reflexivity.
  - split_and!; [exact Hrow | exact Hloop | exact Hend].
Defined.

(** C5 does not hold as it is worded: the row below has a cell under every
    measurement column, [float] raises [OverflowError] on the cell of its
    second column, the exception is caught and printed, and the observation
    of the first column stays in the graph. *)
Lemma C5_partial_row_counterexample :
  let header := ["utc_timestamp"; "interpolated"; "DE_KN_Building1_Grid_import";
                 "DE_KN_Building2_Grid_import"; "DE_KN_Building3_Grid_import"] in
  let cols := measurement_columns header in
  let ts := PyStr "2015-01-01T00:00:00Z" in
  let r := make_row header
             [ ts; PyFloat S754_nan; PyFloat float_3_5; PyInt (10 ^ 400);
               PyFloat float_3_5 ] in
  let run := process_row (FT:=example_floats) (PS:=gset_pyset) cols 0 r start in
  Forall (λ col, is_Some (r !! col)) cols
  ∧ (row_body (FT:=example_floats) (PS:=gset_pyset) cols r start).2
    = inl OverflowError
  ∧ stdout run.1 = [Msg_row_error 0 OverflowError]
  ∧ graph run.1
    = observation_statements (FT:=example_floats)
        "DE_KN_Building1_Grid_import" ts float_3_5
  ∧ graph run.1 ≠ graph start.
Proof.
  split_and!.
  - vm_compute. repeat constructor; by eexists.
  - vm_compute. reflexivity.
  - vm_compute. reflexivity.
  - vm_compute. reflexivity.
  - vm_compute. discriminate.
Qed.

(** ** Properties of the identifier deriver *)

(** A name without the location head has no property suffix either. *)
Lemma location_none_property_none (col : string) :
  location_token col = None → property_suffix col = None.
Proof.
  rewrite location_token_eq, property_suffix_eq. unfold Py.startswith.
  destruct (location_head col) as [[tok rest]|]; [|done].
  by destruct (Py.after_prefix "_" rest).
Qed.

(** ** Properties of the command *)

Section Command.
Context {FT : FloatText} {PS : PySet}.

Lemma main_run (env : io) (argv : list string) (csv_file : string) (w : world) :
  argv !! 1%nat = Some csv_file →
  main env argv w = transform_csv_to_rdf env csv_file "graph.ttl" w.
Proof. intros Harg. unfold main, mbind, run_bind, lift. by rewrite Harg. Qed.

Lemma finished_success (env : io) (output_filepath : string) (w : world) :
  serialize env (graph w) output_filepath = None →
  (finished env output_filepath w).2 = inr tt
  ∧ written (finished env output_filepath w).1
    = written w ++ [(output_filepath, Turtle (graph w))].
Proof. intros Hs. unfold finished. by rewrite Hs. Qed.

Lemma finished_failure
    (env : io) (output_filepath : string) (w : world) (e : exn) (opened : bool) :
  serialize env (graph w) output_filepath = Some (e, opened) →
  (finished env output_filepath w).2 = inl (SystemExit 1)
  ∧ written (finished env output_filepath w).1
    = written w ++ left_behind output_filepath opened.
Proof. intros Hs. unfold finished. by rewrite Hs. Qed.

End Command.

(** C6, as the program has it: the command reads its first argument as the
    path of the table and nothing else, so that further arguments change
    nothing and the document goes to [graph.ttl]; once the table has been
    read, the exit status is 0 when the serialiser succeeds, and [graph.ttl]
    then holds the document of the whole graph, and 1 when it fails, and
    [graph.ttl] is then untouched or, if the serialiser had opened it, left
    truncated. *)
Theorem C6_command_surface
    {FT : FloatText} {PS : PySet}
    (env : io) (argv : list string) (csv_file : string)
    (all_columns : list string) (df : list row) :
  argv !! 1%nat = Some csv_file →
  read_header env csv_file = inr all_columns →
  read_rows env csv_file = inr df →
  let run := main env argv start in
  (serialize env (graph run.1) "graph.ttl" = None →
   exit_code run.2 = 0%Z ∧ written run.1 = [("graph.ttl", Turtle (graph run.1))])
  ∧ (serialize env (graph run.1) "graph.ttl" ≠ None →
     exit_code run.2 = 1%Z
     ∧ (written run.1 = [] ∨ written run.1 = [("graph.ttl", Truncated)]))
  ∧ (∀ e opened,
       serialize env (graph run.1) "graph.ttl" = Some (e, opened) →
       written run.1 = left_behind "graph.ttl" opened)
  ∧ (∀ argv', argv' !! 1%nat = Some csv_file → main env argv' = main env argv).
Proof.
  intros Harg Hh Hr run. unfold run. rewrite (main_run env argv csv_file) by done.
  destruct (transform_run env csv_file "graph.ttl" all_columns df start Hh Hr)
    as (l & out & _ & ->).
  set (w1 := World _ _ _). rewrite finished_graph. split_and!.
  - intros Hs. by destruct (finished_success env "graph.ttl" w1 Hs) as [-> ->].
  - intros Hs.
    destruct (serialize env (graph w1) "graph.ttl") as [[e opened]|] eqn:E; [|done].
    destruct (finished_failure env "graph.ttl" w1 e opened E) as [-> ->].
    split; [done|]. destruct opened; [by right | by left].
  - intros e opened Hs.
    by destruct (finished_failure env "graph.ttl" w1 e opened Hs) as [_ ->].
  - intros argv' Harg'. unfold main. by rewrite Harg, Harg'.
Qed.

Lemma C6_command_surface_witness :
  let header := ["utc_timestamp"; "interpolated"; "DE_KN_Building1_Grid_import"] in
  let r := make_row header
             [ PyStr "2015-01-01T00:00:00Z"; PyFloat S754_nan; PyFloat float_3_5 ] in
  let env := table_io header [r] in
  let run := main (FT:=example_floats) (PS:=gset_pyset) env
                  ["transformer.py"; "in.csv"] start in
  exit_code run.2 = 0%Z ∧ written run.1 = [("graph.ttl", Turtle (graph run.1))].
Proof.
  intros header r env run.
  destruct (C6_command_surface (FT:=example_floats) (PS:=gset_pyset)
              env ["transformer.py"; "in.csv"] "in.csv" header [r]
              eq_refl eq_refl eq_refl) as (Hok & _ & _ & _).
  exact (Hok eq_refl).
Defined.

(** C6 does not hold as stated: a second argument does not select the
    destination, and the exit status is not 0 when the table path is
    missing although the serialiser has not failed. *)
Lemma C6_second_argument_counterexample :
  let header := ["utc_timestamp"; "interpolated"; "DE_KN_Building1_Grid_import"] in
  let r := make_row header
             [ PyStr "2015-01-01T00:00:00Z"; PyFloat S754_nan; PyFloat float_3_5 ] in
  let env := table_io header [r] in
  let run := main (FT:=example_floats) (PS:=gset_pyset) env
                  ["transformer.py"; "in.csv"; "out.ttl"] start in
  let bare := main (FT:=example_floats) (PS:=gset_pyset) env ["transformer.py"] start in
  (run.2 = inr tt ∧ (written run.1).*1 = ["graph.ttl"] ∧ "out.ttl" ∉ (written run.1).*1)
  ∧ (exit_code bare.2 = 1%Z ∧ bare.1 = start
     ∧ ∀ g path, serialize env g path = None).
Proof.
  split_and!.
  - vm_compute. reflexivity.
  - vm_compute. reflexivity.
  - apply (bool_decide_unpack _). vm_compute. exact I.
  - reflexivity.
  - reflexivity.
  - reflexivity.
Qed.

(** ** Independence from the implementation of sets *)

Section Independence.
Context {FT : FloatText} (PS1 PS2 : PySet).

Lemma same_set_empty : same_set (PS1:=PS1) (PS2:=PS2) set_empty set_empty.
Proof.
  split; [|by rewrite !set_len_empty].
  intros x. by rewrite !set_mem_empty.
Qed.

Lemma same_set_add (y : string) (s1 : @pyset PS1) (s2 : @pyset PS2) :
  same_set s1 s2 → same_set (set_add y s1) (set_add y s2).
Proof.
  intros [Hmem Hlen]. split.
  - intros x. by rewrite !set_mem_add, Hmem.
  - by rewrite !set_len_add, Hmem, Hlen.
Qed.

Lemma same_set_guard (y : string) (s1 : @pyset PS1) (s2 : @pyset PS2) :
  same_set s1 s2 →
  same_set (if set_mem y s1 then s1 else set_add y s1)
           (if set_mem y s2 then s2 else set_add y s2).
Proof.
  intros Hs. rewrite <- (proj1 Hs y).
  destruct (set_mem y s1); [done | by apply same_set_add].
Qed.

Lemma declared_same (sn1 : @seen PS1) (sn2 : @seen PS2) (col : string) :
  same_seen sn1 sn2 → declared sn1 col = declared sn2 col.
Proof.
  intros ([Hs _] & [Hp _] & [Hf _]). unfold declared.
  rewrite Hs, Hp. destruct (get_feature_of_interest_uri col) as [f|]; [|done].
  by rewrite Hf.
Qed.

Lemma marked_same (sn1 : @seen PS1) (sn2 : @seen PS2) (col : string) :
  same_seen sn1 sn2 → same_seen (marked sn1 col) (marked sn2 col).
Proof.
  intros (Hs & Hp & Hf). unfold marked. split_and!; simpl.
  - by apply same_set_guard.
  - by apply same_set_guard.
  - destruct (get_feature_of_interest_uri col) as [f|]; [|done].
    by apply same_set_guard.
Qed.

Lemma declarations_same (cols : list string) (sn1 : @seen PS1) (sn2 : @seen PS2) :
  same_seen sn1 sn2 → declarations sn1 cols = declarations sn2 cols.
Proof.
  revert sn1 sn2. induction cols as [|col cols IH]; intros sn1 sn2 Hsn; [done|].
  simpl. rewrite (declared_same sn1 sn2) by done.
  f_equal. apply IH. by apply marked_same.
Qed.

Lemma marked_all_same (cols : list string) (sn1 : @seen PS1) (sn2 : @seen PS2) :
  same_seen sn1 sn2 → same_seen (marked_all sn1 cols) (marked_all sn2 cols).
Proof.
  revert sn1 sn2. induction cols as [|col cols IH]; intros sn1 sn2 Hsn; [done|].
  apply IH. by apply marked_same.
Qed.

Lemma declare_entities_same (cols : list string) (w : world) :
  (declare_entities (PS:=PS1) cols w).1 = (declare_entities (PS:=PS2) cols w).1
  ∧ ∃ sn1 sn2, (declare_entities (PS:=PS1) cols w).2 = inr sn1
               ∧ (declare_entities (PS:=PS2) cols w).2 = inr sn2.
Proof.
  rewrite !declare_entities_run. simpl.
  assert (same_seen (PS1:=PS1) (PS2:=PS2)
                    (Seen set_empty set_empty set_empty)
                    (Seen set_empty set_empty set_empty)) as Hsn.
  { split_and!; apply same_set_empty. }
  destruct (marked_all_same cols _ _ Hsn) as ([_ Hs] & [_ Hp] & [_ Hf]).
  rewrite (declarations_same cols _ _ Hsn), Hs, Hp, Hf.
  split; [done | by eexists _, _].
Qed.

Lemma interpolated_mem_same (l : list string) (s1 : @pyset PS1) (s2 : @pyset PS2) :
  same_set s1 s2 →
  same_set (foldl (λ acc icol, set_add (get_sensor_uri icol) acc) s1 l)
           (foldl (λ acc icol, set_add (get_sensor_uri icol) acc) s2 l).
Proof.
  revert s1 s2. induction l as [|icol l IH]; intros s1 s2 Hs; [done|].
  simpl. apply IH. by apply same_set_add.
Qed.

Lemma row_body_same (cols : list string) (r : row) (w : world) :
  row_body (PS:=PS1) cols r w = row_body (PS:=PS2) cols r w.
Proof.
  rewrite !row_body_run.
  destruct (getitem r "utc_timestamp") as [e|ts]; [done|].
  unfold interpolated_sensors.
  destruct (getitem r "interpolated") as [e|cell]; [done|].
  assert (∀ (s1 : @pyset PS1) (s2 : @pyset PS2), same_set s1 s2 →
            for_each cols (observe (PS:=PS1) r ts s1) w
            = for_each cols (observe (PS:=PS2) r ts s2) w) as Hloop.
  { intros s1 s2 [Hmem _]. revert w.
    induction cols as [|col cols IH]; intros w; [done|].
    simpl. unfold mbind, run_bind, observe at 1 3. rewrite Hmem.
    destruct (if set_mem _ s2 then _ else _) as [w' [e|[]]]; [done|].
    apply IH. }
  destruct (pd_notna cell); [|apply Hloop, same_set_empty].
  destruct cell as [s| | |]; try done.
  destruct (negb _); [|apply Hloop, same_set_empty].
  apply Hloop, interpolated_mem_same, same_set_empty.
Qed.

Lemma process_row_same (cols : list string) (index : nat) (r : row) (w : world) :
  process_row (PS:=PS1) cols index r w = process_row (PS:=PS2) cols index r w.
Proof. unfold process_row, try_except. by rewrite row_body_same. Qed.

Lemma rows_same (cols : list string) (rows : list (nat * row)) (w : world) :
  for_each rows (λ ir, process_row (PS:=PS1) cols ir.1 ir.2) w
  = for_each rows (λ ir, process_row (PS:=PS2) cols ir.1 ir.2) w.
Proof.
  revert w. induction rows as [|[i r] rows IH]; intros w; [done|].
  simpl. unfold mbind, run_bind. rewrite process_row_same.
  destruct (process_row cols i r w) as [w' [e|[]]]; [done|]. apply IH.
Qed.

(** The run does not depend on how the sets are implemented. *)
Lemma transform_same
    (env : io) (csv_filepath output_filepath : string) (w : world) :
  transform_csv_to_rdf (PS:=PS1) env csv_filepath output_filepath w
  = transform_csv_to_rdf (PS:=PS2) env csv_filepath output_filepath w.
Proof.
  rewrite !transform_steps.
  destruct (read_header env csv_filepath) as [e|all_columns]; [done|].
  cbv zeta.
  rewrite (proj1 (declare_entities_same (measurement_columns all_columns) w)).
  destruct (read_rows env csv_filepath) as [e|df]; [done|].
  by rewrite rows_same.
Qed.

End Independence.

(** C8: two runs on the same input give the same statements, the same
    printed lines, the same document and the same outcome, whatever
    implementation of sets each of them uses: nothing in the result depends
    on an order among the elements of a set.  This holds for the function
    and for the command. *)
Theorem C8_deterministic
    {FT : FloatText} (PS1 PS2 : PySet)
    (env : io) (argv : list string) (csv_filepath output_filepath : string)
    (w : world) :
  transform_csv_to_rdf (PS:=PS1) env csv_filepath output_filepath w
  = transform_csv_to_rdf (PS:=PS2) env csv_filepath output_filepath w
  ∧ main (PS:=PS1) env argv w = main (PS:=PS2) env argv w
  ∧ final_graph (PS:=PS1) env csv_filepath output_filepath
    = final_graph (PS:=PS2) env csv_filepath output_filepath.
Proof.
  split_and!.
  - apply transform_same.
  - unfold main, mbind, run_bind, lift.
    destruct (argv !! 1%nat) as [csv_file|]; [|done].
    apply transform_same.
  - unfold final_graph. by rewrite (transform_same PS1 PS2).
Qed.

(** ** The worked example *)

(** C1: for the header [utc_timestamp, interpolated,
    DE_KN_Building1_Grid_import] and the single row
    [2015-01-01T00:00:00Z, nan, 3.5], the graph has exactly one Sensor,
    [Sensor_Building1_Grid_import], one Property, [Property_Grid_import],
    one FeatureOfInterest, [Location_Building1], and one Observation, whose
    value is the float 3.5 and which is made by that sensor, relates to that
    property and is about that location. *)
Theorem C1_worked_example {FT : FloatText} {PS : PySet} (r : row) :
  r = example_row
  ∨ (r = example_row_text ∧ float_of_str "3.5" = Some float_3_5) →
  let g := final_graph (table_io example_header [r]) "in.csv" "graph.ttl" in
  let sensor := URIRef "http://example.com/data/Sensor_Building1_Grid_import" in
  let property := URIRef "http://example.com/Property_Grid_import" in
  let location := URIRef "http://example.com/data/Location_Building1" in
  let observation :=
    URIRef "http://example.com/data/Observation_Building1_Grid_import_2015-01-01T00:00:00Z" in
  with_object (term RDF "type") (term SAREF "Sensor") g
    = [ (sensor, term RDF "type", term SAREF "Sensor") ]
  ∧ with_object (term RDF "type") (term SAREF "Property") g
    = [ (property, term RDF "type", term SAREF "Property") ]
  ∧ with_object (term RDF "type") (term SAREF "FeatureOfInterest") g
    = [ (location, term RDF "type", term SAREF "FeatureOfInterest") ]
  ∧ with_object (term RDF "type") (term SAREF "Observation") g
    = [ (observation, term RDF "type", term SAREF "Observation") ]
  ∧ with_predicate (term SAREF "hasValue") g
    = [ (observation, term SAREF "hasValue",
         Literal (PyFloat float_3_5) (Some (XSD +:+ "float"))) ]
  ∧ with_predicate (term SAREF "madeBySensor") g
    = [ (observation, term SAREF "madeBySensor", sensor) ]
  ∧ with_predicate (term SAREF "relatesToProperty") g
    = [ (observation, term SAREF "relatesToProperty", property) ]
  ∧ with_predicate (term SAREF "isAbout") g
    = [ (observation, term SAREF "isAbout", location) ].
Proof.
  intros Hr g. unfold g, final_graph.
  rewrite (transform_same PS gset_pyset).
  destruct Hr as [-> | [-> Hfloat]].
  - vm_compute. repeat split.
  - vm_compute in Hfloat. vm_compute. rewrite Hfloat. vm_compute. repeat split.
Qed.

Lemma C1_worked_example_witness :
  let g := final_graph (FT:=example_floats) (PS:=gset_pyset)
             (table_io example_header [example_row_text]) "in.csv" "graph.ttl" in
  let observation :=
    URIRef "http://example.com/data/Observation_Building1_Grid_import_2015-01-01T00:00:00Z" in
  with_predicate (term SAREF "hasValue") g
  = [ (observation, term SAREF "hasValue",
       Literal (PyFloat float_3_5) (Some (XSD +:+ "float"))) ].
Proof.
  intros g observation.
  destruct (C1_worked_example (FT:=example_floats) (PS:=gset_pyset)
              example_row_text (or_intror (conj eq_refl eq_refl)))
    as (_ & _ & _ & _ & Hvalue & _).
  exact Hvalue.
Defined.

(** * Further properties *)

(** ** The identifier deriver *)

Lemma map_chars_length (f : ascii → ascii) (s : string) :
  String.length (Py.map_chars f s) = String.length s.
Proof. induction s as [|c s IH]; simpl; [done | by rewrite IH]. Qed.

Lemma after_prefix_Some (p s r : string) :
  Py.after_prefix p s = Some r ↔ s = p +:+ r.
Proof.
  revert s. induction p as [|a p IH]; intros s; simpl.
  - rewrite append_nil_l. split; [by intros [= ->] | by intros ->].
  - destruct s as [|b s]; [done|]. rewrite append_cons.
    destruct (Ascii.eqb_spec a b) as [->|Hne].
    + rewrite IH. split; [by intros -> | by intros [= ->]].
    + split; [done | by intros [= -> _]].
Qed.

Lemma is_word_sanitized (c : ascii) :
  Py.is_word (if Py.is_word c then c else "_"%char) = true.
Proof. by destruct (Py.is_word c) eqn:E. Qed.

Lemma sanitize_chars (text : string) :
  all_chars Py.is_word (sanitize_for_uri text) = true.
Proof.
  unfold sanitize_for_uri. generalize (strip_marker text).
  intros s. induction s as [|c s IH]; [done|].
  simpl. by rewrite is_word_sanitized, IH.
Qed.

Lemma sanitize_length (text : string) :
  String.length (sanitize_for_uri text)
  = (if Py.startswith "DE_KN_" text then String.length text - 6
     else String.length text)%nat.
Proof.
  unfold sanitize_for_uri, strip_marker, Py.startswith.
  rewrite map_chars_length.
  destruct (Py.after_prefix "DE_KN_" text) as [r|] eqn:E; [|done].
  apply after_prefix_Some in E as ->. rewrite append_length. simpl. lia.
Qed.

(** X1: whatever the text, [sanitize_for_uri] returns only letters, digits
    and underscores, one for each character that is left once a leading
    [DE_KN_] has been taken off. *)
Theorem X1_sanitize_safe (text : string) :
  all_chars Py.is_word (sanitize_for_uri text) = true
  ∧ String.length (sanitize_for_uri text)
    = (if Py.startswith "DE_KN_" text then String.length text - 6
       else String.length text)%nat.
Proof. split; [apply sanitize_chars | apply sanitize_length]. Qed.

Lemma map_chars_safe (s : string) :
  Py.map_chars (λ c, if Py.is_word c then c else "_"%char) s = s
  ↔ all_chars Py.is_word s = true.
Proof.
  induction s as [|c s IH]; simpl; [done|].
  rewrite andb_true_iff, <- IH. destruct (Py.is_word c) eqn:E.
  - split; [by intros [= ->] | by intros [_ ->]].
  - split; [|by intros [? _]]. intros [= Hc _]. subst c. by vm_compute in E.
Qed.

(** X2: the names that [sanitize_for_uri] leaves as they are are the names
    made of letters, digits and underscores that do not start with
    [DE_KN_]. *)
Theorem X2_sanitize_fixed_points (text : string) :
  sanitize_for_uri text = text
  ↔ all_chars Py.is_word text = true ∧ Py.startswith "DE_KN_" text = false.
Proof.
  split.
  - intros Hfix.
    pose proof (sanitize_chars text) as Hsafe.
    pose proof (sanitize_length text) as Hlen. rewrite Hfix in Hsafe, Hlen.
    split; [done|].
    destruct (Py.startswith "DE_KN_" text) eqn:E; [|done].
    unfold Py.startswith in E.
    destruct (Py.after_prefix "DE_KN_" text) as [r|] eqn:E'; [|done].
    apply after_prefix_Some in E' as ->. rewrite append_length in Hlen.
    simpl in Hlen. lia.
  - intros [Hsafe Hstart]. unfold sanitize_for_uri, strip_marker.
    unfold Py.startswith in Hstart.
    destruct (Py.after_prefix "DE_KN_" text); [done|]. by apply map_chars_safe.
Qed.

(** *** The two patterns *)

Lemma span_spec (p : ascii → bool) (s a b : string) :
  Py.span p s = (a, b) ↔ s = a +:+ b ∧ all_chars p a = true ∧ stops p b = true.
Proof.
  revert a b. induction s as [|c s IH]; intros a b; simpl.
  - split.
    + by intros [= <- <-].
    + intros (H & _ & _). destruct a; [|done].
      rewrite append_nil_l in H. by subst b.
  - destruct (p c) eqn:Hc.
    + destruct (Py.span p s) as [a' b'] eqn:E. split.
      * intros [= <- <-]. destruct (proj1 (IH a' b') eq_refl) as (Hs & Ha & Hb).
        rewrite append_cons, Hs. simpl. by rewrite Hc, Ha.
      * intros (H & Ha & Hb). destruct a as [|x a].
        { rewrite append_nil_l in H. subst b. simpl in Hb. by rewrite Hc in Hb. }
        rewrite append_cons in H. injection H as <- ->. simpl in Ha.
        apply andb_true_iff in Ha as [_ Ha].
        by injection (proj2 (IH a b) (conj eq_refl (conj Ha Hb))) as -> ->.
    + split.
      * intros [= <- <-]. rewrite append_nil_l. simpl. by rewrite Hc.
      * intros (H & Ha & Hb). destruct a as [|x a].
        { rewrite append_nil_l in H. by subst b. }
        rewrite append_cons in H. injection H as <- ->. simpl in Ha.
        by rewrite Hc in Ha.
Qed.

Lemma at_end_spec (s : string) :
  at_end s = true ↔ s = "" ∨ s = String "010" "".
Proof.
  destruct s as [|c [|d s]]; simpl.
  - split; [by left | done].
  - destruct (Ascii.eqb_spec c "010") as [->|Hne].
    + split; [by right | done].
    + split; [done|]. intros [?|[= ?]]; done.
  - split; [done|]. intros [?|?]; done.
Qed.

Lemma digit_not_letter (c : ascii) : Py.is_digit c = true → Py.is_letter c = false.
Proof.
  intros Hd. destruct (Py.is_letter c) eqn:Hl; [|done].
  by rewrite (letter_not_digit c Hl) in Hd.
Qed.

Lemma stops_after_token (rest : string) :
  Py.startswith "_" rest || at_end rest = true → stops Py.is_digit rest = true.
Proof.
  destruct rest as [|c rest]; [done|]. simpl.
  destruct (Py.is_digit c) eqn:Hd; [|done].
  destruct (digit_not_underscore c Hd) as [H1 H2].
  unfold Py.startswith. rewrite after_prefix_char, H1. simpl.
  destruct rest; [by rewrite H2 | done].
Qed.

(** How the head of a name is cut, said without the search. *)
Lemma location_head_spec (col tok rest : string) :
  stops Py.is_digit rest = true →
  location_head col = Some (tok, rest)
  ↔ ∃ letters digits,
      col = "DE_KN_" +:+ letters +:+ digits +:+ rest
      ∧ letters ≠ "" ∧ all_chars Py.is_letter letters = true
      ∧ digits ≠ "" ∧ all_chars Py.is_digit digits = true
      ∧ tok = letters +:+ digits.
Proof.
  intros Hrest. unfold location_head. split.
  - destruct (Py.after_prefix "DE_KN_" col) as [r|] eqn:E; [|done].
    apply after_prefix_Some in E as ->.
    destruct (Py.span Py.is_letter r) as [letters r1] eqn:E1.
    destruct (Py.span Py.is_digit r1) as [digits r2] eqn:E2.
    apply span_spec in E1 as (-> & Hl & _).
    apply span_spec in E2 as (-> & Hd & _).
    destruct letters as [|l letters]; [done|].
    destruct digits as [|d digits]; [done|].
    intros [= <- <-]. by exists (String l letters), (String d digits).
  - intros (letters & digits & -> & Hl0 & Hl & Hd0 & Hd & ->).
    rewrite (proj2 (after_prefix_Some "DE_KN_" _ (letters +:+ digits +:+ rest)) eq_refl).
    destruct letters as [|l letters]; [done|].
    destruct digits as [|d digits]; [done|].
    rewrite (proj2 (span_spec Py.is_letter _ (String l letters)
                      (String d digits +:+ rest))).
    2:{ split_and!; [done | done |]. rewrite append_cons. simpl.
        simpl in Hd. apply andb_true_iff in Hd as [Hd _].
        by rewrite (digit_not_letter d Hd). }
    by rewrite (proj2 (span_spec Py.is_digit _ (String d digits) rest)).
Qed.

Lemma location_head_stops (col tok rest : string) :
  location_head col = Some (tok, rest) → stops Py.is_digit rest = true.
Proof.
  unfold location_head.
  destruct (Py.after_prefix "DE_KN_" col) as [r|]; [|done].
  destruct (Py.span Py.is_letter r) as [letters r1].
  destruct (Py.span Py.is_digit r1) as [digits r2] eqn:E2.
  apply span_spec in E2 as (_ & _ & Hstop).
  destruct letters; [done|]. destruct digits; [done|]. by intros [= _ <-].
Qed.

(** The two shapes are what the two patterns match. *)
Lemma location_shape_token (col : string) :
  location_shape col ↔ ∃ tok, location_token col = Some tok.
Proof.
  rewrite location_token_eq. split.
  - intros (letters & digits & rest & Hcol & Hl0 & Hl & Hd0 & Hd & Hrest).
    assert (Py.startswith "_" rest || at_end rest = true) as Hend.
    { apply orb_true_iff. destruct Hrest as [?|Hrest]; [by left | right].
      by apply at_end_spec. }
    exists (letters +:+ digits).
    rewrite (proj2 (location_head_spec col (letters +:+ digits) rest
                      (stops_after_token _ Hend))).
    + by rewrite Hend.
    + by exists letters, digits.
  - intros [tok Htok].
    destruct (location_head col) as [[tok' rest]|] eqn:E; [|done].
    destruct (Py.startswith "_" rest || at_end rest) eqn:Hend; [|done].
    pose proof (location_head_stops _ _ _ E) as Hstop.
    apply (location_head_spec _ _ _ Hstop) in E
      as (letters & digits & -> & Hl0 & Hl & Hd0 & Hd & _).
    exists letters, digits, rest. split_and!; try done.
    apply orb_true_iff in Hend as [?|Hend]; [by left | right].
    by apply at_end_spec.
Qed.

Lemma suffix_shape_suffix (col : string) :
  suffix_shape col ↔ ∃ suffix, property_suffix col = Some suffix.
Proof.
  rewrite property_suffix_eq. split.
  - intros (letters & digits & c & rest & -> & Hl0 & Hl & Hd0 & Hd & Hc).
    destruct (Py.span Py.is_dot rest) as [run tail] eqn:Es.
    exists (String c run).
    rewrite (proj2 (location_head_spec _ (letters +:+ digits)
                      ("_" +:+ String c rest) eq_refl)).
    2:{ by exists letters, digits. }
    rewrite (proj2 (after_prefix_Some "_" _ (String c rest)) eq_refl).
    simpl. by rewrite Hc, Es.
  - intros [suffix Hs].
    destruct (location_head col) as [[tok rest]|] eqn:E; [|done].
    destruct (Py.after_prefix "_" rest) as [r|] eqn:Er; [|done].
    destruct r as [|c r].
    { by simpl in Hs. }
    destruct (Py.is_dot c) eqn:Hc.
    2:{ simpl in Hs. by rewrite Hc in Hs. }
    pose proof (location_head_stops _ _ _ E) as Hstop.
    apply (location_head_spec _ _ _ Hstop) in E
      as (letters & digits & -> & Hl0 & Hl & Hd0 & Hd & _).
    apply after_prefix_Some in Er as ->.
    exists letters, digits, c, r. by split_and!.
Qed.

Lemma location_shape_None (col : string) :
  location_token col = None ↔ ¬ location_shape col.
Proof.
  rewrite location_shape_token. split.
  - intros Hnone [tok Htok]. by rewrite Hnone in Htok.
  - intros Hno. destruct (location_token col) as [tok|]; [|done].
    destruct Hno. by exists tok.
Qed.

Lemma suffix_shape_None (col : string) :
  property_suffix col = None ↔ ¬ suffix_shape col.
Proof.
  rewrite suffix_shape_suffix. split.
  - intros Hnone [suffix Hs]. by rewrite Hnone in Hs.
  - intros Hno. destruct (property_suffix col) as [suffix|]; [|done].
    destruct Hno. by exists suffix.
Qed.

(** C7, as the program has it: a column name that is not
    [DE_KN_<letters><digits>_<rest>], with a [<rest>] that starts with a
    character other than a line feed, gets the Property identity
    [Property_] followed by the whole sanitized name, which is not empty,
    and the Sensor identity [Sensor_] followed by the sanitized name.  When
    the name is not [DE_KN_<letters><digits>] followed by an underscore, by
    the end of the name or by a line feed that ends the name either, it has
    no FeatureOfInterest, its observations carry no isAbout link and its
    round of the declaration loop declares no FeatureOfInterest; a name
    that is of this second shape has a FeatureOfInterest. *)
Theorem C7_fallback_naming {FT : FloatText} {PS : PySet} (col : string) :
  ¬ suffix_shape col →
  (get_property_uri col = EX +:+ "Property_" +:+ sanitize_for_uri col
   ∧ get_property_uri col ≠ ""
   ∧ get_sensor_uri col = EXDATA +:+ "Sensor_" +:+ sanitize_for_uri col)
  ∧ (¬ location_shape col →
     get_feature_of_interest_uri col = None
     ∧ (∀ ts f, Forall (λ t, predicate t ≠ term SAREF "isAbout")
                       (observation_statements col ts f))
     ∧ (∀ sn, Forall (λ t, object t ≠ term SAREF "FeatureOfInterest")
                     (declared sn col)
              ∧ defined_fois (marked sn col) = defined_fois sn))
  ∧ (location_shape col → ∃ f, get_feature_of_interest_uri col = Some f).
Proof.
  intros Hprop%suffix_shape_None. split; [|split].
  - unfold get_property_uri. rewrite Hprop. split_and!; [done | | done].
    uri_head. discriminate.
  - intros Hloc%location_shape_None.
    assert (get_feature_of_interest_uri col = None) as Hfoi.
    { unfold get_feature_of_interest_uri. by rewrite Hloc. }
    split_and!; [done | |].
    + intros ts f. unfold observation_statements. rewrite Hfoi.
      repeat constructor; by compute.
    + intros sn. unfold declared, marked. rewrite Hfoi. simpl. split; [|done].
      rewrite app_nil_r. apply Forall_app. split.
      * destruct (set_mem _ _); [done|].
        repeat constructor; by compute.
      * destruct (set_mem _ _); [done|].
        repeat constructor; by compute.
  - intros [tok Htok]%location_shape_token.
    unfold get_feature_of_interest_uri. rewrite Htok. by eexists.
Qed.

Lemma C7_fallback_naming_witness :
  let col := "temperature_outside" in
  (get_property_uri col = "http://example.com/Property_temperature_outside"
   ∧ get_property_uri col ≠ ""
   ∧ get_sensor_uri col = "http://example.com/data/Sensor_temperature_outside")
  ∧ get_feature_of_interest_uri col = None
  ∧ (∀ ts f, Forall (λ t, predicate t ≠ term SAREF "isAbout")
                    (observation_statements (FT:=example_floats) col ts f))
  ∧ (∀ sn, Forall (λ t, object t ≠ term SAREF "FeatureOfInterest")
                  (declared (PS:=gset_pyset) sn col)
           ∧ defined_fois (marked sn col) = defined_fois sn).
Proof.
  intros col.
  assert (¬ suffix_shape col) as Hsuffix.
  { apply suffix_shape_None. reflexivity. }
  assert (¬ location_shape col) as Hlocation.
  { apply location_shape_None. reflexivity. }
  destruct (C7_fallback_naming (FT:=example_floats) (PS:=gset_pyset) col Hsuffix)
    as (Hnames & Hfoi & _).
  split; [exact Hnames | exact (Hfoi Hlocation)].
Defined.

(** C7 does not hold as stated: [DE_KN_Building1] is a measurement column
    without the [_<rest>] part, so its Property identity is the fallback,
    and yet it has a FeatureOfInterest, which is declared and which its
    observations are about. *)
Lemma C7_location_counterexample :
  let col := "DE_KN_Building1" in
  let location := "http://example.com/data/Location_Building1" in
  let ts := PyStr "2015-01-01T00:00:00Z" in
  col ∈ measurement_columns ["utc_timestamp"; "interpolated"; col]
  ∧ property_suffix col = None
  ∧ get_property_uri col = EX +:+ "Property_" +:+ sanitize_for_uri col
  ∧ get_feature_of_interest_uri col = Some location
  ∧ (URIRef location, term RDF "type", term SAREF "FeatureOfInterest")
    ∈ declared (PS:=gset_pyset) (Seen set_empty set_empty set_empty) col
  ∧ (URIRef (observation_uri (FT:=example_floats) col ts), term SAREF "isAbout",
     URIRef location)
    ∈ observation_statements (FT:=example_floats) col ts float_3_5.
Proof.
  split_and!; try reflexivity.
  - apply (bool_decide_unpack _). vm_compute. exact I.
  - apply (bool_decide_unpack _). vm_compute. exact I.
  - apply (bool_decide_unpack _). vm_compute. exact I.
Qed.

(** X3: a name has a location token exactly when it is [DE_KN_], one or
    more letters, one or more digits, and then an underscore, the end of
    the name, or a line feed that ends the name; the token is the letters
    and digits. *)
Theorem X3_location_token_shape (col tok : string) :
  location_token col = Some tok
  ↔ ∃ letters digits rest,
      col = "DE_KN_" +:+ letters +:+ digits +:+ rest
      ∧ letters ≠ "" ∧ all_chars Py.is_letter letters = true
      ∧ digits ≠ "" ∧ all_chars Py.is_digit digits = true
      ∧ tok = letters +:+ digits
      ∧ (Py.startswith "_" rest = true ∨ rest = "" ∨ rest = String "010" "").
Proof.
  rewrite location_token_eq. split.
  - destruct (location_head col) as [[tok' rest]|] eqn:E; [|done].
    destruct (Py.startswith "_" rest || at_end rest) eqn:Hend; [|done].
    intros [= <-].
    pose proof (location_head_stops _ _ _ E) as Hstop.
    apply (location_head_spec _ _ _ Hstop) in E
      as (letters & digits & -> & Hl0 & Hl & Hd0 & Hd & ->).
    exists letters, digits, rest. split_and!; try done.
    apply orb_true_iff in Hend as [?|Hend]; [by left | right].
    by apply at_end_spec.
  - intros (letters & digits & rest & Hcol & Hl0 & Hl & Hd0 & Hd & Htok & Hrest).
    assert (Py.startswith "_" rest || at_end rest = true) as Hend.
    { apply orb_true_iff. destruct Hrest as [?|Hrest]; [by left | right].
      by apply at_end_spec. }
    rewrite (proj2 (location_head_spec col tok rest (stops_after_token _ Hend))).
    + by rewrite Hend.
    + by exists letters, digits.
Qed.

(** X4: a name has a property suffix exactly when it is [DE_KN_], one or
    more letters, one or more digits, an underscore and at least one more
    character that is not a line feed; the suffix runs up to the first line
    feed or to the end of the name. *)
Theorem X4_property_suffix_shape (col suffix : string) :
  property_suffix col = Some suffix
  ↔ ∃ letters digits tail,
      col = "DE_KN_" +:+ letters +:+ digits +:+ "_" +:+ suffix +:+ tail
      ∧ letters ≠ "" ∧ all_chars Py.is_letter letters = true
      ∧ digits ≠ "" ∧ all_chars Py.is_digit digits = true
      ∧ suffix ≠ "" ∧ all_chars Py.is_dot suffix = true
      ∧ stops Py.is_dot tail = true.
Proof.
  rewrite property_suffix_eq. split.
  - destruct (location_head col) as [[tok rest]|] eqn:E; [|done].
    destruct (Py.after_prefix "_" rest) as [r|] eqn:Er; [|done].
    destruct (Py.span Py.is_dot r) as [run tail] eqn:Es. simpl.
    destruct run as [|x run]; [done|]. intros [= <-].
    pose proof (location_head_stops _ _ _ E) as Hstop.
    apply (location_head_spec _ _ _ Hstop) in E
      as (letters & digits & -> & Hl0 & Hl & Hd0 & Hd & ->).
    apply after_prefix_Some in Er as ->.
    apply span_spec in Es as (-> & Hrun & Htail).
    exists letters, digits, tail. by split_and!.
  - intros (letters & digits & tail & -> & Hl0 & Hl & Hd0 & Hd & Hs0 & Hs & Htail).
    rewrite (proj2 (location_head_spec _ (letters +:+ digits)
                      ("_" +:+ suffix +:+ tail) eq_refl)).
    2:{ by exists letters, digits. }
    rewrite (proj2 (after_prefix_Some "_" _ (suffix +:+ tail)) eq_refl).
    rewrite (proj2 (span_spec Py.is_dot _ suffix tail)) by done.
    simpl. by destruct suffix.
Qed.

(** X5: a name with a property suffix has a location token: every column
    whose Property identity comes from its suffix has a FeatureOfInterest. *)
Theorem X5_suffix_has_location (col suffix : string) :
  property_suffix col = Some suffix →
  ∃ tok, location_token col = Some tok
         ∧ get_feature_of_interest_uri col = Some (EXDATA +:+ "Location_" +:+ tok)
         ∧ get_property_uri col = EX +:+ "Property_" +:+ sanitize_for_uri suffix.
Proof.
  intros Hs.
  destruct (location_token col) as [tok|] eqn:Ht.
  - exists tok. unfold get_feature_of_interest_uri, get_property_uri.
    by rewrite Ht, Hs.
  - by rewrite (location_none_property_none col Ht) in Hs.
Qed.

Lemma X5_suffix_has_location_witness :
  ∃ tok, location_token "DE_KN_Building1_Grid_import" = Some tok
         ∧ get_feature_of_interest_uri "DE_KN_Building1_Grid_import"
           = Some (EXDATA +:+ "Location_" +:+ tok)
         ∧ get_property_uri "DE_KN_Building1_Grid_import"
           = EX +:+ "Property_" +:+ sanitize_for_uri "Grid_import".
Proof.
  apply (X5_suffix_has_location "DE_KN_Building1_Grid_import" "Grid_import").
  reflexivity.
Defined.

(** *** The label of a location *)

Lemma contains_char_app (c : ascii) (a b : string) :
  Py.contains_char c (a +:+ b) = Py.contains_char c a || Py.contains_char c b.
Proof.
  induction a as [|x a IH]; [done|].
  rewrite append_cons. simpl. by rewrite IH, orb_assoc.
Qed.

Lemma split_absent (sep : ascii) (s : string) :
  Py.contains_char sep s = false → Py.split sep s = [s].
Proof.
  induction s as [|c s IH]; [done|]. simpl.
  intros [Hc Hs]%orb_false_iff. rewrite (IH Hs).
  destruct (Ascii.eqb_spec c sep) as [->|_]; [|done].
  by rewrite Ascii.eqb_refl in Hc.
Qed.

Lemma replace_absent (old new s : string) (c : ascii) :
  Py.contains_char c old = true →
  Py.contains_char c s = false →
  Py.replace_from old new 0 s = s.
Proof.
  intros Hold. induction s as [|x s IH]; [done|].
  intros Hs. simpl Py.replace_from.
  destruct (Py.after_prefix old (String x s)) as [r|] eqn:E.
  - apply after_prefix_Some in E. rewrite E, contains_char_app, Hold in Hs. done.
  - simpl in Hs. apply orb_false_iff in Hs as [_ Hs]. by rewrite IH.
Qed.

Lemma token_chars (p : ascii → bool) (c : ascii) (s : string) :
  p c = false → all_chars p s = true → Py.contains_char c s = false.
Proof.
  intros Hc. induction s as [|x s IH]; [done|]. simpl.
  intros [Hx Hs]%andb_true_iff. rewrite (IH Hs), orb_false_r.
  destruct (Ascii.eqb_spec c x) as [->|_]; [|done]. by rewrite Hx in Hc.
Qed.

Lemma all_chars_app (p : ascii → bool) (a b : string) :
  all_chars p (a +:+ b) = all_chars p a && all_chars p b.
Proof.
  induction a as [|x a IH]; [done|].
  rewrite append_cons. simpl. by rewrite IH, andb_assoc.
Qed.

Lemma all_chars_impl (p q : ascii → bool) (s : string) :
  (∀ c, p c = true → q c = true) → all_chars p s = true → all_chars q s = true.
Proof.
  intros Hpq. induction s as [|x s IH]; [done|]. simpl.
  intros [Hx Hs]%andb_true_iff. by rewrite (Hpq x Hx), IH.
Qed.

(** A location token has letters and digits only. *)
Lemma location_token_chars (col tok : string) :
  location_token col = Some tok →
  all_chars (λ c, Py.is_letter c || Py.is_digit c) tok = true.
Proof.
  rewrite location_token_eq.
  destruct (location_head col) as [[tok' rest]|] eqn:E; [|done].
  destruct (_ || _); [|done]. intros [= <-].
  pose proof (location_head_stops _ _ _ E) as Hstop.
  apply (location_head_spec _ _ _ Hstop) in E
    as (letters & digits & _ & _ & Hl & _ & Hd & ->).
  rewrite all_chars_app. apply andb_true_iff. split.
  - eapply all_chars_impl, Hl. intros c ->. done.
  - eapply all_chars_impl, Hd. intros c ->. apply orb_true_r.
Qed.

Lemma split_nonempty (sep : ascii) (s : string) :
  ∃ h t, Py.split sep s = h :: t.
Proof.
  induction s as [|c s (h & t & IH)]; simpl; [by eexists _, _|].
  rewrite IH. destruct (Ascii.eqb c sep); by eexists _, _.
Qed.

(** [(a + sep + b).split(sep) == a.split(sep) + b.split(sep)]. *)
Lemma split_app (sep : ascii) (a b : string) :
  Py.split sep (a +:+ String sep b) = Py.split sep a ++ Py.split sep b.
Proof.
  induction a as [|c a IH].
  - rewrite append_nil_l. simpl. by rewrite Ascii.eqb_refl.
  - rewrite append_cons. simpl. rewrite IH.
    destruct (Ascii.eqb c sep); [done|].
    by destruct (split_nonempty sep a) as (h & t & ->).
Qed.

Lemma replace_skip (old new a s : string) :
  Py.replace_from old new (String.length a) (a +:+ s) = Py.replace_from old new 0 s.
Proof.
  induction a as [|x a IH]; [done|]. rewrite append_cons. simpl. apply IH.
Qed.

Lemma replace_from_cons (old new : string) (x : ascii) (r : string) :
  Py.replace_from old new 0 (String x r)
  = match Py.after_prefix old (String x r) with
    | Some _ => new +:+ Py.replace_from old new (String.length old - 1) r
    | None => String x (Py.replace_from old new 0 r)
    end.
Proof. reflexivity. Qed.

(** [(old + s).replace(old, new) == new + s.replace(old, new)]. *)
Lemma replace_prefix (c : ascii) (old new s : string) :
  Py.replace (String c old) new (String c old +:+ s)
  = new +:+ Py.replace (String c old) new s.
Proof.
  unfold Py.replace. rewrite (append_cons c old s), replace_from_cons.
  rewrite <- (append_cons c old s).
  rewrite (proj2 (after_prefix_Some (String c old) _ s) eq_refl).
  replace (String.length (String c old) - 1)%nat with (String.length old)
    by (simpl; lia).
  by rewrite replace_skip.
Qed.

Lemma location_label (tok : string) :
  all_chars (λ c, Py.is_letter c || Py.is_digit c) tok = true →
  Py.replace "_" " "
    (Py.replace "Location_" "" (Py.last_field "/" (EXDATA +:+ "Location_" +:+ tok)))
  = tok.
Proof.
  intros Htok.
  pose proof (token_chars _ "/" tok eq_refl Htok) as Hslash.
  pose proof (token_chars _ "_" tok eq_refl Htok) as Hunder.
  assert (Py.last_field "/" (EXDATA +:+ "Location_" +:+ tok) = "Location_" +:+ tok)
    as ->.
  { change (EXDATA +:+ "Location_" +:+ tok)
      with ("http://example.com/data" +:+ String "/" ("Location_" +:+ tok)).
    unfold Py.last_field. rewrite split_app, (split_absent "/" ("Location_" +:+ tok)).
    - apply last_last.
    - by rewrite contains_char_app, Hslash. }
  rewrite replace_prefix, append_nil_l. unfold Py.replace.
  rewrite (replace_absent "Location_" "" tok "_") by done.
  by apply (replace_absent "_" " " tok "_").
Qed.

(** X6: the label of a FeatureOfInterest is [Location ] followed by the
    location token of the column: taking the last field of the identity and
    removing [Location_] and the underscores gives the token back. *)
Theorem X6_location_label {FT : FloatText} {PS : PySet} (col f : string) :
  get_feature_of_interest_uri col = Some f →
  ∃ tok, location_token col = Some tok
         ∧ f = EXDATA +:+ "Location_" +:+ tok
         ∧ foi_statements f
           = [ (URIRef f, term RDF "type", term SAREF "FeatureOfInterest");
               (URIRef f, term RDFS "label",
                Literal (PyStr ("Location " +:+ tok)) None) ].
Proof.
  intros (tok & Htok & ->)%foi_shape. exists tok. split_and!; [done | done |].
  unfold foi_statements. by rewrite (location_label tok (location_token_chars _ _ Htok)).
Qed.

Lemma X6_location_label_witness :
  ∃ tok, location_token "DE_KN_Building1_Grid_import" = Some tok
         ∧ "http://example.com/data/Location_Building1"
           = EXDATA +:+ "Location_" +:+ tok
         ∧ foi_statements "http://example.com/data/Location_Building1"
           = [ (URIRef "http://example.com/data/Location_Building1",
                term RDF "type", term SAREF "FeatureOfInterest");
               (URIRef "http://example.com/data/Location_Building1",
                term RDFS "label", Literal (PyStr ("Location " +:+ tok)) None) ].
Proof.
  apply (X6_location_label (FT:=example_floats) (PS:=gset_pyset)
           "DE_KN_Building1_Grid_import").
  reflexivity.
Defined.

(** ** Runs that do not look at the world *)

Section Uniform.

Lemma emits_start {A} (m : Run A) (l : list triple) (out : list message)
    (r : exn + A) :
  emits m l out r → m start = (World l out [], r).
Proof. intros H. by rewrite (H start). Qed.

Lemma uniform_start {A} (m : Run A) :
  uniform m → emits m (graph (m start).1) (stdout (m start).1) (m start).2.
Proof. intros (l & out & r & H). by rewrite (emits_start m l out r H). Qed.

Lemma uniform_ret {A} (x : A) : uniform (mret x).
Proof. exists [], [], (inr x). intros w. by rewrite <- adds_nothing. Qed.

Lemma uniform_lift {A} (r : exn + A) : uniform (lift r).
Proof. exists [], [], r. intros w. unfold lift. by rewrite <- adds_nothing. Qed.

Lemma uniform_raise {A} (e : exn) : uniform (raise (A:=A) e).
Proof. exists [], [], (inl e). intros w. unfold raise. by rewrite <- adds_nothing. Qed.

Lemma uniform_print (m : message) : uniform (print m).
Proof. exists [], [m], (inr tt). intros w. unfold print. by rewrite app_nil_r. Qed.

Lemma uniform_add_all (l : list triple) : uniform (for_each l add).
Proof.
  exists l, [], (inr tt). intros w. by rewrite for_each_add, app_nil_r.
Qed.

Lemma uniform_bind {A B} (m : Run A) (f : A → Run B) :
  uniform m → (∀ x, uniform (f x)) → uniform (m ≫= f).
Proof.
  intros (l & out & [e|x] & Hm) Hf.
  - exists l, out, (inl e). intros w. unfold mbind, run_bind. by rewrite (Hm w).
  - destruct (Hf x) as (l' & out' & r' & Hfx).
    exists (l ++ l'), (out ++ out'), r'. intros w.
    unfold mbind, run_bind. rewrite (Hm w), (Hfx _). simpl.
    by rewrite !app_assoc.
Qed.

Lemma uniform_for_each {A} (l : list A) (body : A → Run unit) :
  (∀ x, uniform (body x)) → uniform (for_each l body).
Proof.
  intros Hbody. induction l as [|x l IH]; simpl.
  - apply uniform_ret.
  - apply uniform_bind; [apply Hbody | by intros _].
Qed.

Lemma uniform_try {A} (body : Run A) (handler : exn → Run A) :
  uniform body → (∀ e, uniform (handler e)) → uniform (try_except body handler).
Proof.
  intros (l & out & [e|x] & Hb) Hh.
  - destruct (is_Exception e) eqn:He.
    + destruct (Hh e) as (l' & out' & r' & Hhe).
      exists (l ++ l'), (out ++ out'), r'. intros w.
      unfold try_except. rewrite (Hb w), He, (Hhe _). simpl.
      by rewrite !app_assoc.
    + exists l, out, (inl e). intros w. unfold try_except. by rewrite (Hb w), He.
  - exists l, out, (inr x). intros w. unfold try_except. by rewrite (Hb w).
Qed.

End Uniform.

Section UniformRows.
Context {FT : FloatText} {PS : PySet}.

Lemma record_value_uniform (r : row) (ts : pyval) (col : string) :
  uniform (record_value r ts col).
Proof.
  unfold record_value. apply uniform_bind; [apply uniform_lift|].
  intros v. destruct (pd_notna v); [|apply uniform_ret].
  destruct (py_float v) as [[]|f];
    first [apply uniform_raise | apply uniform_ret | apply uniform_add_all].
Qed.

Lemma observe_uniform (r : row) (ts : pyval) (interp : pyset) (col : string) :
  uniform (observe r ts interp col).
Proof.
  unfold observe. destruct (set_mem _ _);
    [apply uniform_ret | apply record_value_uniform].
Qed.

Lemma row_body_uniform (cols : list string) (r : row) : uniform (row_body cols r).
Proof.
  unfold row_body. apply uniform_bind; [apply uniform_lift|]. intros ts.
  apply uniform_bind; [apply uniform_lift|]. intros interp.
  apply uniform_for_each. intros col. apply observe_uniform.
Qed.

Lemma process_row_uniform (cols : list string) (index : nat) (r : row) :
  uniform (process_row cols index r).
Proof.
  apply uniform_try; [apply row_body_uniform|]. intros e. apply uniform_print.
Qed.

(** A row acts on the graph and on the output by appending what it adds and
    prints, and always returns. *)
Lemma process_row_run (cols : list string) (index : nat) (r : row) (w : world) :
  process_row cols index r w
  = (World (graph w ++ row_statements cols r)
           (stdout w ++ row_messages cols index r) (written w),
     inr tt).
Proof.
  rewrite (uniform_start _ (process_row_uniform cols index r) w).
  unfold row_statements, row_messages.
  by rewrite process_row_graph, process_row_returns.
Qed.

Lemma rows_run (cols : list string) (rows : list (nat * row)) (w : world) :
  for_each rows (λ ir, process_row cols ir.1 ir.2) w
  = (World (graph w ++ (rows ≫= λ ir, row_statements cols ir.2))
           (stdout w ++ (rows ≫= λ ir, row_messages cols ir.1 ir.2))
           (written w),
     inr tt).
Proof.
  revert w. induction rows as [|[i r] rows IH]; intros w.
  - simpl. by rewrite <- adds_nothing.
  - simpl for_each. unfold mbind at 1, run_bind at 1.
    rewrite process_row_run, IH. simpl. by rewrite !app_assoc.
Qed.

Lemma imap_pair_statements (cols : list string) (df : list row) (n : nat) :
  (imap (λ i, pair (n + i)%nat) df ≫= λ ir, row_statements cols ir.2)
  = df ≫= row_statements cols.
Proof.
  revert n. induction df as [|r df IH]; intros n; [done|].
  rewrite imap_cons, !bind_cons. f_equal. rewrite <- (IH (S n)). f_equal.
  apply imap_ext. intros i x _. simpl. f_equal. lia.
Qed.

End UniformRows.

(** ** The whole run, exactly *)

Section WholeRun.
Context {FT : FloatText} {PS : PySet}.

(** The world when the rows are done and the graph is about to be written. *)
Lemma transform_exact
    (env : io) (csv_filepath output_filepath : string)
    (all_columns : list string) (df : list row) :
  read_header env csv_filepath = inr all_columns →
  read_rows env csv_filepath = inr df →
  let cols := measurement_columns all_columns in
  let sn := marked_all (Seen set_empty set_empty set_empty) cols in
  transform_csv_to_rdf env csv_filepath output_filepath start
  = finished env output_filepath
      (World (declarations (Seen set_empty set_empty set_empty) cols
              ++ (df ≫= row_statements cols))
             ([Msg_sensors_etc;
               Msg_defined (set_len (defined_sensors sn))
                           (set_len (defined_properties sn))
                           (set_len (defined_fois sn))]
              ++ (imap pair df ≫= λ ir, row_messages cols ir.1 ir.2))
             []).
Proof.
  intros Hh Hr cols sn. rewrite transform_steps, Hh, Hr. cbv zeta.
  rewrite declare_entities_run. unfold fst. rewrite rows_run. simpl.
  by rewrite <- (imap_pair_statements cols df 0).
Qed.

Lemma final_graph_exact
    (env : io) (csv_filepath output_filepath : string)
    (all_columns : list string) (df : list row) :
  read_header env csv_filepath = inr all_columns →
  read_rows env csv_filepath = inr df →
  final_graph env csv_filepath output_filepath
  = declarations (Seen set_empty set_empty set_empty)
                 (measurement_columns all_columns)
    ++ (df ≫= row_statements (measurement_columns all_columns)).
Proof.
  intros Hh Hr. unfold final_graph.
  by rewrite (transform_exact env _ _ all_columns df Hh Hr), finished_graph.
Qed.

End WholeRun.

(** X7: the graph of a table is the declarations of its header followed by
    what each row adds, row after row in the order of the table; what a row
    adds is fixed by the row and the header, whatever was added before. *)
Theorem X7_graph_row_by_row
    {FT : FloatText} {PS : PySet}
    (env : io) (csv_filepath output_filepath : string)
    (all_columns : list string) (df : list row) :
  read_header env csv_filepath = inr all_columns →
  read_rows env csv_filepath = inr df →
  let cols := measurement_columns all_columns in
  final_graph env csv_filepath output_filepath
  = declarations (Seen set_empty set_empty set_empty) cols
    ++ (df ≫= row_statements cols)
  ∧ ∀ index r w,
      graph (process_row cols index r w).1 = graph w ++ row_statements cols r.
Proof.
  intros Hh Hr cols. split.
  - by apply final_graph_exact.
  - intros index r w. by rewrite process_row_run.
Qed.

Lemma X7_graph_row_by_row_witness :
  let cols := measurement_columns twin_header in
  final_graph (FT:=example_floats) (PS:=gset_pyset)
    (table_io twin_header twin_rows) "in.csv" "graph.ttl"
  = declarations (Seen set_empty set_empty set_empty) cols
    ++ (twin_rows ≫= row_statements (FT:=example_floats) (PS:=gset_pyset) cols)
  ∧ ∀ index r w,
      graph (process_row (FT:=example_floats) (PS:=gset_pyset) cols index r w).1
      = graph w ++ row_statements (FT:=example_floats) (PS:=gset_pyset) cols r.
Proof.
  apply (X7_graph_row_by_row (FT:=example_floats) (PS:=gset_pyset)
           (table_io twin_header twin_rows) "in.csv" "graph.ttl"
           twin_header twin_rows); reflexivity.
Defined.

(** X8: two tables with the same header and the same rows in another order
    give the same statements, in another order. *)
Theorem X8_row_order_irrelevant
    {FT : FloatText} {PS : PySet}
    (env env' : io) (csv_filepath output_filepath : string)
    (all_columns : list string) (df df' : list row) :
  read_header env csv_filepath = inr all_columns →
  read_rows env csv_filepath = inr df →
  read_header env' csv_filepath = inr all_columns →
  read_rows env' csv_filepath = inr df' →
  df ≡ₚ df' →
  final_graph env csv_filepath output_filepath
  ≡ₚ final_graph env' csv_filepath output_filepath.
Proof.
  intros Hh Hr Hh' Hr' Hperm.
  rewrite (final_graph_exact env _ _ all_columns df Hh Hr).
  rewrite (final_graph_exact env' _ _ all_columns df' Hh' Hr').
  by rewrite Hperm.
Qed.

Lemma X8_row_order_irrelevant_witness :
  final_graph (FT:=example_floats) (PS:=gset_pyset)
    (table_io twin_header twin_rows) "in.csv" "graph.ttl"
  ≡ₚ final_graph (FT:=example_floats) (PS:=gset_pyset)
       (table_io twin_header (reverse twin_rows)) "in.csv" "graph.ttl".
Proof.
  apply (X8_row_order_irrelevant (FT:=example_floats) (PS:=gset_pyset)
           (table_io twin_header twin_rows)
           (table_io twin_header (reverse twin_rows))
           "in.csv" "graph.ttl" twin_header twin_rows (reverse twin_rows));
    try reflexivity.
  symmetry. apply reverse_Permutation.
Defined.

Section EdgeTables.
Context {FT : FloatText} {PS : PySet}.

Lemma row_statements_nil (r : row) : row_statements [] r = [].
Proof.
  unfold row_statements. rewrite row_body_run.
  destruct (getitem r "utc_timestamp"); [done|].
  by destruct (interpolated_sensors r).
Qed.

Lemma bind_nil_all {A B} (l : list A) (f : A → list B) :
  (∀ x, x ∈ l → f x = []) → l ≫= f = [].
Proof.
  induction l as [|x l IH]; intros Hf; [done|].
  rewrite bind_cons, (Hf x), IH; [done | | by left].
  intros y Hy. apply Hf. by right.
Qed.

Lemma row_missing_key (cols : list string) (index : nat) (r : row) (w : world) :
  r !! "utc_timestamp" = None ∨ r !! "interpolated" = None →
  let key := if decide (r !! "utc_timestamp" = None)
             then "utc_timestamp" else "interpolated" in
  process_row cols index r w
  = (World (graph w) (stdout w ++ [Msg_row_error index (KeyError key)]) (written w),
     inr tt).
Proof.
  intros Hmissing key. unfold process_row, try_except. rewrite row_body_run.
  unfold key, interpolated_sensors, getitem.
  destruct (r !! "utc_timestamp") as [ts|] eqn:Hts.
  - destruct Hmissing as [?|Hint]; [done|]. rewrite Hint.
    by rewrite decide_False.
  - by rewrite decide_True.
Qed.

End EdgeTables.

(** X9: when no column of the header qualifies as a measurement column, the
    graph stays empty, whatever the rows hold. *)
Theorem X9_no_measurement_column
    {FT : FloatText} {PS : PySet}
    (env : io) (csv_filepath output_filepath : string)
    (all_columns : list string) (df : list row) :
  read_header env csv_filepath = inr all_columns →
  read_rows env csv_filepath = inr df →
  measurement_columns all_columns = [] →
  final_graph env csv_filepath output_filepath = [].
Proof.
  intros Hh Hr Hcols.
  rewrite (final_graph_exact env _ _ all_columns df Hh Hr), Hcols. simpl.
  apply bind_nil_all. intros r _. apply row_statements_nil.
Qed.

Lemma X9_no_measurement_column_witness :
  let header := ["utc_timestamp"; "cet_cest_timestamp"; "interpolated"; "comment"] in
  let r := make_row header
             [ PyStr "2015-01-01T00:00:00Z"; PyStr "2015-01-01T01:00:00+0100";
               PyFloat S754_nan; PyFloat float_3_5 ] in
  final_graph (FT:=example_floats) (PS:=gset_pyset)
    (table_io header [r; r]) "in.csv" "graph.ttl" = [].
Proof.
  intros header r.
  apply (X9_no_measurement_column (FT:=example_floats) (PS:=gset_pyset)
           (table_io header [r; r]) "in.csv" "graph.ttl" header [r; r]);
    reflexivity.
Defined.

(** X10: a row without a cell named [utc_timestamp], or without a cell named
    [interpolated], adds nothing: it prints the [KeyError] of the first of
    the two names that is missing and the run goes on.  When every row is
    such a row, as for a table without one of the two columns, the graph
    holds the declarations and nothing else. *)
Theorem X10_missing_reserved_column
    {FT : FloatText} {PS : PySet}
    (env : io) (csv_filepath output_filepath : string)
    (all_columns : list string) (df : list row) :
  read_header env csv_filepath = inr all_columns →
  read_rows env csv_filepath = inr df →
  (∀ r, r ∈ df → r !! "utc_timestamp" = None ∨ r !! "interpolated" = None) →
  let cols := measurement_columns all_columns in
  final_graph env csv_filepath output_filepath
  = declarations (Seen set_empty set_empty set_empty) cols
  ∧ ∀ index r w,
      r ∈ df →
      process_row cols index r w
      = (World (graph w)
               (stdout w
                ++ [Msg_row_error index
                      (KeyError (if decide (r !! "utc_timestamp" = None)
                                 then "utc_timestamp" else "interpolated"))])
               (written w),
         inr tt).
Proof.
  intros Hh Hr Hmissing cols. split.
  - rewrite (final_graph_exact env _ _ all_columns df Hh Hr).
    rewrite bind_nil_all; [by rewrite app_nil_r|].
    intros r Hin. unfold row_statements.
    rewrite <- (process_row_graph _ 0).
    by rewrite (row_missing_key _ 0 r start (Hmissing r Hin)).
  - intros index r w Hin. by apply row_missing_key, Hmissing.
Qed.

Lemma X10_missing_reserved_column_witness :
  let header := ["timestamp"; "interpolated"; "DE_KN_Building1_Grid_import"] in
  let r := make_row header
             [ PyStr "2015-01-01T00:00:00Z"; PyFloat S754_nan; PyFloat float_3_5 ] in
  let cols := measurement_columns header in
  final_graph (FT:=example_floats) (PS:=gset_pyset)
    (table_io header [r]) "in.csv" "graph.ttl"
  = declarations (Seen set_empty set_empty set_empty) cols
  ∧ ∀ index r' w,
      r' ∈ [r] →
      process_row (FT:=example_floats) (PS:=gset_pyset) cols index r' w
      = (World (graph w)
               (stdout w
                ++ [Msg_row_error index
                      (KeyError (if decide (r' !! "utc_timestamp" = None)
                                 then "utc_timestamp" else "interpolated"))])
               (written w),
         inr tt).
Proof.
  intros header r cols.
  apply (X10_missing_reserved_column (FT:=example_floats) (PS:=gset_pyset)
           (table_io header [r]) "in.csv" "graph.ttl" header [r]).
  - reflexivity.
  - reflexivity.
  - intros r' ->%list_elem_of_singleton. left. reflexivity.
Defined.

(** ** The interpolation marker *)

(** X11: a marker cell that is present and is not text, such as a number
    that pandas read in an all-numeric column, ends the row with an
    [AttributeError] before anything is added: the row is printed as failed
    and the run goes on. *)
Theorem X11_marker_not_text
    {FT : FloatText} {PS : PySet}
    (cols : list string) (index : nat) (r : row) (w : world) (ts cell : pyval) :
  r !! "utc_timestamp" = Some ts →
  r !! "interpolated" = Some cell →
  pd_notna cell = true →
  (∀ s, cell ≠ PyStr s) →
  process_row cols index r w
  = (World (graph w)
           (stdout w ++ [Msg_row_error index (AttributeError cell "lower")])
           (written w),
     inr tt).
Proof.
  intros Hts Hcell Hna Htext. unfold process_row, try_except. rewrite row_body_run.
  unfold interpolated_sensors, getitem. rewrite Hts, Hcell, Hna.
  destruct cell as [s| | |]; [by destruct (Htext s) | done..].
Qed.

Lemma X11_marker_not_text_witness :
  let header := ["utc_timestamp"; "interpolated"; "DE_KN_Building1_Grid_import"] in
  let r := make_row header
             [ PyStr "2015-01-01T00:00:00Z"; PyInt 0; PyFloat float_3_5 ] in
  process_row (FT:=example_floats) (PS:=gset_pyset)
    (measurement_columns header) 0 r start
  = (World [] [Msg_row_error 0 (AttributeError (PyInt 0) "lower")] [], inr tt).
Proof.
  intros header r.
  apply (X11_marker_not_text (FT:=example_floats) (PS:=gset_pyset)
           _ 0 r start (PyStr "2015-01-01T00:00:00Z") (PyInt 0)).
  - reflexivity.
  - reflexivity.
  - reflexivity.
  - intros s. discriminate.
Defined.

(** X12: the columns that a row leaves out are exactly those whose Sensor
    identity is derived by a trimmed token of a marker that is text and not
    the sentinel.  A missing marker and the sentinel leave out nothing, and
    a token that names no column leaves out nothing either. *)
Theorem X12_exclusion_exact
    {FT : FloatText} {PS : PySet}
    (r : row) (interp : pyset) (col : string) :
  interpolated_sensors r = inr interp →
  set_mem (get_sensor_uri col) interp = true
  ↔ ∃ s tok,
      r !! "interpolated" = Some (PyStr s)
      ∧ Py.lower s ≠ "nan"
      ∧ tok ∈ Py.strip <$> Py.split "|" s
      ∧ get_sensor_uri tok = get_sensor_uri col.
Proof.
  unfold interpolated_sensors, getitem.
  destruct (r !! "interpolated") as [cell|] eqn:Hcell; [|done].
  destruct (pd_notna cell) eqn:Hna.
  - destruct cell as [s| | |]; try done.
    destruct (String.eqb_spec (Py.lower s) "nan") as [Hs|Hs]; simpl.
    + intros [= <-]. rewrite set_mem_empty. split; [done|].
      intros (s' & tok & [= <-] & Hs' & _). done.
    + intros [= <-]. rewrite interpolated_mem, set_mem_empty, orb_false_r.
      rewrite bool_decide_eq_true, list_elem_of_fmap. split.
      * intros (tok & Heq & Htok). by exists s, tok.
      * intros (s' & tok & [= <-] & _ & Htok & Heq). by exists tok.
  - intros [= <-]. rewrite set_mem_empty. split; [done|].
    intros (s & tok & [= ->] & _). done.
Qed.

Lemma X12_exclusion_exact_witness :
  let header := ["utc_timestamp"; "interpolated"; "DE_KN_Building1_Grid_import"] in
  let r := make_row header
             [ PyStr "2015-01-01T00:00:00Z";
               PyStr "DE_KN_Building2_x | DE_KN_Building1_Grid_import";
               PyFloat float_3_5 ] in
  ∃ interp,
    interpolated_sensors (PS:=gset_pyset) r = inr interp
    ∧ (set_mem (get_sensor_uri "DE_KN_Building1_Grid_import") interp = true
       ↔ ∃ s tok,
           r !! "interpolated" = Some (PyStr s)
           ∧ Py.lower s ≠ "nan"
           ∧ tok ∈ Py.strip <$> Py.split "|" s
           ∧ get_sensor_uri tok = get_sensor_uri "DE_KN_Building1_Grid_import").
Proof.
  intros header r. eexists. split; [reflexivity|].
  apply (X12_exclusion_exact (FT:=example_floats) (PS:=gset_pyset) r).
  reflexivity.
Defined.

(** ** Identities of observations *)

(** X13: for one timestamp, two columns give the same Observation identity
    exactly when they give the same Sensor identity, that is when their
    sanitized names are the same. *)
Theorem X13_observation_identity
    {FT : FloatText} (col col' : string) (ts : pyval) :
  observation_uri col ts = observation_uri col' ts
  ↔ get_sensor_uri col = get_sensor_uri col'.
Proof.
  split; [apply observation_uri_sensor|].
  intros H%get_sensor_uri_inj_sanitize. unfold observation_uri. by rewrite H.
Qed.

(** ** A row, column by column *)

Section Columns.
Context {FT : FloatText} {PS : PySet}.

Lemma row_statements_columns
    (cols : list string) (r : row) (ts : pyval) (interp : pyset) :
  r !! "utc_timestamp" = Some ts →
  interpolated_sensors r = inr interp →
  row_statements cols r
  = (columns_done r interp cols).1 ≫= column_statements r ts interp.
Proof.
  intros Hts Hint. unfold row_statements.
  by rewrite (row_body_columns cols r ts interp start Hts Hint).
Qed.

Lemma row_messages_columns
    (cols : list string) (index : nat) (r : row) (ts : pyval) (interp : pyset) :
  r !! "utc_timestamp" = Some ts →
  interpolated_sensors r = inr interp →
  row_messages cols index r
  = match (columns_done r interp cols).2 with
    | Some e => [Msg_row_error index e]
    | None => []
    end.
Proof.
  intros Hts Hint. unfold row_messages, process_row, try_except.
  rewrite (row_body_columns cols r ts interp start Hts Hint).
  destruct (columns_done_spec r interp cols) as [Hspec _].
  destruct (columns_done r interp cols) as [before [e|]]; simpl in *; [|done].
  destruct Hspec as (col & later & _ & Hcol).
  by rewrite (column_outcome_exception r interp col e Hcol).
Qed.

Lemma row_statements_failed (cols : list string) (r : row) :
  r !! "utc_timestamp" = None ∨ (∃ e, interpolated_sensors r = inl e) →
  row_statements cols r = [].
Proof.
  intros Hfail. unfold row_statements. rewrite row_body_run. unfold getitem at 1.
  destruct (r !! "utc_timestamp") as [ts|]; [|done].
  destruct Hfail as [?|[e ->]]; done.
Qed.

End Columns.

(** X14: a row whose timestamp and marker are read without failure treats
    its columns in the order of the header, up to the first column whose
    round raises: that is a column that the marker does not leave out and
    whose cell is missing from the row or is one on which [float] raises
    another exception than [ValueError].  For each column before it the row
    adds the statements of the observation when the marker does not leave
    the column out and [float] accepts the cell, and nothing otherwise; it
    adds nothing for the column that raises and for the columns after it,
    and prints the exception.  When no round raises, all the columns are
    treated and nothing is printed. *)
Theorem X14_row_in_column_order
    {FT : FloatText} {PS : PySet}
    (cols : list string) (index : nat) (r : row) (ts : pyval) (interp : pyset) :
  r !! "utc_timestamp" = Some ts →
  interpolated_sensors r = inr interp →
  row_statements cols r
  = (columns_done r interp cols).1 ≫= (λ col,
      if set_mem (get_sensor_uri col) interp then []
      else match r !! col with
           | Some v =>
               if pd_notna v then
                 match py_float v with
                 | inr f => observation_statements col ts f
                 | inl _ => []
                 end
               else []
           | None => []
           end)
  ∧ row_messages cols index r
    = match (columns_done r interp cols).2 with
      | Some e => [Msg_row_error index e]
      | None => []
      end
  ∧ match (columns_done r interp cols).2 with
    | Some e =>
        ∃ col later,
          cols = (columns_done r interp cols).1 ++ col :: later
          ∧ column_outcome r interp col = Some e
    | None => (columns_done r interp cols).1 = cols
    end
  ∧ Forall (λ col, column_outcome r interp col = None) (columns_done r interp cols).1.
Proof.
  intros Hts Hint. split_and!.
  - rewrite (row_statements_columns cols r ts interp Hts Hint).
    apply list_bind_ext; [|done]. intros col. apply column_statements_eq.
  - by apply (row_messages_columns cols index r ts interp).
  - apply columns_done_spec.
  - apply columns_done_spec.
Qed.

Lemma X14_row_in_column_order_witness :
  let header := ["utc_timestamp"; "interpolated"; "DE_KN_Building1_Grid_import";
                 "DE_KN_Building2_Grid_import"; "DE_KN_Building3_Grid_import";
                 "DE_KN_Building4_Grid_import"] in
  let cols := measurement_columns header in
  let ts := PyStr "2015-01-01T00:15:00Z" in
  let r := make_row header
             [ ts; PyFloat S754_nan; PyFloat float_3_5; PyStr "error";
               PyInt (10 ^ 400); PyFloat float_3_5 ] in
  row_statements (FT:=example_floats) (PS:=gset_pyset) cols r
  = observation_statements (FT:=example_floats)
      "DE_KN_Building1_Grid_import" ts float_3_5
  ∧ row_messages (FT:=example_floats) (PS:=gset_pyset) cols 7 r
    = [Msg_row_error 7 OverflowError].
Proof.
  intros header cols ts r.
  destruct (X14_row_in_column_order (FT:=example_floats) (PS:=gset_pyset)
              cols 7 r ts set_empty eq_refl eq_refl) as (Hst & Hmsg & _).
  split.
  - rewrite Hst. vm_compute. reflexivity.
  - rewrite Hmsg. vm_compute. reflexivity.
Defined.

(** ** Where the statements of a graph come from *)

(** Splits the membership of a statement in a list that is written out. *)
Ltac each_statement H :=
  repeat (apply elem_of_cons in H as [H|H]; [subst|]);
  try (by apply elem_of_nil in H).

Section Origins.
Context {FT : FloatText} {PS : PySet}.

Lemma record_value_adds_from (cols : list string) (r : row) (ts : pyval) (col : string) :
  col ∈ cols → adds_only (observed_in cols) (record_value r ts col).
Proof.
  intros Hcol w. destruct (r !! col) as [v|] eqn:Hv.
  - rewrite (record_value_run _ _ _ v) by done.
    destruct (pd_notna v); [destruct (py_float v) as [e|f]|]; simpl.
    + exists [], []. split; [|done]. destruct e; apply adds_nothing.
    + exists (observation_statements col ts f), [].
      split; [by rewrite app_nil_r|]. apply Forall_forall.
      intros t Ht. by exists col, ts, f.
    + exists [], []. split; [apply adds_nothing | done].
  - rewrite record_value_missing by done.
    exists [], []. split; [apply adds_nothing | done].
Qed.

Lemma row_statements_from (cols : list string) (r : row) :
  Forall (observed_in cols) (row_statements cols r).
Proof.
  assert (adds_only (observed_in cols) (row_body cols r)) as Hadds.
  { unfold row_body.
    apply adds_only_bind; [apply adds_only_lift|]. intros ts _ _.
    apply adds_only_bind; [apply adds_only_lift|]. intros interp _ _.
    apply adds_only_for_each. intros col Hcol. unfold observe.
    destruct (set_mem _ _); [apply adds_only_ret|].
    by apply record_value_adds_from. }
  destruct (Hadds start) as (l & out & Hw & Hl).
  unfold row_statements. by rewrite Hw.
Qed.

Lemma rows_statements_from (cols : list string) (df : list row) :
  Forall (observed_in cols) (df ≫= row_statements cols).
Proof.
  induction df as [|r df IH]; [done|].
  rewrite bind_cons. apply Forall_app. split; [apply row_statements_from | done].
Qed.

Lemma declarations_from (cols : list string) (sn : seen) :
  Forall (declared_for cols) (declarations sn cols).
Proof.
  revert sn. induction cols as [|col cols IH]; intros sn; [done|].
  simpl. apply Forall_app. split.
  - unfold declared. apply Forall_forall. intros t Ht.
    exists col. split; [by left|].
    apply elem_of_app in Ht as [Ht|Ht]; [|apply elem_of_app in Ht as [Ht|Ht]].
    + destruct (set_mem _ _); [by apply elem_of_nil in Ht | by left].
    + destruct (set_mem _ _); [by apply elem_of_nil in Ht | right; by left].
    + destruct (get_feature_of_interest_uri col) as [f|];
        [|by apply elem_of_nil in Ht].
      destruct (set_mem _ _); [by apply elem_of_nil in Ht|].
      right; right. by exists f.
  - eapply Forall_impl; [apply IH|].
    intros t (c & Hc & Ht). exists c. split; [by right | done].
Qed.

(** The type statement of the Sensor, Property and FeatureOfInterest of every
    measurement column is among the declarations. *)
Lemma declarations_sensor_type (cols : list string) (col : string) :
  col ∈ cols →
  (URIRef (get_sensor_uri col), term RDF "type", term SAREF "Sensor")
  ∈ declarations (Seen set_empty set_empty set_empty) cols.
Proof.
  intros Hcol.
  destruct (first_with get_sensor_uri cols col Hcol) as (i & c0 & Hi & Hc0 & Hfirst).
  rewrite <- Hc0 in *.
  pose proof (declarations_sensor_first cols (Seen set_empty set_empty set_empty)
                i c0 Hi Hfirst (set_mem_empty _)) as Habout.
  assert ((URIRef (get_sensor_uri c0), term RDF "type", term SAREF "Sensor")
          ∈ about (get_sensor_uri c0)
              (declarations (Seen set_empty set_empty set_empty) cols)) as Hin.
  { rewrite Habout. by left. }
  unfold about in Hin. by apply list_elem_of_filter in Hin as [_ Hin].
Qed.

Lemma declarations_property_type (cols : list string) (col : string) :
  col ∈ cols →
  (URIRef (get_property_uri col), term RDF "type", term SAREF "Property")
  ∈ declarations (Seen set_empty set_empty set_empty) cols.
Proof.
  intros Hcol.
  destruct (first_with get_property_uri cols col Hcol) as (i & c0 & Hi & Hc0 & Hfirst).
  rewrite <- Hc0 in *.
  pose proof (declarations_property_first cols (Seen set_empty set_empty set_empty)
                i c0 Hi Hfirst (set_mem_empty _)) as Habout.
  assert ((URIRef (get_property_uri c0), term RDF "type", term SAREF "Property")
          ∈ about (get_property_uri c0)
              (declarations (Seen set_empty set_empty set_empty) cols)) as Hin.
  { rewrite Habout. by left. }
  unfold about in Hin. by apply list_elem_of_filter in Hin as [_ Hin].
Qed.

Lemma declarations_foi_type (cols : list string) (col f : string) :
  col ∈ cols →
  get_feature_of_interest_uri col = Some f →
  (URIRef f, term RDF "type", term SAREF "FeatureOfInterest")
  ∈ declarations (Seen set_empty set_empty set_empty) cols.
Proof.
  intros Hcol Hf.
  destruct (first_with get_feature_of_interest_uri cols col Hcol)
    as (i & c0 & Hi & Hc0 & Hfirst).
  rewrite Hf in Hc0, Hfirst.
  pose proof (declarations_foi_first cols (Seen set_empty set_empty set_empty)
                i c0 f Hi Hc0 Hfirst (set_mem_empty _)) as Habout.
  assert ((URIRef f, term RDF "type", term SAREF "FeatureOfInterest")
          ∈ about f (declarations (Seen set_empty set_empty set_empty) cols)) as Hin.
  { rewrite Habout. by left. }
  unfold about in Hin. by apply list_elem_of_filter in Hin as [_ Hin].
Qed.

End Origins.

(** X15: every link of the graph points at a declared entity: the object of
    a madeBySensor statement is typed as a Sensor in the same graph, the
    object of a relatesToProperty or measuresProperty statement as a
    Property, and the object of an isAbout statement as a
    FeatureOfInterest. *)
Theorem X15_links_are_declared
    {FT : FloatText} {PS : PySet}
    (env : io) (csv_filepath output_filepath : string)
    (all_columns : list string) (df : list row) (t : triple) :
  read_header env csv_filepath = inr all_columns →
  read_rows env csv_filepath = inr df →
  let g := final_graph env csv_filepath output_filepath in
  t ∈ g →
  (predicate t = term SAREF "madeBySensor" →
   ∃ s, object t = URIRef s ∧ (URIRef s, term RDF "type", term SAREF "Sensor") ∈ g)
  ∧ (predicate t = term SAREF "relatesToProperty"
     ∨ predicate t = term SAREF "measuresProperty" →
     ∃ p, object t = URIRef p
          ∧ (URIRef p, term RDF "type", term SAREF "Property") ∈ g)
  ∧ (predicate t = term SAREF "isAbout" →
     ∃ f, object t = URIRef f
          ∧ (URIRef f, term RDF "type", term SAREF "FeatureOfInterest") ∈ g).
Proof.
  intros Hh Hr g Ht. unfold g in *.
  rewrite (final_graph_exact env _ _ all_columns df Hh Hr) in *.
  set (cols := measurement_columns all_columns) in *.
  assert (∀ col, col ∈ cols →
            (URIRef (get_sensor_uri col), term RDF "type", term SAREF "Sensor")
            ∈ declarations (Seen set_empty set_empty set_empty) cols
              ++ (df ≫= row_statements cols)) as Hsensor.
  { intros col Hcol. apply elem_of_app. left. by apply declarations_sensor_type. }
  assert (∀ col, col ∈ cols →
            (URIRef (get_property_uri col), term RDF "type", term SAREF "Property")
            ∈ declarations (Seen set_empty set_empty set_empty) cols
              ++ (df ≫= row_statements cols)) as Hproperty.
  { intros col Hcol. apply elem_of_app. left. by apply declarations_property_type. }
  assert (∀ col f, col ∈ cols → get_feature_of_interest_uri col = Some f →
            (URIRef f, term RDF "type", term SAREF "FeatureOfInterest")
            ∈ declarations (Seen set_empty set_empty set_empty) cols
              ++ (df ≫= row_statements cols)) as Hfoi.
  { intros col f Hcol Hf. apply elem_of_app. left.
    by apply (declarations_foi_type cols col). }
  apply elem_of_app in Ht as [Ht|Ht].
  - pose proof (declarations_from cols (Seen set_empty set_empty set_empty)) as Hfrom.
    rewrite Forall_forall in Hfrom.
    destruct (Hfrom t Ht) as (col & Hcol & [Hs|[Hp|(f & Hf & Hl)]]).
    + unfold sensor_statements in Hs. each_statement Hs.
      * split_and!; intros Hpred; [done | by destruct Hpred | done].
      * split_and!; intros Hpred; [done | by destruct Hpred | done].
      * split_and!; intros Hpred; [done | | done]. eexists. split; [done|]. eauto.
    + unfold property_statements in Hp. each_statement Hp.
      * split_and!; intros Hpred; [done | by destruct Hpred | done].
      * split_and!; intros Hpred; [done | by destruct Hpred | done].
    + unfold foi_statements in Hl. each_statement Hl.
      * split_and!; intros Hpred; [done | by destruct Hpred | done].
      * split_and!; intros Hpred; [done | by destruct Hpred | done].
  - pose proof (rows_statements_from cols df) as Hfrom.
    rewrite Forall_forall in Hfrom.
    destruct (Hfrom t Ht) as (col & ts & f & Hcol & Hobs).
    unfold observation_statements in Hobs.
    apply elem_of_app in Hobs as [Hobs|Hobs].
    + each_statement Hobs.
      * split_and!; intros Hpred; [done | by destruct Hpred | done].
      * split_and!; intros Hpred; [done | by destruct Hpred | done].
      * split_and!; intros Hpred; [done | by destruct Hpred | done].
      * split_and!; intros Hpred; [| by destruct Hpred | done].
        eexists. split; [done|]. eauto.
      * split_and!; intros Hpred; [done | | done].
        eexists. split; [done|]. eauto.
    + destruct (get_feature_of_interest_uri col) as [foi|] eqn:Hf;
        [|by apply elem_of_nil in Hobs].
      each_statement Hobs.
      split_and!; intros Hpred; [done | by destruct Hpred |].
      eexists. split; [done|]. eauto.
Qed.

Lemma X15_links_are_declared_witness :
  let g := final_graph (FT:=example_floats) (PS:=gset_pyset)
             (table_io twin_header twin_rows) "in.csv" "graph.ttl" in
  let col := "DE_KN_Building1_Grid-import" in
  let t : triple := (URIRef (observation_uri (FT:=example_floats) col (PyStr "2015-01-01T00:00:00Z")),
            term SAREF "madeBySensor", URIRef (get_sensor_uri col)) in
  (predicate t = term SAREF "madeBySensor" →
   ∃ s, object t = URIRef s ∧ (URIRef s, term RDF "type", term SAREF "Sensor") ∈ g)
  ∧ (predicate t = term SAREF "relatesToProperty"
     ∨ predicate t = term SAREF "measuresProperty" →
     ∃ p, object t = URIRef p
          ∧ (URIRef p, term RDF "type", term SAREF "Property") ∈ g)
  ∧ (predicate t = term SAREF "isAbout" →
     ∃ f, object t = URIRef f
          ∧ (URIRef f, term RDF "type", term SAREF "FeatureOfInterest") ∈ g).
Proof.
  intros g col t.
  apply (X15_links_are_declared (FT:=example_floats) (PS:=gset_pyset)
           (table_io twin_header twin_rows) "in.csv" "graph.ttl"
           twin_header twin_rows t).
  - reflexivity.
  - reflexivity.
  - apply (bool_decide_unpack _). vm_compute. exact I.
Defined.

(** ** How a run ends *)

Section Outcome.
Context {FT : FloatText} {PS : PySet}.

Lemma exit_code_Exception (e : exn) :
  is_Exception e = true → exit_code (inl e) = 1%Z.
Proof. by destruct e. Qed.

Lemma observe_silent (r : row) (ts : pyval) (interp : pyset) (col : string) (w : world) :
  stdout (observe r ts interp col w).1 = stdout w.
Proof. by rewrite observe_run. Qed.

Lemma row_body_silent (cols : list string) (r : row) (w : world) :
  stdout (row_body cols r w).1 = stdout w.
Proof.
  rewrite row_body_run.
  destruct (getitem r "utc_timestamp") as [e|ts]; [done|].
  destruct (interpolated_sensors r) as [e|interp]; [done|].
  revert w. induction cols as [|col cols IH]; intros w; [done|].
  simpl for_each. unfold mbind at 1, run_bind at 1.
  pose proof (observe_silent r ts interp col w) as Hcol.
  destruct (observe r ts interp col w) as [w' [e|[]]]; [done|].
  by rewrite IH.
Qed.

(** A row prints nothing, or the one line of its exception. *)
Lemma row_messages_cases (cols : list string) (index : nat) (r : row) :
  row_messages cols index r = []
  ∨ ∃ e, row_messages cols index r = [Msg_row_error index e].
Proof.
  unfold row_messages, process_row, try_except.
  pose proof (row_body_silent cols r start) as Hs.
  destruct (row_body cols r start) as [w' [e|[]]] eqn:E.
  - right. exists e. rewrite (row_body_exception _ _ _ _ _ E).
    simpl in *. by rewrite Hs.
  - by left.
Qed.

(** A run from the empty world either writes the document of the whole
    graph, once, to the destination, says so and returns, or ends in an
    exception without a complete document: nothing is touched, or the
    serialiser raised after it had opened the destination and left it
    truncated. *)
Lemma transform_outcome (env : io) (csv_filepath output_filepath : string) :
  let run := transform_csv_to_rdf env csv_filepath output_filepath start in
  (run.2 = inr tt
   ∧ written run.1 = [(output_filepath, Turtle (graph run.1))]
   ∧ last (stdout run.1) = Some Msg_finish)
  ∨ (∃ e, run.2 = inl e ∧ exit_code (inl e) = 1%Z
          ∧ (Msg_finish ∉ stdout run.1)
          ∧ (written run.1 = []
             ∨ (written run.1 = [(output_filepath, Truncated)]
                ∧ ∃ e', serialize env (graph run.1) output_filepath = Some (e', true)
                        ∧ last (stdout run.1) = Some (Msg_serialize_error e')))).
Proof.
  intros run. unfold run.
  destruct (read_header env csv_filepath) as [e|all_columns] eqn:Hh.
  { right. exists e. rewrite transform_steps, Hh. split_and!; try done.
    - apply exit_code_Exception. by eapply read_header_raises.
    - apply not_elem_of_nil.
    - by left. }
  destruct (read_rows env csv_filepath) as [e|df] eqn:Hr.
  { right. exists e. rewrite transform_steps, Hh, Hr. cbv zeta.
    rewrite declare_entities_run. split_and!; try done.
    - apply exit_code_Exception. by eapply read_rows_raises.
    - simpl. intros Hin.
      apply elem_of_cons in Hin as [|Hin]; [done|].
      by apply list_elem_of_singleton in Hin.
    - by left. }
  rewrite (transform_exact env _ _ all_columns df Hh Hr).
  set (w := World _ _ _).
  assert (Msg_finish ∉ stdout w) as Hout.
  { unfold w. simpl. intros Hin.
    apply elem_of_cons in Hin as [|Hin]; [done|].
    apply elem_of_cons in Hin as [|Hin]; [done|].
    apply list_elem_of_bind in Hin as ([i r] & Hin & _).
    simpl in Hin.
    destruct (row_messages_cases (measurement_columns all_columns) i r)
      as [Hm|[e Hm]]; rewrite Hm in Hin.
    - by apply elem_of_nil in Hin.
    - by apply list_elem_of_singleton in Hin. }
  unfold finished.
  destruct (serialize env (graph w) output_filepath) as [[e opened]|] eqn:Hs.
  - right. exists (SystemExit 1). split_and!; try done.
    + cbn [fst stdout]. intros Hin. apply elem_of_app in Hin as [Hin|Hin]; [done|].
      by apply list_elem_of_singleton in Hin.
    + cbn [fst written graph stdout]. destruct opened; [right | by left].
      split; [done|]. exists e. split; [done | apply last_snoc].
  - left. split_and!; try done. cbn [fst stdout]. apply last_snoc.
Qed.

End Outcome.

(** X16: under every reader, serialiser and argument list the command ends
    with status 0 or 1.  It ends with 0 exactly when the serialiser has
    returned: [graph.ttl] then holds the document of the whole graph, no
    other destination was opened, and the last line of output is the
    confirmation.  With status 1 the confirmation is not printed and there
    is no complete document: either no destination was opened, or the
    serialiser raised after it had opened [graph.ttl], which is left
    truncated, and the last line of output is the error of the
    serialiser. *)
Theorem X16_exit_status
    {FT : FloatText} {PS : PySet} (env : io) (argv : list string) :
  let run := main env argv start in
  (exit_code run.2 = 0%Z
   ∧ written run.1 = [("graph.ttl", Turtle (graph run.1))]
   ∧ last (stdout run.1) = Some Msg_finish)
  ∨ (exit_code run.2 = 1%Z
     ∧ (Msg_finish ∉ stdout run.1)
     ∧ (written run.1 = []
        ∨ (written run.1 = [("graph.ttl", Truncated)]
           ∧ ∃ e, serialize env (graph run.1) "graph.ttl" = Some (e, true)
                  ∧ last (stdout run.1) = Some (Msg_serialize_error e)))).
Proof.
  intros run. unfold run, main, mbind, run_bind, lift.
  destruct (argv !! 1%nat) as [csv_file|].
  - destruct (transform_outcome env csv_file "graph.ttl")
      as [(Hr & Hw & Hl)|(e & Hr & Hc & Hl & Hw)].
    + left. by rewrite Hr.
    + right. by rewrite Hr.
  - right. split_and!; [done | apply not_elem_of_nil | by left].
Qed.

(** X17: when the header of the table is read and its body is not, the
    exception of the reader ends the run: the entities of the header have
    been declared and counted by then, and nothing is written.  When the
    header is not read either, the run ends before it does anything. *)
Theorem X17_reader_failure
    {FT : FloatText} {PS : PySet}
    (env : io) (csv_filepath output_filepath : string) (e : exn) :
  read_rows env csv_filepath = inl e →
  let run := transform_csv_to_rdf env csv_filepath output_filepath start in
  written run.1 = []
  ∧ match read_header env csv_filepath with
    | inl e0 => run = (start, inl e0)
    | inr all_columns =>
        let cols := measurement_columns all_columns in
        let sn := marked_all (Seen set_empty set_empty set_empty) cols in
        run.2 = inl e
        ∧ graph run.1 = declarations (Seen set_empty set_empty set_empty) cols
        ∧ stdout run.1 = [Msg_sensors_etc;
                          Msg_defined (set_len (defined_sensors sn))
                                      (set_len (defined_properties sn))
                                      (set_len (defined_fois sn))]
    end.
Proof.
  intros Hr run. unfold run. rewrite transform_steps, Hr.
  destruct (read_header env csv_filepath) as [e0|all_columns]; [done|].
  cbv zeta. by rewrite declare_entities_run.
Qed.

Lemma X17_reader_failure_witness :
  let header := ["utc_timestamp"; "interpolated"; "DE_KN_Building1_Grid_import"] in
  let run := transform_csv_to_rdf (FT:=example_floats) (PS:=gset_pyset)
               (broken_body_io header "ParserError") "in.csv" "graph.ttl" start in
  written run.1 = []
  ∧ run.2 = inl (OtherError "ParserError")
  ∧ graph run.1
    = declarations (PS:=gset_pyset) (Seen set_empty set_empty set_empty)
        ["DE_KN_Building1_Grid_import"]
  ∧ stdout run.1 = [Msg_sensors_etc; Msg_defined 1 1 1].
Proof.
  intros header run.
  apply (X17_reader_failure (FT:=example_floats) (PS:=gset_pyset)
           (broken_body_io header "ParserError") "in.csv" "graph.ttl"
           (OtherError "ParserError")).
  reflexivity.
Defined.

(** ** The counts that are printed *)

Section Counts.
Context {FT : FloatText} {PS : PySet}.

Lemma tracks_empty : tracks set_empty ∅.
Proof.
  split.
  - intros x. by rewrite set_mem_empty.
  - by rewrite set_len_empty.
Qed.

(** The guarded insertion of the declaration loop. *)
Lemma tracks_guard (s : pyset) (X : gset string) (y : string) :
  tracks s X →
  tracks (if set_mem y s then s else set_add y s) ({[y]} ∪ X).
Proof.
  intros [Hm Hl]. destruct (set_mem y s) eqn:E.
  - rewrite Hm in E. apply bool_decide_eq_true in E.
    assert ({[y]} ∪ X = X) as ->.
    { apply subseteq_union_1_L. by apply singleton_subseteq_l. }
    by split.
  - rewrite Hm in E. apply bool_decide_eq_false in E. split.
    + intros x. rewrite set_mem_add, Hm.
      destruct (decide (x = y)) as [->|Hxy].
      * rewrite bool_decide_eq_true_2 by done. simpl.
        symmetry. apply bool_decide_eq_true.
        apply elem_of_union. left. by apply elem_of_singleton.
      * rewrite (bool_decide_eq_false_2 (x = y)) by done. simpl.
        apply bool_decide_ext. rewrite elem_of_union, elem_of_singleton.
        split; [by right|]. by intros [?|?].
    + rewrite set_len_add.
      assert (set_mem y s = false) as ->.
      { rewrite Hm. by apply bool_decide_eq_false. }
      rewrite size_union by (by apply disjoint_singleton_l).
      by rewrite size_singleton, Hl.
Qed.

Lemma union_swap (a L X : gset string) : a ∪ L ∪ X = L ∪ (a ∪ X).
Proof. by rewrite (comm_L (∪) a L), (assoc_L (∪)). Qed.

Lemma marked_all_tracks (cols : list string) (sn : seen) (Xs Xp Xf : gset string) :
  tracks (defined_sensors sn) Xs →
  tracks (defined_properties sn) Xp →
  tracks (defined_fois sn) Xf →
  tracks (defined_sensors (marked_all sn cols))
         (list_to_set (get_sensor_uri <$> cols) ∪ Xs)
  ∧ tracks (defined_properties (marked_all sn cols))
           (list_to_set (get_property_uri <$> cols) ∪ Xp)
  ∧ tracks (defined_fois (marked_all sn cols))
           (list_to_set (omap get_feature_of_interest_uri cols) ∪ Xf).
Proof.
  revert sn Xs Xp Xf. induction cols as [|col cols IH]; intros sn Xs Xp Xf Hs Hp Hf.
  - simpl. by rewrite !(left_id_L ∅ (∪)).
  - unfold marked_all. simpl foldl. fold (marked_all (marked sn col) cols).
    destruct (IH (marked sn col)
                ({[get_sensor_uri col]} ∪ Xs) ({[get_property_uri col]} ∪ Xp)
                (match get_feature_of_interest_uri col with
                 | Some f => {[f]} ∪ Xf
                 | None => Xf
                 end)) as (Is & Ip & If).
    + by apply tracks_guard.
    + by apply tracks_guard.
    + unfold marked. cbn [defined_fois].
      destruct (get_feature_of_interest_uri col) as [f|]; [|done].
      by apply tracks_guard.
    + rewrite !fmap_cons, !list_to_set_cons, !union_swap. split_and!; [done..|].
      cbn [omap list_omap].
      destruct (get_feature_of_interest_uri col) as [f|]; [|done].
      by rewrite list_to_set_cons, union_swap.
Qed.

(** The three sets, when the declaration loop is over, count the distinct
    identities of the measurement columns. *)
Lemma marked_all_counts (cols : list string) :
  let sn := marked_all (Seen set_empty set_empty set_empty) cols in
  set_len (defined_sensors sn) = distinct (get_sensor_uri <$> cols)
  ∧ set_len (defined_properties sn) = distinct (get_property_uri <$> cols)
  ∧ set_len (defined_fois sn) = distinct (omap get_feature_of_interest_uri cols).
Proof.
  intros sn.
  destruct (marked_all_tracks cols (Seen set_empty set_empty set_empty) ∅ ∅ ∅)
    as ([_ Hs] & [_ Hp] & [_ Hf]); try apply tracks_empty.
  rewrite !(right_id_L ∅ (∪)) in Hs, Hp, Hf. by unfold distinct.
Qed.

Lemma with_object_app (p o : node) (g1 g2 : list triple) :
  with_object p o (g1 ++ g2) = with_object p o g1 ++ with_object p o g2.
Proof. apply filter_app. Qed.

Lemma with_object_none (p o : node) (g : list triple) :
  Forall (λ t, ¬ (predicate t = p ∧ object t = o)) g → with_object p o g = [].
Proof.
  induction 1 as [|t g Ht _ IH]; [done|].
  unfold with_object in *. by rewrite filter_cons_False.
Qed.

(** The statements that type a Sensor, a Property or a FeatureOfInterest
    among the declarations of one column. *)
Lemma declared_sensor_types (sn : seen) (col : string) :
  length (with_object (term RDF "type") (term SAREF "Sensor") (declared sn col))
  = if set_mem (get_sensor_uri col) (defined_sensors sn) then 0 else 1.
Proof.
  unfold declared. rewrite !with_object_app, !length_app.
  assert (length (with_object (term RDF "type") (term SAREF "Sensor")
                    (if set_mem (get_property_uri col) (defined_properties sn)
                     then [] else property_statements col)) = 0) as ->.
  { by destruct (set_mem _ _). }
  assert (length (with_object (term RDF "type") (term SAREF "Sensor")
                    match get_feature_of_interest_uri col with
                    | Some foi_uri =>
                        if set_mem foi_uri (defined_fois sn) then []
                        else foi_statements foi_uri
                    | None => []
                    end) = 0) as ->.
  { destruct (get_feature_of_interest_uri col) as [f|]; [|done].
    by destruct (set_mem _ _). }
  by destruct (set_mem _ _).
Qed.

Lemma declared_property_types (sn : seen) (col : string) :
  length (with_object (term RDF "type") (term SAREF "Property") (declared sn col))
  = if set_mem (get_property_uri col) (defined_properties sn) then 0 else 1.
Proof.
  unfold declared. rewrite !with_object_app, !length_app.
  assert (length (with_object (term RDF "type") (term SAREF "Property")
                    (if set_mem (get_sensor_uri col) (defined_sensors sn)
                     then [] else sensor_statements col)) = 0) as ->.
  { by destruct (set_mem _ _). }
  assert (length (with_object (term RDF "type") (term SAREF "Property")
                    match get_feature_of_interest_uri col with
                    | Some foi_uri =>
                        if set_mem foi_uri (defined_fois sn) then []
                        else foi_statements foi_uri
                    | None => []
                    end) = 0) as ->.
  { destruct (get_feature_of_interest_uri col) as [f|]; [|done].
    by destruct (set_mem _ _). }
  by destruct (set_mem _ _).
Qed.

Lemma declared_foi_types (sn : seen) (col : string) :
  length (with_object (term RDF "type") (term SAREF "FeatureOfInterest")
            (declared sn col))
  = match get_feature_of_interest_uri col with
    | Some f => if set_mem f (defined_fois sn) then 0 else 1
    | None => 0
    end.
Proof.
  unfold declared. rewrite !with_object_app, !length_app.
  assert (length (with_object (term RDF "type") (term SAREF "FeatureOfInterest")
                    (if set_mem (get_sensor_uri col) (defined_sensors sn)
                     then [] else sensor_statements col)) = 0) as ->.
  { by destruct (set_mem _ _). }
  assert (length (with_object (term RDF "type") (term SAREF "FeatureOfInterest")
                    (if set_mem (get_property_uri col) (defined_properties sn)
                     then [] else property_statements col)) = 0) as ->.
  { by destruct (set_mem _ _). }
  destruct (get_feature_of_interest_uri col) as [f|]; [|done].
  by destruct (set_mem _ _).
Qed.

Lemma marked_lens (sn : seen) (col : string) :
  set_len (defined_sensors (marked sn col))
  = (if set_mem (get_sensor_uri col) (defined_sensors sn) then 0 else 1)
    + set_len (defined_sensors sn)
  ∧ set_len (defined_properties (marked sn col))
    = (if set_mem (get_property_uri col) (defined_properties sn) then 0 else 1)
      + set_len (defined_properties sn)
  ∧ set_len (defined_fois (marked sn col))
    = match get_feature_of_interest_uri col with
      | Some f => if set_mem f (defined_fois sn) then 0 else 1
      | None => 0
      end + set_len (defined_fois sn).
Proof.
  unfold marked. cbn [defined_sensors defined_properties defined_fois]. split_and!.
  - destruct (set_mem _ _) eqn:E; [done|]. by rewrite set_len_add, E.
  - destruct (set_mem _ _) eqn:E; [done|]. by rewrite set_len_add, E.
  - destruct (get_feature_of_interest_uri col) as [f|]; [|done].
    destruct (set_mem f (defined_fois sn)) eqn:E; [done|]. by rewrite set_len_add, E.
Qed.

(** Each identity that enters one of the sets gets one type statement. *)
Lemma declarations_types (cols : list string) (sn : seen) :
  length (with_object (term RDF "type") (term SAREF "Sensor") (declarations sn cols))
    + set_len (defined_sensors sn)
  = set_len (defined_sensors (marked_all sn cols))
  ∧ length (with_object (term RDF "type") (term SAREF "Property")
              (declarations sn cols))
    + set_len (defined_properties sn)
  = set_len (defined_properties (marked_all sn cols))
  ∧ length (with_object (term RDF "type") (term SAREF "FeatureOfInterest")
              (declarations sn cols))
    + set_len (defined_fois sn)
  = set_len (defined_fois (marked_all sn cols)).
Proof.
  revert sn. induction cols as [|col cols IH]; intros sn; [done|].
  unfold marked_all. simpl foldl. fold (marked_all (marked sn col) cols).
  simpl declarations. rewrite !with_object_app, !length_app.
  destruct (IH (marked sn col)) as (Is & Ip & If).
  destruct (marked_lens sn col) as (Ms & Mp & Mf).
  rewrite declared_sensor_types, declared_property_types, declared_foi_types.
  lia.
Qed.

(** The rows type nothing but observations. *)
Lemma rows_type_observations (cols : list string) (df : list row) (o : node) :
  o ≠ term SAREF "Observation" →
  with_object (term RDF "type") o (df ≫= row_statements cols) = [].
Proof.
  intros Ho. apply with_object_none.
  eapply Forall_impl; [apply rows_statements_from|].
  intros t (col & ts & f & _ & Ht) [Hp Hobj].
  unfold observation_statements in Ht.
  apply elem_of_app in Ht as [Ht|Ht].
  - each_statement Ht; done.
  - destruct (get_feature_of_interest_uri col); each_statement Ht. done.
Qed.

End Counts.

(** X18: the three numbers of the line printed after the declarations are
    the numbers of distinct Sensor, Property and FeatureOfInterest
    identities that the measurement columns derive, and the graph holds as
    many statements that type a Sensor, a Property and a FeatureOfInterest:
    the rows add none. *)
Theorem X18_counts_printed
    {FT : FloatText} {PS : PySet}
    (env : io) (csv_filepath output_filepath : string)
    (all_columns : list string) (df : list row) :
  read_header env csv_filepath = inr all_columns →
  read_rows env csv_filepath = inr df →
  let cols := measurement_columns all_columns in
  let run := transform_csv_to_rdf env csv_filepath output_filepath start in
  let g := final_graph env csv_filepath output_filepath in
  let ns := distinct (get_sensor_uri <$> cols) in
  let np := distinct (get_property_uri <$> cols) in
  let nf := distinct (omap get_feature_of_interest_uri cols) in
  stdout run.1 !! 1%nat = Some (Msg_defined ns np nf)
  ∧ length (with_object (term RDF "type") (term SAREF "Sensor") g) = ns
  ∧ length (with_object (term RDF "type") (term SAREF "Property") g) = np
  ∧ length (with_object (term RDF "type") (term SAREF "FeatureOfInterest") g) = nf.
Proof.
  intros Hh Hr cols run g ns np nf. unfold run, g.
  rewrite (final_graph_exact env _ _ all_columns df Hh Hr).
  rewrite (transform_exact env _ _ all_columns df Hh Hr).
  fold cols.
  destruct (marked_all_counts cols) as (Hs & Hp & Hf). cbv zeta in Hs, Hp, Hf.
  destruct (declarations_types cols (Seen set_empty set_empty set_empty))
    as (Ts & Tp & Tf).
  cbn [defined_sensors defined_properties defined_fois] in Ts, Tp, Tf.
  rewrite set_len_empty in Ts, Tp, Tf.
  rewrite !with_object_app, !length_app, !rows_type_observations by done.
  split_and!.
  - rewrite Hs, Hp, Hf. unfold finished.
    by destruct (serialize env _ output_filepath) as [[e opened]|].
  - simpl length. unfold ns. lia.
  - simpl length. unfold np. lia.
  - simpl length. unfold nf. lia.
Qed.

Lemma X18_counts_printed_witness :
  let run := transform_csv_to_rdf (FT:=example_floats) (PS:=gset_pyset)
               (table_io twin_header twin_rows) "in.csv" "graph.ttl" start in
  let g := final_graph (FT:=example_floats) (PS:=gset_pyset)
             (table_io twin_header twin_rows) "in.csv" "graph.ttl" in
  stdout run.1 !! 1%nat = Some (Msg_defined 2 1 2)
  ∧ length (with_object (term RDF "type") (term SAREF "Sensor") g) = 2
  ∧ length (with_object (term RDF "type") (term SAREF "Property") g) = 1
  ∧ length (with_object (term RDF "type") (term SAREF "FeatureOfInterest") g) = 2.
Proof.
  apply (X18_counts_printed (FT:=example_floats) (PS:=gset_pyset)
           (table_io twin_header twin_rows) "in.csv" "graph.ttl"
           twin_header twin_rows); reflexivity.
Defined.
